(** * Complaint box server: access control and complaint lifecycle

    A shallow embedding of the Express server of the complaint box
    ([server/server.js], [server/middleware/auth.js], [models/User.js],
    [models/Complaint.js]) and the properties of its access-control core.

    Conventions of the embedding.
    - A JavaScript string is a [string].  Request bodies are JSON objects.
      The login body, whose values reach Mongoose and bcryptjs as they came,
      carries [jsval]s: a string or any other JSON value.  The body of a
      complaint, which is handed to [Complaint.create] whole, is read
      through the paths of the schema, each holding an [input]: absent,
      [null], a value the type of the path casts, or one it rejects; a body
      that is a JSON array, which [Model.create] takes as a batch, is
      outside the embedding.  The field of a status or approval update is
      only looked up with [includes], which compares with [===]: it is an
      [option string], where [None] stands for an absent key and for every
      value that is not a string.  The fields of the admin login are only
      tested with [!v] and compared with [!==]: a value that is not a string
      behaves there as a wrong string when truthy and as an absent key when
      falsy, and the fields are [option string]s.  The registration body is
      taken with string fields, [None] standing for an absent key.
    - The two collections are lists of documents in insertion order; an
      [ObjectId] is a natural number and the store carries the next
      identifier the driver will generate.  A route parameter [:id] is an
      [IdValue]: a string that casts to an ObjectId, or any other string.
    - [Date.now()] is an explicit argument [now], in milliseconds.
    - A handler is a function from the request and the store to the response
      and the new store; a [throw] is the [Throw] case of [result], and each
      [try]/[catch] is a [match] on it. *)

From Stdlib Require Import String Ascii List ZArith Bool Arith Lia Permutation.
Import ListNotations.
Open Scope string_scope.
Set Warnings "-register-all".

(** ** Exceptions *)

Inductive error : Type :=
| ValidationError       (* Mongoose validator failed *)
| DuplicateKeyError     (* MongoServerError E11000 on a unique index *)
| CastError             (* value cannot be cast to the type of its path *)
| MissingIdError        (* document must have an _id before saving *)
| IllegalArguments      (* bcryptjs: an argument is not a string *)
| JsonWebTokenError     (* malformed token or bad signature *)
| TokenExpiredError     (* jwt expired *)
| TimespanError.        (* bad expiresIn given to jwt.sign *)

Inductive result (A : Type) : Type :=
| Ok (a : A)
| Throw (e : error).
Arguments Ok {A} a.
Arguments Throw {A} e.

Definition bind {A B : Type} (r : result A) (k : A -> result B) : result B :=
  match r with
  | Ok a => k a
  | Throw e => Throw e
  end.

Notation "x <- r ;; k" := (bind r (fun x => k))
  (at level 61, r at next level, right associativity).

(** ** JavaScript values used by the handlers *)

Definition ObjectId := nat.

(** [!v] is false exactly for a present, non-empty string. *)
Definition truthy (v : option string) : bool :=
  match v with
  | Some s => negb (s =? "")
  | None => false
  end.

(** A JSON value of a request body that is passed on as it came: a string,
    or any other value.  Of a value that is not a string the handlers
    observe whether it is truthy and, when it is used as the condition of a
    query on a String path, which stored strings it selects: Mongoose casts
    a number or a boolean to a string, reads an object as query operators,
    and throws a CastError on what it can do neither with. *)
Inductive jsval : Type :=
| JsStr (s : string)
| JsOther (is_truthy : bool) (selects : result (string -> bool)).

(** [!v] on a body field. *)
Definition truthy_js (v : option jsval) : bool :=
  match v with
  | Some (JsStr s) => negb (s =? "")
  | Some (JsOther b _) => b
  | None => false
  end.

(** What Mongoose's cast makes of the value a document is given at a
    path. *)
Inductive input (A : Type) : Type :=
| Absent                  (* no such key: [undefined] *)
| Null                    (* [null] *)
| Value (a : A)           (* a value that casts to [a] *)
| Uncastable.             (* a value the type of the path rejects *)
Arguments Absent {A}.
Arguments Null {A}.
Arguments Value {A} a.
Arguments Uncastable {A}.

(** A stored path that may hold [null]. *)
Inductive nullable (A : Type) : Type :=
| IsNull
| NotNull (a : A).
Arguments IsNull {A}.
Arguments NotNull {A} a.

(** [a || b] on strings. *)
Definition js_or (a : option string) (b : string) : string :=
  if truthy a then match a with Some s => s | None => b end else b.

(** [[...].includes(v)] for a list of string literals. *)
Definition includes (l : list string) (v : option string) : bool :=
  match v with
  | Some s => existsb (String.eqb s) l
  | None => false
  end.

Definition is_digit (c : ascii) : bool :=
  let n := nat_of_ascii c in ((48 <=? n) && (n <=? 57))%nat.

(** [/^[0-9]{10}$/.test(s)] *)
Definition phoneRegex_test (s : string) : bool :=
  (String.length s =? 10)%nat && forallb is_digit (list_ascii_of_string s).

(** ** jsonwebtoken

    A token is what is left of the [Authorization] header after
    [.replace('Bearer ', '')]: the empty string, a string that is not a JWS,
    or a JWS.  A JWS is represented by what it encodes: the payload, the
    [iat] and [exp] claims (seconds) and the key its signature was made
    with. *)

Inductive IdValue : Type :=
| IdOid (o : ObjectId)        (* an ObjectId, or the string of one *)
| IdStr (s : string).         (* any other string, e.g. ['admin'] *)

(** The cast of a value to an ObjectId. *)
Definition castObjectId (v : IdValue) : result ObjectId :=
  match v with
  | IdOid o => Ok o
  | IdStr _ => Throw CastError
  end.

Record Claims : Type := mkClaims {
  claim_id : IdValue;
  claim_email : string;
  claim_role : string
}.

Record Jws : Type := mkJws {
  payload : Claims;
  iat : Z;
  exp : option Z;
  signed_with : string
}.

Inductive Token : Type :=
| TokEmpty
| TokGarbage
| TokJws (j : Jws).

(** The [ms] package on the formats the server uses: a decimal integer
    followed by a unit; the result is in milliseconds. *)
Fixpoint read_digits (s : string) (acc : Z) : Z * string :=
  match s with
  | String c r =>
      if is_digit c
      then read_digits r (10 * acc + Z.of_nat (nat_of_ascii c - 48))%Z
      else (acc, s)
  | EmptyString => (acc, s)
  end.

Definition unit_ms (u : string) : option Z :=
  if u =? "ms" then Some 1%Z
  else if u =? "s" then Some 1000%Z
  else if u =? "m" then Some 60000%Z
  else if u =? "h" then Some 3600000%Z
  else if u =? "d" then Some 86400000%Z
  else if u =? "w" then Some 604800000%Z
  else None.

Definition ms (s : string) : option Z :=
  match s with
  | String c _ =>
      if is_digit c
      then let '(n, u) := read_digits s 0%Z in
           match unit_ms u with
           | Some k => Some (n * k)%Z
           | None => None
           end
      else None
  | EmptyString => None
  end.

(** [jwt.sign(payload, secret, { expiresIn })] at clock [now] (ms). *)
Definition jwt_sign (p : Claims) (secret : string) (expiresIn : string)
    (now : Z) : result Token :=
  let timestamp := (now / 1000)%Z in
  match ms expiresIn with
  | Some span =>
      Ok (TokJws {| payload := p; iat := timestamp;
                    exp := Some (timestamp + span / 1000)%Z;
                    signed_with := secret |})
  | None => Throw TimespanError
  end.

(** [jwt.verify(token, secret)] at clock [now] (ms). *)
Definition jwt_verify (t : Token) (secret : string) (now : Z) : result Claims :=
  match t with
  | TokJws j =>
      if signed_with j =? secret then
        match exp j with
        | Some e =>
            if (e <=? now / 1000)%Z then Throw TokenExpiredError
            else Ok (payload j)
        | None => Ok (payload j)
        end
      else Throw JsonWebTokenError
  | _ => Throw JsonWebTokenError
  end.

(** ** JSON, as sent by [res.json] *)

Inductive json : Type :=
| JNull
| JBool (b : bool)
| JStr (s : string)
| JOid (o : ObjectId)
| JDate (t : Z)
| JTok (t : Token)
| JArr (l : list json)
| JObj (fields : list (string * json)).

(** Does the key occur anywhere in the value? *)
Fixpoint has_key (k : string) (j : json) : bool :=
  match j with
  | JArr l =>
      (fix any (l : list json) : bool :=
         match l with
         | [] => false
         | x :: r => has_key k x || any r
         end) l
  | JObj fs =>
      (fix any (fs : list (string * json)) : bool :=
         match fs with
         | [] => false
         | (k', v) :: r => (k' =? k) || has_key k v || any r
         end) fs
  | _ => false
  end.

Fixpoint get (k : string) (fs : list (string * json)) : option json :=
  match fs with
  | [] => None
  | (k', v) :: r => if k' =? k then Some v else get k r
  end.

Definition field (k : string) (j : json) : option json :=
  match j with
  | JObj fs => get k fs
  | _ => None
  end.

Record Response : Type := mkResponse {
  status : nat;
  body : json
}.

(** [res.status(code).json({ success: false, message })] *)
Definition fail (code : nat) (message : string) : Response :=
  mkResponse code (JObj [("success", JBool false); ("message", JStr message)]).

(** ** The deployment and the bcryptjs library

    The deployment is the process environment and, of the installed
    Mongoose, whose version the repository does not fix, two behaviours
    that a request can reach: whether [null] passes the [enum] validator of
    a path that is not required (it does from version 8 on), and whether a
    new document whose [_id] was set to [null] is inserted under that
    [_id] or refused.

    [bcrypt.hash(password, rounds)] draws a random salt; the salt is an
    explicit argument here.  Nothing is assumed about the two functions on
    strings; [bcrypt.compare] rejects an argument that is not a string. *)

Record Env : Type := mkEnv {
  env_JWT_SECRET : option string;
  env_ADMIN_USERNAME : string;
  env_ADMIN_PASSWORD : string;
  env_enum_accepts_null : bool;
  env_null_id_inserted : bool
}.

Record Bcrypt : Type := mkBcrypt {
  bcrypt_hash : string -> nat -> string -> string;
  bcrypt_compare : string -> string -> bool
}.

(** [process.env.JWT_SECRET || 'your-secret-key-change-in-production'] *)
Definition JWT_SECRET (env : Env) : string :=
  js_or (env_JWT_SECRET env) "your-secret-key-change-in-production".

(** ** Mongoose: validators and single-document queries *)

(** [required: true] on a String path. *)
Definition required (v : option string) : result string :=
  match v with
  | Some s => if s =? "" then Throw ValidationError else Ok s
  | None => Throw ValidationError
  end.

(** [enum: values, default: d] on a String path. *)
Definition enum (values : list string) (d : string) (v : option string)
    : result string :=
  match v with
  | Some s => if existsb (String.eqb s) values then Ok s else Throw ValidationError
  | None => Ok d
  end.

Definition with_default (d : string) (v : option string) : string :=
  match v with
  | Some s => s
  | None => d
  end.

(** [findOneAndUpdate]: the first matching document is replaced by its
    update, which is returned ([{ new: true }]). *)
Fixpoint updateOne {A : Type} (p : A -> bool) (f : A -> A) (l : list A)
    : option A * list A :=
  match l with
  | [] => (None, [])
  | x :: r =>
      if p x then (Some (f x), f x :: r)
      else let '(o, r') := updateOne p f r in (o, x :: r')
  end.

(** [findOneAndDelete]: the first matching document is removed and
    returned. *)
Fixpoint deleteOne {A : Type} (p : A -> bool) (l : list A)
    : option A * list A :=
  match l with
  | [] => (None, [])
  | x :: r =>
      if p x then (Some x, r)
      else let '(o, r') := deleteOne p r in (o, x :: r')
  end.

(** [.sort({ createdAt: -1 })] *)
Fixpoint insert_desc {A : Type} (key : A -> Z) (x : A) (l : list A) : list A :=
  match l with
  | [] => [x]
  | y :: r => if (key y <? key x)%Z then x :: l else y :: insert_desc key x r
  end.

Definition sort_desc {A : Type} (key : A -> Z) (l : list A) : list A :=
  fold_right (insert_desc key) [] l.

(** ** models/User.js *)

Module User.

Record t : Type := mk {
  _id : ObjectId;
  name : string;
  email : string;
  password : string;
  employeeNumber : string;
  department : string;
  workLocation : string;
  role : string;
  approvalStatus : string;
  createdAt : Z;
  updatedAt : Z
}.

(** The object given to [User.create]. *)
Record doc : Type := mkDoc {
  d_name : option string;
  d_email : option string;
  d_password : option string;
  d_employeeNumber : option string;
  d_department : option string;
  d_workLocation : option string;
  d_role : option string;
  d_approvalStatus : option string
}.

(** Schema validation with defaults. *)
Definition validate (oid : ObjectId) (now : Z) (d : doc) : result t :=
  n <- required (d_name d) ;;
  e <- required (d_email d) ;;
  p <- required (d_password d) ;;
  en <- required (d_employeeNumber d) ;;
  dep <- required (d_department d) ;;
  w <- required (d_workLocation d) ;;
  r <- enum ["employee"; "admin"] "employee" (d_role d) ;;
  a <- enum ["pending"; "approved"; "rejected"] "pending" (d_approvalStatus d) ;;
  Ok (mk oid n e p en dep w r a now now).

Definition set_password (u : t) (p : string) : t :=
  mk (_id u) (name u) (email u) p (employeeNumber u) (department u)
     (workLocation u) (role u) (approvalStatus u) (createdAt u) (updatedAt u).

(** [userSchema.pre('save')] *)
Definition pre_save (bcrypt : Bcrypt) (salt : string)
    (isModified_password : bool) (u : t) : t :=
  if negb isModified_password then u
  else set_password u (bcrypt_hash bcrypt (password u) 10 salt).

(** The unique indexes on [email] and [employeeNumber]. *)
Definition violates_unique (u : t) (coll : list t) : bool :=
  existsb (fun v => (email v =? email u) || (employeeNumber v =? employeeNumber u))
          coll.

(** [User.create(doc)]: validate, run the save hook, insert. *)
Definition create (bcrypt : Bcrypt) (salt : string) (oid : ObjectId) (now : Z)
    (d : doc) (coll : list t) : result (t * list t) :=
  u <- validate oid now d ;;
  let u := pre_save bcrypt salt true u in
  if violates_unique u coll then Throw DuplicateKeyError
  else Ok (u, (coll ++ [u])%list).

(** [User.findOne({ employeeNumber })] *)
Definition findOne (employeeNumber' : string) (coll : list t) : option t :=
  find (fun u => employeeNumber u =? employeeNumber') coll.

(** [User.findOne({ employeeNumber: v })] for a value taken from the
    request body. *)
Definition findOne_cast (v : jsval) (coll : list t) : result (option t) :=
  match v with
  | JsStr s => Ok (findOne s coll)
  | JsOther _ selects =>
      p <- selects ;; Ok (find (fun u => p (employeeNumber u)) coll)
  end.

Definition findById (id : ObjectId) (coll : list t) : option t :=
  find (fun u => (_id u =? id)%nat) coll.

(** [User.findById(decoded._id)]: the value is cast to an ObjectId
    first. *)
Definition findById_cast (v : IdValue) (coll : list t) : result (option t) :=
  match v with
  | IdOid o => Ok (findById o coll)
  | IdStr _ => Throw CastError
  end.

Definition set_approvalStatus (a : string) (now : Z) (u : t) : t :=
  mk (_id u) (name u) (email u) (password u) (employeeNumber u) (department u)
     (workLocation u) (role u) a (createdAt u) now.

(** [User.findByIdAndUpdate(id, { approvalStatus }, { new: true })] *)
Definition findByIdAndUpdate (id : ObjectId) (approvalStatus' : string)
    (now : Z) (coll : list t) : option t * list t :=
  updateOne (fun u => (_id u =? id)%nat) (set_approvalStatus approvalStatus' now)
            coll.

Definition findByIdAndDelete (id : ObjectId) (coll : list t)
    : option t * list t :=
  deleteOne (fun u => (_id u =? id)%nat) coll.

(** [User.find(filter).sort({ createdAt: -1 })] *)
Definition find_sorted (filter : t -> bool) (coll : list t) : list t :=
  sort_desc createdAt (List.filter filter coll).

(** [userSchema.methods.comparePassword] *)
Definition comparePassword (bcrypt : Bcrypt) (u : t) (candidatePassword : jsval)
    : result bool :=
  match candidatePassword with
  | JsStr s => Ok (bcrypt_compare bcrypt s (password u))
  | JsOther _ _ => Throw IllegalArguments
  end.

(** [userSchema.methods.generateAuthToken] *)
Definition generateAuthToken (env : Env) (u : t) (now : Z) : result Token :=
  jwt_sign (mkClaims (IdOid (_id u)) (email u) (role u)) (JWT_SECRET env) "7d" now.

(** [userSchema.statics.generateAdminToken] *)
Definition generateAdminToken (env : Env) (adminUser : Claims) (now : Z)
    : result Token :=
  jwt_sign (mkClaims (claim_id adminUser) (claim_email adminUser) "admin")
           (JWT_SECRET env) "24h" now.

(** A document loaded with [.select('-password')]. *)
Record projection : Type := mkProjection {
  p_id : ObjectId;
  p_name : string;
  p_email : string;
  p_employeeNumber : string;
  p_department : string;
  p_workLocation : string;
  p_role : string;
  p_approvalStatus : string;
  p_createdAt : Z;
  p_updatedAt : Z
}.

Definition select_minus_password (u : t) : projection :=
  mkProjection (_id u) (name u) (email u) (employeeNumber u) (department u)
               (workLocation u) (role u) (approvalStatus u) (createdAt u)
               (updatedAt u).

Definition projection_fields (p : projection) : list (string * json) :=
  [("_id", JOid (p_id p)); ("name", JStr (p_name p));
   ("email", JStr (p_email p)); ("employeeNumber", JStr (p_employeeNumber p));
   ("department", JStr (p_department p));
   ("workLocation", JStr (p_workLocation p)); ("role", JStr (p_role p));
   ("approvalStatus", JStr (p_approvalStatus p));
   ("createdAt", JDate (p_createdAt p)); ("updatedAt", JDate (p_updatedAt p))].

Definition projection_toJSON (p : projection) : json :=
  JObj (projection_fields p).

(** The whole document, as [res.json] serialises it. *)
Definition toJSON (u : t) : json :=
  JObj (("password", JStr (password u))
          :: projection_fields (select_minus_password u)).

End User.

(** ** models/Complaint.js *)

Module Complaint.

Record t : Type := mk {
  _id : nullable ObjectId;
  employeeId : ObjectId;
  employeeName : string;
  employeeEmail : string;
  employeeNumber : option (nullable string);
  department : string;
  category : string;
  priority : nullable string;
  message : string;
  status : nullable string;
  adminReply : nullable string;
  createdAt : Z;
  updatedAt : Z
}.

(** The object given to [Complaint.create], the request body, as what
    [new Complaint(req.body)] is given at each path of the schema (keys
    outside the schema are dropped by the strict mode): [_id], the ten
    declared paths, the two of [timestamps: true] and the version key
    [__v]. *)
Record doc : Type := mkDoc {
  d_id : input ObjectId;
  d_employeeId : input ObjectId;
  d_employeeName : input string;
  d_employeeEmail : input string;
  d_employeeNumber : input string;
  d_department : input string;
  d_category : input string;
  d_priority : input string;
  d_message : input string;
  d_status : input string;
  d_adminReply : input string;
  d_createdAt : input Z;
  d_updatedAt : input Z;
  d_v : input Z
}.

(** [_id]: generated unless the body sets it. *)
Definition id_path (null_id_inserted : bool) (generated : ObjectId)
    (v : input ObjectId) : result (nullable ObjectId) :=
  match v with
  | Absent => Ok (NotNull generated)
  | Null => if null_id_inserted then Ok IsNull else Throw MissingIdError
  | Value o => Ok (NotNull o)
  | Uncastable => Throw ValidationError
  end.

(** [type: ObjectId, required: true] *)
Definition required_id (v : input ObjectId) : result ObjectId :=
  match v with
  | Value o => Ok o
  | _ => Throw ValidationError
  end.

(** [type: String, required: true]: the path holds a string that is not
    empty. *)
Definition filled (v : input string) : bool :=
  match v with
  | Value s => negb (s =? "")
  | _ => false
  end.

Definition required_path (v : input string) : result string :=
  match v with
  | Value s => if filled v then Ok s else Throw ValidationError
  | _ => Throw ValidationError
  end.

(** [type: String] *)
Definition optional_path (v : input string) : result (option (nullable string)) :=
  match v with
  | Absent => Ok None
  | Null => Ok (Some IsNull)
  | Value s => Ok (Some (NotNull s))
  | Uncastable => Throw ValidationError
  end.

(** [type: String, enum: values, default: d] *)
Definition enum_path (accepts_null : bool) (values : list string) (d : string)
    (v : input string) : result (nullable string) :=
  match v with
  | Absent => Ok (NotNull d)
  | Null => if accepts_null then Ok IsNull else Throw ValidationError
  | Value s =>
      if existsb (String.eqb s) values then Ok (NotNull s)
      else Throw ValidationError
  | Uncastable => Throw ValidationError
  end.

(** [type: String, default: d] *)
Definition default_path (d : string) (v : input string)
    : result (nullable string) :=
  match v with
  | Absent => Ok (NotNull d)
  | Null => Ok IsNull
  | Value s => Ok (NotNull s)
  | Uncastable => Throw ValidationError
  end.

(** [createdAt] under [timestamps: true]: the clock unless the document
    has a value. *)
Definition createdAt_path (now : Z) (v : input Z) : result Z :=
  match v with
  | Absent | Null => Ok now
  | Value t => Ok t
  | Uncastable => Throw ValidationError
  end.

(** [updatedAt] under [timestamps: true]: a new document gets the value
    of its [createdAt], whatever the body holds, once the body's value has
    passed the cast. *)
Definition updatedAt_path (created : Z) (v : input Z) : result Z :=
  match v with
  | Uncastable => Throw ValidationError
  | _ => Ok created
  end.

(** [__v]: a Number path; no handler reads it, and the stored value is
    left out of the embedding. *)
Definition versionKey_path (v : input Z) : result unit :=
  match v with
  | Uncastable => Throw ValidationError
  | _ => Ok tt
  end.

(** The document [new Complaint(req.body)] that passes validation. *)
Definition validate (env : Env) (generated : ObjectId) (now : Z) (d : doc)
    : result t :=
  id <- id_path (env_null_id_inserted env) generated (d_id d) ;;
  eid <- required_id (d_employeeId d) ;;
  en <- required_path (d_employeeName d) ;;
  ee <- required_path (d_employeeEmail d) ;;
  num <- optional_path (d_employeeNumber d) ;;
  dep <- required_path (d_department d) ;;
  cat <- required_path (d_category d) ;;
  pri <- enum_path (env_enum_accepts_null env) ["low"; "medium"; "high"]
                   "medium" (d_priority d) ;;
  msg <- required_path (d_message d) ;;
  st <- enum_path (env_enum_accepts_null env)
                  ["pending"; "received"; "resolved"] "pending" (d_status d) ;;
  reply <- default_path "" (d_adminReply d) ;;
  created <- createdAt_path now (d_createdAt d) ;;
  updated <- updatedAt_path created (d_updatedAt d) ;;
  _ <- versionKey_path (d_v d) ;;
  Ok (mk id eid en ee num dep cat pri msg st reply created updated).

Definition id_eqb (a b : nullable ObjectId) : bool :=
  match a, b with
  | IsNull, IsNull => true
  | NotNull x, NotNull y => (x =? y)%nat
  | _, _ => false
  end.

(** The unique index on [_id]. *)
Definition violates_unique (c : t) (coll : list t) : bool :=
  existsb (fun x => id_eqb (_id x) (_id c)) coll.

(** [Complaint.create(req.body)]: validate, insert. *)
Definition create (env : Env) (generated : ObjectId) (now : Z) (d : doc)
    (coll : list t) : result (t * list t) :=
  c <- validate env generated now d ;;
  if violates_unique c coll then Throw DuplicateKeyError
  else Ok (c, (coll ++ [c])%list).

Definition has_id (id : ObjectId) (c : t) : bool :=
  id_eqb (_id c) (NotNull id).

Definition findById (id : ObjectId) (coll : list t) : option t :=
  find (has_id id) coll.

(** The document with its [status] and [updatedAt] replaced. *)
Definition with_status (st : nullable string) (now : Z) (c : t) : t :=
  mk (_id c) (employeeId c) (employeeName c) (employeeEmail c)
     (employeeNumber c) (department c) (category c) (priority c) (message c)
     st (adminReply c) (createdAt c) now.

(** The update [{ status: s }], which also stamps [updatedAt]. *)
Definition set_status (s : string) (now : Z) (c : t) : t :=
  with_status (NotNull s) now c.

(** [Complaint.findByIdAndUpdate(id, { status }, { new: true })] *)
Definition findByIdAndUpdate (id : ObjectId) (status' : string) (now : Z)
    (coll : list t) : option t * list t :=
  updateOne (has_id id) (set_status status' now) coll.

Definition findByIdAndDelete (id : ObjectId) (coll : list t)
    : option t * list t :=
  deleteOne (has_id id) coll.

(** [Complaint.deleteMany({ employeeId })] *)
Definition deleteMany (employeeId' : ObjectId) (coll : list t) : list t :=
  List.filter (fun c => negb (employeeId c =? employeeId')%nat) coll.

(** [Complaint.find().sort({ createdAt: -1 })] *)
Definition find_sorted (coll : list t) : list t :=
  sort_desc createdAt coll.

Definition JId (v : nullable ObjectId) : json :=
  match v with
  | NotNull o => JOid o
  | IsNull => JNull
  end.

Definition JText (v : nullable string) : json :=
  match v with
  | NotNull s => JStr s
  | IsNull => JNull
  end.

Definition opt_str (k : string) (v : option (nullable string))
    : list (string * json) :=
  match v with
  | Some s => [(k, JText s)]
  | None => []
  end.

Definition toJSON (c : t) : json :=
  JObj (([("_id", JId (_id c)); ("employeeId", JOid (employeeId c));
         ("employeeName", JStr (employeeName c));
         ("employeeEmail", JStr (employeeEmail c))]
        ++ opt_str "employeeNumber" (employeeNumber c)
        ++ [("department", JStr (department c));
            ("category", JStr (category c)); ("priority", JText (priority c));
            ("message", JStr (message c)); ("status", JText (status c));
            ("adminReply", JText (adminReply c));
            ("createdAt", JDate (createdAt c));
            ("updatedAt", JDate (updatedAt c))])%list).

End Complaint.

(** ** The database *)

Record Store : Type := mkStore {
  users : list User.t;
  complaints : list Complaint.t;
  next_oid : ObjectId
}.

(** The next identifier the driver generates lies past every identifier
    in use, the ones a request body chose included. *)
Definition fresh_after (n : ObjectId) (used : nullable ObjectId) : ObjectId :=
  match used with
  | NotNull o => S (Nat.max n o)
  | IsNull => S n
  end.

(** ** middleware/auth.js and server.js *)

(** A middleware either answers the request or calls [next()] with
    [req.user] set. *)
Inductive gate (A : Type) : Type :=
| Respond (r : Response)
| Next (req_user : A).
Arguments Respond {A} r.
Arguments Next {A} req_user.

(** [app.METHOD(path, middleware, handler)] *)
Definition protect {A : Type} (g : gate A) (handler : A -> Response * Store)
    (s : Store) : Response * Store :=
  match g with
  | Respond r => (r, s)
  | Next u => handler u
  end.

Record RegisterBody : Type := mkRegisterBody {
  rb_name : option string;
  rb_email : option string;
  rb_password : option string;
  rb_employeeNumber : option string;
  rb_department : option string;
  rb_workLocation : option string
}.

Record LoginBody : Type := mkLoginBody {
  lb_email : option jsval;
  lb_password : option jsval
}.

Record AdminLoginBody : Type := mkAdminLoginBody {
  ab_username : option string;
  ab_password : option string
}.

Section Server.

Variable bcrypt : Bcrypt.
Variable env : Env.

(** *** middleware/auth.js *)

Definition authMiddleware (now : Z) (authorization : option Token) (s : Store)
    : gate User.projection :=
  match authorization with
  | None | Some TokEmpty => Respond (fail 401 "Authentication required")
  | Some token =>
      match
        decoded <- jwt_verify token (JWT_SECRET env) now ;;
        User.findById_cast (claim_id decoded) (users s)
      with
      | Throw _ => Respond (fail 401 "Invalid or expired token")
      | Ok None => Respond (fail 401 "User not found")
      | Ok (Some u) =>
          let user := User.select_minus_password u in
          if negb (User.p_approvalStatus user =? "approved")
          then Respond (fail 403 "Account not approved")
          else Next user
      end
  end.

Definition adminMiddleware (now : Z) (authorization : option Token)
    : gate Claims :=
  match authorization with
  | None | Some TokEmpty => Respond (fail 401 "Authentication required")
  | Some token =>
      match jwt_verify token (JWT_SECRET env) now with
      | Throw _ => Respond (fail 401 "Invalid or expired token")
      | Ok decoded =>
          if negb (claim_role decoded =? "admin")
          then Respond (fail 403 "Admin access required")
          else Next decoded
      end
  end.

(** *** POST /api/auth/register *)

Definition register (salt : string) (now : Z) (b : RegisterBody) (s : Store)
    : Response * Store :=
  if negb (truthy (rb_name b)) || negb (truthy (rb_password b))
     || negb (truthy (rb_employeeNumber b)) || negb (truthy (rb_department b))
     || negb (truthy (rb_workLocation b))
  then (fail 400 "All fields are required", s)
  else
    let employeeNumber := with_default "" (rb_employeeNumber b) in
    let password := with_default "" (rb_password b) in
    if negb (phoneRegex_test employeeNumber)
    then (fail 400 "Phone number must be exactly 10 digits", s)
    else if (String.length password <? 6)%nat
    then (fail 400 "Password must be at least 6 characters", s)
    else
      match User.findOne employeeNumber (users s) with
      | Some _ => (fail 400 "Phone number already registered", s)
      | None =>
          let generatedEmail :=
            js_or (rb_email b) (employeeNumber ++ "@complaintbox.local") in
          match
            User.create bcrypt salt (next_oid s) now
              (User.mkDoc (rb_name b) (Some generatedEmail) (rb_password b)
                          (rb_employeeNumber b) (rb_department b)
                          (rb_workLocation b) None (Some "pending"))
              (users s)
          with
          | Ok (user, coll) =>
              (mkResponse 201
                 (JObj [("success", JBool true);
                        ("message",
                         JStr "Registration successful! Wait for admin approval.");
                        ("user",
                         JObj [("_id", JOid (User._id user));
                               ("name", JStr (User.name user));
                               ("employeeNumber",
                                JStr (User.employeeNumber user))])]),
               mkStore coll (complaints s) (S (next_oid s)))
          | Throw _ => (fail 500 "Server error occurred", s)
          end
      end.

(** *** POST /api/auth/login *)

(** The response once the account is found and the password matches. *)
Definition login_found (now : Z) (user : User.t) : result Response :=
  if User.approvalStatus user =? "pending"
  then Ok (fail 403 "Account pending approval")
  else if User.approvalStatus user =? "rejected"
  then Ok (fail 403 "Account rejected. Contact HR.")
  else
    token <- User.generateAuthToken env user now ;;
    Ok (mkResponse 200
          (JObj [("success", JBool true);
                 ("token", JTok token);
                 ("user",
                  JObj [("_id", JOid (User._id user));
                        ("name", JStr (User.name user));
                        ("email", JStr (User.email user));
                        ("role", JStr (User.role user));
                        ("department", JStr (User.department user));
                        ("workLocation", JStr (User.workLocation user));
                        ("employeeNumber", JStr (User.employeeNumber user));
                        ("approvalStatus",
                         JStr (User.approvalStatus user))])])).

Definition login (now : Z) (b : LoginBody) (s : Store) : Response :=
  match lb_email b, lb_password b with
  | Some phoneNumber, Some password =>
      if negb (truthy_js (Some phoneNumber)) || negb (truthy_js (Some password))
      then fail 400 "Phone number and password required"
      else
        match
          found <- User.findOne_cast phoneNumber (users s) ;;
          match found with
          | None => Ok (fail 401 "Invalid credentials")
          | Some user =>
              same <- User.comparePassword bcrypt user password ;;
              if negb same then Ok (fail 401 "Invalid credentials")
              else login_found now user
          end
        with
        | Ok response => response
        | Throw _ => fail 500 "Server error occurred"
        end
  | _, _ => fail 400 "Phone number and password required"
  end.

(** *** POST /api/auth/admin/login *)

Definition admin_login (now : Z) (b : AdminLoginBody) : Response :=
  if negb (truthy (ab_username b)) || negb (truthy (ab_password b))
  then fail 400 "Username and password required"
  else
    let username := with_default "" (ab_username b) in
    let password := with_default "" (ab_password b) in
    if negb (username =? env_ADMIN_USERNAME env)
       || negb (password =? env_ADMIN_PASSWORD env)
    then fail 401 "Invalid admin credentials"
    else
      let adminUser := mkClaims (IdStr "admin") "admin@system.com" "admin" in
      match User.generateAdminToken env adminUser now with
      | Ok token =>
          mkResponse 200
            (JObj [("success", JBool true);
                   ("token", JTok token);
                   ("user",
                    JObj [("role", JStr "admin");
                          ("username", JStr (env_ADMIN_USERNAME env))])])
      | Throw _ => fail 500 "Server error occurred"
      end.

(** *** GET /api/complaints *)

Definition get_complaints (now : Z) (authorization : option Token) (s : Store)
    : Response * Store :=
  protect (authMiddleware now authorization s)
    (fun _ =>
       (mkResponse 200
          (JArr (map Complaint.toJSON (Complaint.find_sorted (complaints s)))),
        s))
    s.

(** *** POST /api/complaints *)

Definition create_complaint (now : Z) (req_body : Complaint.doc) (s : Store)
    (req_user : User.projection) : Response * Store :=
  match Complaint.create env (next_oid s) now req_body (complaints s) with
  | Ok (complaint, coll) =>
      (mkResponse 201
         (JObj [("success", JBool true);
                ("complaint", Complaint.toJSON complaint)]),
       mkStore (users s) coll (fresh_after (next_oid s) (Complaint._id complaint)))
  | Throw _ => (fail 500 "Server error occurred", s)
  end.

Definition post_complaints (now : Z) (authorization : option Token)
    (req_body : Complaint.doc) (s : Store) : Response * Store :=
  protect (authMiddleware now authorization s)
    (create_complaint now req_body s) s.

(** *** GET /api/admin/users and GET /api/admin/users/pending *)

Definition get_admin_users (now : Z) (authorization : option Token) (s : Store)
    : Response * Store :=
  protect (adminMiddleware now authorization)
    (fun _ =>
       (mkResponse 200
          (JObj [("success", JBool true);
                 ("users",
                  JArr (map (fun u => User.projection_toJSON
                                        (User.select_minus_password u))
                            (User.find_sorted (fun _ => true) (users s))))]),
        s))
    s.

Definition get_admin_users_pending (now : Z) (authorization : option Token)
    (s : Store) : Response * Store :=
  protect (adminMiddleware now authorization)
    (fun _ =>
       (mkResponse 200
          (JObj [("success", JBool true);
                 ("users",
                  JArr (map (fun u => User.projection_toJSON
                                        (User.select_minus_password u))
                            (User.find_sorted
                               (fun u => User.approvalStatus u =? "pending")
                               (users s))))]),
        s))
    s.

(** *** PATCH /api/admin/users/:id/approval *)

Definition update_approval (now : Z) (id : IdValue)
    (approvalStatus : option string) (s : Store) (req_user : Claims)
    : Response * Store :=
  if negb (includes ["approved"; "rejected"; "pending"] approvalStatus)
  then (fail 400 "Invalid approval status", s)
  else
    match
      oid <- castObjectId id ;;
      Ok (User.findByIdAndUpdate oid (with_default "" approvalStatus) now
                                 (users s))
    with
    | Ok (None, _) => (fail 404 "User not found", s)
    | Ok (Some user, coll) =>
        (mkResponse 200
           (JObj [("success", JBool true); ("user", User.toJSON user)]),
         mkStore coll (complaints s) (next_oid s))
    | Throw _ => (fail 500 "Server error occurred", s)
    end.

Definition patch_user_approval (now : Z) (authorization : option Token)
    (id : IdValue) (approvalStatus : option string) (s : Store)
    : Response * Store :=
  protect (adminMiddleware now authorization)
    (update_approval now id approvalStatus s) s.

(** *** DELETE /api/admin/users/:id *)

Definition delete_user_handler (userId : IdValue) (s : Store)
    (req_user : Claims) : Response * Store :=
  match
    oid <- castObjectId userId ;;
    Ok (oid, User.findByIdAndDelete oid (users s))
  with
  | Ok (_, (None, _)) => (fail 404 "User not found", s)
  | Ok (oid, (Some deletedUser, coll)) =>
      (mkResponse 200
         (JObj [("success", JBool true);
                ("message",
                 JStr "User and associated complaints deleted successfully")]),
       mkStore coll (Complaint.deleteMany oid (complaints s)) (next_oid s))
  | Throw _ => (fail 500 "Server error occurred", s)
  end.

Definition delete_user (now : Z) (authorization : option Token)
    (userId : IdValue) (s : Store) : Response * Store :=
  protect (adminMiddleware now authorization) (delete_user_handler userId s) s.

(** *** PATCH /api/admin/complaints/:id/status *)

Definition update_status (now : Z) (id : IdValue) (status' : option string)
    (s : Store) (req_user : Claims) : Response * Store :=
  if negb (includes ["pending"; "received"; "resolved"] status')
  then (fail 400 "Invalid status", s)
  else
    match
      oid <- castObjectId id ;;
      Ok (Complaint.findByIdAndUpdate oid (with_default "" status') now
                                      (complaints s))
    with
    | Ok (None, _) => (fail 404 "Complaint not found", s)
    | Ok (Some complaint, coll) =>
        (mkResponse 200
           (JObj [("success", JBool true);
                  ("complaint", Complaint.toJSON complaint)]),
         mkStore (users s) coll (next_oid s))
    | Throw _ => (fail 500 "Server error occurred", s)
    end.

Definition patch_complaint_status (now : Z) (authorization : option Token)
    (id : IdValue) (status' : option string) (s : Store)
    : Response * Store :=
  protect (adminMiddleware now authorization) (update_status now id status' s) s.

(** *** GET /api/complaints/:id *)

Definition get_complaint (now : Z) (authorization : option Token)
    (id : IdValue) (s : Store) : Response * Store :=
  protect (authMiddleware now authorization s)
    (fun _ =>
       match
         oid <- castObjectId id ;; Ok (Complaint.findById oid (complaints s))
       with
       | Ok None => (fail 404 "Not found", s)
       | Ok (Some complaint) =>
           (mkResponse 200
              (JObj [("success", JBool true);
                     ("complaint", Complaint.toJSON complaint)]),
            s)
       | Throw _ => (fail 500 "Server error occurred", s)
       end)
    s.

(** *** GET /api/admin/complaints *)

Definition get_admin_complaints (now : Z) (authorization : option Token)
    (s : Store) : Response * Store :=
  protect (adminMiddleware now authorization)
    (fun _ =>
       (mkResponse 200
          (JObj [("success", JBool true);
                 ("complaints",
                  JArr (map Complaint.toJSON
                            (Complaint.find_sorted (complaints s))))]),
        s))
    s.

(** *** DELETE /api/admin/complaints/:id *)

Definition delete_complaint_handler (id : IdValue) (s : Store)
    (req_user : Claims) : Response * Store :=
  match
    oid <- castObjectId id ;;
    Ok (Complaint.findByIdAndDelete oid (complaints s))
  with
  | Ok (None, _) => (fail 404 "Complaint not found", s)
  | Ok (Some deletedComplaint, coll) =>
      (mkResponse 200
         (JObj [("success", JBool true);
                ("message", JStr "Complaint deleted successfully")]),
       mkStore (users s) coll (next_oid s))
  | Throw _ => (fail 500 "Server error occurred", s)
  end.

Definition delete_complaint (now : Z) (authorization : option Token)
    (id : IdValue) (s : Store) : Response * Store :=
  protect (adminMiddleware now authorization) (delete_complaint_handler id s) s.

End Server.

(** *** The route table

    One constructor per [app.METHOD(path, ...)] registration of the API;
    [serve] dispatches a request to its route.  The salt is the one
    [bcrypt.hash] draws while the request is served. *)

Inductive Request : Type :=
| PostRegister (salt : string) (b : RegisterBody)
| PostLogin (b : LoginBody)
| PostAdminLogin (b : AdminLoginBody)
| GetComplaints (authorization : option Token)
| PostComplaints (authorization : option Token) (req_body : Complaint.doc)
| GetComplaint (authorization : option Token) (id : IdValue)
| GetAdminUsers (authorization : option Token)
| GetAdminUsersPending (authorization : option Token)
| PatchUserApproval (authorization : option Token) (id : IdValue)
    (approvalStatus : option string)
| DeleteUser (authorization : option Token) (id : IdValue)
| GetAdminComplaints (authorization : option Token)
| PatchComplaintStatus (authorization : option Token) (id : IdValue)
    (status' : option string)
| DeleteComplaint (authorization : option Token) (id : IdValue).

Definition serve (bcrypt : Bcrypt) (env : Env) (now : Z) (req : Request)
    (s : Store) : Response * Store :=
  match req with
  | PostRegister salt b => register bcrypt salt now b s
  | PostLogin b => (login bcrypt env now b s, s)
  | PostAdminLogin b => (admin_login env now b, s)
  | GetComplaints a => get_complaints env now a s
  | PostComplaints a d => post_complaints env now a d s
  | GetComplaint a id => get_complaint env now a id s
  | GetAdminUsers a => get_admin_users env now a s
  | GetAdminUsersPending a => get_admin_users_pending env now a s
  | PatchUserApproval a id v => patch_user_approval env now a id v s
  | DeleteUser a id => delete_user env now a id s
  | GetAdminComplaints a => get_admin_complaints env now a s
  | PatchComplaintStatus a id v => patch_complaint_status env now a id v s
  | DeleteComplaint a id => delete_complaint env now a id s
  end.

(** The store after a sequence of requests, each with the clock at which
    it is served. *)
Fixpoint run (bcrypt : Bcrypt) (env : Env) (trace : list (Z * Request))
    (s : Store) : Store :=
  match trace with
  | [] => s
  | (now, req) :: rest => run bcrypt env rest (snd (serve bcrypt env now req s))
  end.

(** ** Store invariants

    What MongoDB maintains by itself: identifiers are unique within a
    collection and lie before [next_oid]; the unique indexes of the user
    schema hold. *)

Definition id_below (n : ObjectId) (v : nullable ObjectId) : Prop :=
  match v with
  | NotNull o => o < n
  | IsNull => True
  end.

Definition store_ok (s : Store) : Prop :=
  NoDup (map User._id (users s))
  /\ NoDup (map User.employeeNumber (users s))
  /\ NoDup (map User.email (users s))
  /\ NoDup (map Complaint._id (complaints s))
  /\ Forall (fun u => User._id u < next_oid s) (users s)
  /\ Forall (fun c => id_below (next_oid s) (Complaint._id c)) (complaints s).

(** An identifier that was generated and resolves to no account: it stays
    so, since identifiers are not issued twice. *)
Definition gone (id : ObjectId) (s : Store) : Prop :=
  id < next_oid s /\ User.findById id (users s) = None.

(** What the schemas and the handlers' own checks maintain on the stored
    documents: required string paths are non-empty, enumerated paths hold
    one of their literals, and every account has the role ['employee']. *)

Definition user_ok (u : User.t) : Prop :=
  User.name u <> "" /\ User.email u <> "" /\ User.employeeNumber u <> ""
  /\ User.department u <> "" /\ User.workLocation u <> ""
  /\ User.role u = "employee"
  /\ In (User.approvalStatus u) ["pending"; "approved"; "rejected"].

Definition one_of (values : list string) (v : nullable string) : Prop :=
  match v with
  | NotNull s => In s values
  | IsNull => False
  end.

Definition complaint_ok (c : Complaint.t) : Prop :=
  Complaint.employeeName c <> "" /\ Complaint.employeeEmail c <> ""
  /\ Complaint.department c <> "" /\ Complaint.category c <> ""
  /\ Complaint.message c <> ""
  /\ one_of ["low"; "medium"; "high"] (Complaint.priority c)
  /\ one_of ["pending"; "received"; "resolved"] (Complaint.status c).

Definition schema_ok (s : Store) : Prop :=
  Forall user_ok (users s) /\ Forall complaint_ok (complaints s).

(** The same under a Mongoose whose [enum] validator lets [null] pass: an
    enumerated path of a complaint holds one of its literals or [null]. *)




(** ** Complaint bodies

    A body is well formed when every path holds what the schema allows;
    the [_id] it sets, if any, is free when no stored complaint has it. *)

Definition well_formed (env : Env) (d : Complaint.doc) : Prop :=
  (Complaint.d_id d = Absent
   \/ (exists o, Complaint.d_id d = Value o)
   \/ (Complaint.d_id d = Null /\ env_null_id_inserted env = true))
  /\ (exists o, Complaint.d_employeeId d = Value o)
  /\ Complaint.filled (Complaint.d_employeeName d) = true
  /\ Complaint.filled (Complaint.d_employeeEmail d) = true
  /\ Complaint.d_employeeNumber d <> Uncastable
  /\ Complaint.filled (Complaint.d_department d) = true
  /\ Complaint.filled (Complaint.d_category d) = true
  /\ (Complaint.d_priority d = Absent
      \/ (exists p, Complaint.d_priority d = Value p
                    /\ In p ["low"; "medium"; "high"])
      \/ (Complaint.d_priority d = Null /\ env_enum_accepts_null env = true))
  /\ Complaint.filled (Complaint.d_message d) = true
  /\ (Complaint.d_status d = Absent
      \/ (exists st, Complaint.d_status d = Value st
                     /\ In st ["pending"; "received"; "resolved"])
      \/ (Complaint.d_status d = Null /\ env_enum_accepts_null env = true))
  /\ Complaint.d_adminReply d <> Uncastable
  /\ Complaint.d_createdAt d <> Uncastable
  /\ Complaint.d_updatedAt d <> Uncastable
  /\ Complaint.d_v d <> Uncastable.

Definition id_free (d : Complaint.doc) (coll : list Complaint.t) : Prop :=
  match Complaint.d_id d with
  | Value o => forall c, In c coll -> Complaint._id c <> NotNull o
  | Null => forall c, In c coll -> Complaint._id c <> IsNull
  | _ => True
  end.

(** [.sort({ createdAt: -1 })] leaves the documents newest first. *)
Fixpoint newest_first {A : Type} (key : A -> Z) (l : list A) : Prop :=
  match l with
  | [] => True
  | x :: r => (forall y, In y r -> (key y <= key x)%Z) /\ newest_first key r
  end.

(** ** Concrete instances, for running the handlers *)

Module Sample.

(** A stand-in for bcryptjs with the shape of the library (a salted
    digest, comparison by recomputation) and none of its strength. *)
Definition hash (pw : string) (rounds : nat) (salt : string) : string :=
  salt ++ "$" ++ pw.

Definition compare (candidate digest : string) : bool :=
  match index 0 "$" digest with
  | Some i =>
      substring (S i) (String.length digest - S i) digest =? candidate
  | None => false
  end.

Definition bcrypt : Bcrypt := mkBcrypt hash compare.

Definition env : Env :=
  mkEnv (Some "0123456789abcdef0123456789abcdef") "admin" "letmein-admin"
        true true.

Definition asha : User.t :=
  User.mk 0 "Asha" "9876543210@complaintbox.local" "NaCl$secret1" "9876543210"
          "IT" "Airport" "employee" "approved" 1000 1000.

Definition binu : User.t :=
  User.mk 1 "Binu" "binu@example.com" "KCl$hunter22" "9123456780"
          "HR" "Harbour" "employee" "pending" 2000 2000.

Definition pf_issue : Complaint.t :=
  Complaint.mk (NotNull 2) 0 "Asha" "9876543210@complaintbox.local"
               (Some (NotNull "9876543210")) "IT" "PF" (NotNull "high")
               "PF not credited" (NotNull "pending") (NotNull "") 3000 3000.

Definition leave_issue : Complaint.t :=
  Complaint.mk (NotNull 3) 1 "Binu" "binu@example.com" None
               "HR" "Leave" (NotNull "medium") "Leave balance wrong"
               (NotNull "resolved") (NotNull "") 4000 4000.

Definition store : Store :=
  mkStore [asha; binu] [pf_issue; leave_issue] 4.

Definition empty : Store := mkStore [] [] 0.

(** The token [asha] gets from a login at clock 5000 ms, and the
    administrator's from a login at the same time. *)
Definition asha_token : Token :=
  TokJws (mkJws (mkClaims (IdOid 0) "9876543210@complaintbox.local" "employee")
                5 (Some 604805%Z) "0123456789abcdef0123456789abcdef").

Definition admin_token : Token :=
  TokJws (mkJws (mkClaims (IdStr "admin") "admin@system.com" "admin")
                5 (Some 86405%Z) "0123456789abcdef0123456789abcdef").

Definition asha_login : LoginBody :=
  mkLoginBody (Some (JsStr "9876543210")) (Some (JsStr "secret1")).

Definition binu_login : LoginBody :=
  mkLoginBody (Some (JsStr "9123456780")) (Some (JsStr "hunter22")).

Definition binu_wrong_login : LoginBody :=
  mkLoginBody (Some (JsStr "9123456780")) (Some (JsStr "hunter23")).


(** The JSON number [123456] sent as password: truthy, not a string. *)
Definition number_123456 : jsval :=
  JsOther true (Ok (String.eqb "123456")).

Definition binu_number_login : LoginBody :=
  mkLoginBody (Some (JsStr "9123456780")) (Some number_123456).


Definition admin_credentials : AdminLoginBody :=
  mkAdminLoginBody (Some "admin") (Some "letmein-admin").

Definition asha_registration : RegisterBody :=
  mkRegisterBody (Some "Asha") None (Some "secret1") (Some "9876543210")
                 (Some "IT") (Some "Airport").

Definition chitra_registration : RegisterBody :=
  mkRegisterBody (Some "Chitra") None (Some "pass1234") (Some "9000000001")
                 (Some "Ops") (Some "Depot").



(** What the shipped client sends for [asha], with the category left
    out. *)
Definition no_category_complaint : Complaint.doc :=
  Complaint.mkDoc Absent (Value 0) (Value "Asha")
                  (Value "9876543210@complaintbox.local") (Value "9876543210")
                  (Value "IT") Absent (Value "medium") (Value "PF not credited")
                  Absent Absent Absent Absent Absent.

Definition honest_complaint : Complaint.doc :=
  Complaint.mkDoc Absent (Value 0) (Value "Asha")
                  (Value "9876543210@complaintbox.local") (Value "9876543210")
                  (Value "IT") (Value "PF") (Value "high")
                  (Value "PF not credited") Absent Absent Absent Absent Absent.

(** The same body carrying the [_id] of a stored complaint. *)
Definition replayed_complaint : Complaint.doc :=
  Complaint.mkDoc (Value 2) (Value 0) (Value "Asha")
                  (Value "9876543210@complaintbox.local") (Value "9876543210")
                  (Value "IT") (Value "PF") (Value "high")
                  (Value "PF not credited") Absent Absent Absent Absent Absent.

End Sample.

(** ** The browser client

    The parts of [client/src/pages/Employee.jsx] and of the admin page that
    compute on what the server sent.  [user] is the object stored from the
    login response, [data] a response body. *)

Module Client.


Definition oid (k : string) (o : json) : input ObjectId :=
  match field k o with
  | Some (JOid x) => Value x
  | Some JNull => Null
  | _ => Absent
  end.



(** [c.employeeId === user._id] *)
Definition same_id (a b : option json) : bool :=
  match a, b with
  | Some (JOid x), Some (JOid y) => (x =? y)%nat
  | _, _ => false
  end.

(** [fetchComplaints]: the new [complaints] state,
    [res.data.filter(c => c.employeeId === user._id)]; when [res.data] is
    not an array the call throws, the [catch] logs, and the state stays. *)
Definition fetchComplaints (previous : list json) (user : json) (data : json)
    : list json :=
  match data with
  | JArr l => filter (fun c => same_id (field "employeeId" c) (field "_id" user)) l
  | _ => previous
  end.

(** The admin page: [if (data.success) setComplaints(data.complaints)].
    The state is a list; the server sends an array whenever it sends
    [success: true] on this route. *)
Definition admin_fetchComplaints (previous : list json) (data : json)
    : list json :=
  match field "success" data, field "complaints" data with
  | Some (JBool true), Some (JArr l) => l
  | _, _ => previous
  end.

Definition has_status (st : string) (c : json) : bool :=
  match field "status" c with
  | Some (JStr x) => x =? st
  | _ => false
  end.

(** The admin page's [stats] object. *)
Record Stats : Type := mkStats {
  total : nat;
  pending : nat;
  received : nat;
  resolved : nat;
  users : nat
}.

Definition stats (complaints users' : list json) : Stats :=
  mkStats (List.length complaints)
          (List.length (filter (has_status "pending") complaints))
          (List.length (filter (has_status "received") complaints))
          (List.length (filter (has_status "resolved") complaints))
          (List.length users').

End Client.

(** * Properties *)

(** ** Single-document queries *)

Section Queries.

Context {A : Type}.
Variable p : A -> bool.

Lemma updateOne_fst (f : A -> A) (l : list A) :
  fst (updateOne p f l) = option_map f (find p l).
Proof.
  induction l as [|x r IH]; simpl; [reflexivity|].
  destruct (p x); [reflexivity|].
  destruct (updateOne p f r) as [o r']; simpl in *. exact IH.
Qed.

Lemma updateOne_miss (f : A -> A) (l : list A) :
  find p l = None -> updateOne p f l = (None, l).
Proof.
  induction l as [|x r IH]; simpl; [reflexivity|].
  destruct (p x); [discriminate|].
  intros H. rewrite (IH H). reflexivity.
Qed.

Lemma updateOne_find (f : A -> A) (l : list A) :
  (forall x, p (f x) = p x) ->
  find p (snd (updateOne p f l)) = option_map f (find p l).
Proof.
  intros Hp. induction l as [|x r IH]; simpl; [reflexivity|].
  destruct (p x) eqn:Px.
  - simpl. rewrite Hp, Px. reflexivity.
  - destruct (updateOne p f r) as [o r']; simpl in *. rewrite Px. exact IH.
Qed.

Lemma deleteOne_fst (l : list A) : fst (deleteOne p l) = find p l.
Proof.
  induction l as [|x r IH]; simpl; [reflexivity|].
  destruct (p x); [reflexivity|].
  destruct (deleteOne p r) as [o r']; simpl in *. exact IH.
Qed.

Lemma deleteOne_miss (l : list A) :
  find p l = None -> deleteOne p l = (None, l).
Proof.
  induction l as [|x r IH]; simpl; [reflexivity|].
  destruct (p x); [discriminate|].
  intros H. rewrite (IH H). reflexivity.
Qed.

Lemma deleteOne_incl (l : list A) (x : A) :
  In x (snd (deleteOne p l)) -> In x l.
Proof.
  induction l as [|y r IH]; simpl; [tauto|].
  destruct (p y); [simpl; tauto|].
  destruct (deleteOne p r) as [o r']; simpl in *. tauto.
Qed.

Lemma deleteOne_keeps (l : list A) (x : A) :
  In x l -> p x = false -> In x (snd (deleteOne p l)).
Proof.
  induction l as [|y r IH]; simpl; [tauto|].
  intros [-> | Hin] Px.
  - rewrite Px. destruct (deleteOne p r); simpl. now left.
  - destruct (p y); [exact Hin|].
    destruct (deleteOne p r) as [o r']; simpl in *. right. now apply IH.
Qed.

End Queries.

(** With unique keys, deleting by key removes every document with that
    key and nothing else. *)
Lemma deleteOne_by_key {A : Type} (key : A -> nat) (id : nat) (l : list A) (x : A) :
  NoDup (map key l) ->
  (In x (snd (deleteOne (fun y => key y =? id)%nat l)) <-> In x l /\ key x <> id).
Proof.
  induction l as [|y r IH]; simpl; intros ND.
  - tauto.
  - inversion ND as [|? ? Hnotin ND']; subst.
    destruct (Nat.eqb_spec (key y) id) as [E|E]; simpl.
    + split.
      * intros Hin. split; [now right|].
        intros Hx. apply Hnotin. rewrite E, <- Hx. now apply in_map.
      * intros [[->|Hin] Hx]; [contradiction|exact Hin].
    + specialize (IH ND').
      destruct (deleteOne (fun y0 => key y0 =? id)%nat r) as [o r']; simpl in *.
      split.
      * intros [->|Hin]; [split; [now left|exact E]|].
        apply IH in Hin. tauto.
      * intros [[->|Hin] Hx]; [now left|]. right. apply IH. tauto.
Qed.

Lemma find_by_key_In {A : Type} (key : A -> nat) (id : nat) (l : list A) (x : A) :
  find (fun y => key y =? id)%nat l = Some x -> In x l /\ key x = id.
Proof.
  intros H. apply find_some in H. destruct H as [Hin Hk].
  apply Nat.eqb_eq in Hk. tauto.
Qed.

Lemma find_by_key_None {A : Type} (key : A -> nat) (id : nat) (l : list A) :
  (forall x, In x l -> key x <> id) ->
  find (fun y => key y =? id)%nat l = None.
Proof.
  intros H. destruct (find _ l) as [x|] eqn:E; [|reflexivity].
  apply find_by_key_In in E. destruct E as [Hin Hk]. now apply H in Hin.
Qed.

(** The same for the identifiers of complaints, which may be [null]. *)
Lemma id_eqb_spec (a b : nullable ObjectId) :
  Complaint.id_eqb a b = true <-> a = b.
Proof.
  destruct a as [|x], b as [|y]; simpl; split; try congruence.
  - intros H. apply Nat.eqb_eq in H. now subst.
  - intros [= ->]. apply Nat.eqb_refl.
Qed.

Lemma has_id_spec (id : ObjectId) (c : Complaint.t) :
  Complaint.has_id id c = true <-> Complaint._id c = NotNull id.
Proof. apply id_eqb_spec. Qed.

Lemma has_id_false (id : ObjectId) (c : Complaint.t) :
  Complaint.has_id id c = false <-> Complaint._id c <> NotNull id.
Proof.
  rewrite <- has_id_spec. destruct (Complaint.has_id id c); split; congruence.
Qed.

Lemma deleteOne_by_id (id : ObjectId) (l : list Complaint.t) (x : Complaint.t) :
  NoDup (map Complaint._id l) ->
  (In x (snd (deleteOne (Complaint.has_id id) l))
   <-> In x l /\ Complaint._id x <> NotNull id).
Proof.
  induction l as [|y r IH]; simpl; intros ND.
  - tauto.
  - inversion ND as [|? ? Hnotin ND']; subst.
    destruct (Complaint.has_id id y) eqn:E; simpl.
    + apply has_id_spec in E. split.
      * intros Hin. split; [now right|].
        intros Hx. apply Hnotin. rewrite E, <- Hx. now apply in_map.
      * intros [[->|Hin] Hx]; [contradiction|exact Hin].
    + apply has_id_false in E. specialize (IH ND').
      destruct (deleteOne (Complaint.has_id id) r) as [o r']; simpl in *.
      split.
      * intros [->|Hin]; [split; [now left|exact E]|].
        apply IH in Hin. tauto.
      * intros [[->|Hin] Hx]; [now left|]. right. apply IH. tauto.
Qed.

Lemma Complaint_findById_In (id : ObjectId) (l : list Complaint.t)
    (x : Complaint.t) :
  Complaint.findById id l = Some x -> In x l /\ Complaint._id x = NotNull id.
Proof.
  intros H. apply find_some in H. destruct H as [Hin Hk].
  apply has_id_spec in Hk. tauto.
Qed.

Lemma Complaint_findById_None (id : ObjectId) (l : list Complaint.t) :
  (forall x, In x l -> Complaint._id x <> NotNull id) ->
  Complaint.findById id l = None.
Proof.
  intros H. destruct (Complaint.findById id l) as [x|] eqn:E; [|reflexivity].
  apply Complaint_findById_In in E. destruct E as [Hin Hk]. now apply H in Hin.
Qed.

(** With a unique index on a string path, [findOne] on a stored value
    returns the document that holds it. *)
Lemma find_by_unique_string {A : Type} (key : A -> string) (l : list A) (x : A) :
  NoDup (map key l) -> In x l ->
  find (fun y => key y =? key x) l = Some x.
Proof.
  induction l as [|y r IH]; simpl; intros ND Hin; [contradiction|].
  inversion ND as [|? ? Hnotin ND']; subst.
  destruct Hin as [->|Hin].
  - now rewrite String.eqb_refl.
  - destruct (String.eqb_spec (key y) (key x)) as [E|E].
    + exfalso. apply Hnotin. rewrite E. now apply in_map.
    + now apply IH.
Qed.

(** ** jsonwebtoken *)

Lemma ms_7d : ms "7d" = Some 604800000%Z.
Proof. reflexivity. Qed.

Lemma ms_24h : ms "24h" = Some 86400000%Z.
Proof. reflexivity. Qed.

Lemma jwt_verify_Ok (j : Jws) (secret : string) (now : Z) (c : Claims) :
  jwt_verify (TokJws j) secret now = Ok c <->
  signed_with j = secret /\ c = payload j
  /\ (forall e, exp j = Some e -> (now / 1000 < e)%Z).
Proof.
  unfold jwt_verify.
  destruct (String.eqb_spec (signed_with j) secret) as [E|E].
  - destruct (exp j) as [e|].
    + destruct (Z.leb_spec e (now / 1000)) as [L|L].
      * split; [discriminate|]. intros (_ & _ & H).
        specialize (H e eq_refl). lia.
      * split.
        -- intros [= <-]. repeat split; [exact E|]. now intros e' [= <-].
        -- intros (_ & -> & _). reflexivity.
    + split.
      * intros [= <-]. repeat split; [exact E|discriminate].
      * intros (_ & -> & _). reflexivity.
  - split; [discriminate|]. intros (H & _). contradiction.
Qed.

Lemma jwt_sign_verify (p : Claims) (secret span : string) (k issued now : Z)
    (t : Token) :
  ms span = Some k ->
  jwt_sign p secret span issued = Ok t ->
  (now / 1000 < issued / 1000 + k / 1000)%Z ->
  jwt_verify t secret now = Ok p.
Proof.
  unfold jwt_sign. intros -> [= <-] H.
  apply jwt_verify_Ok. simpl. repeat split. now intros e [= <-].
Qed.

(** ** The gates *)

Lemma fail_status (code : nat) (m : string) : status (fail code m) = code.
Proof. reflexivity. Qed.

Lemma fail_no_token (code : nat) (m : string) :
  field "token" (body (fail code m)) = None.
Proof. reflexivity. Qed.

(** A token that verifies resolves to its subject's stored account; the
    gate lets it through exactly when that account is approved now. *)
Lemma authMiddleware_resolved (env : Env) (now : Z) (j : Jws) (s : Store)
    (id : ObjectId) (u : User.t) :
  jwt_verify (TokJws j) (JWT_SECRET env) now = Ok (payload j) ->
  claim_id (payload j) = IdOid id ->
  User.findById id (users s) = Some u ->
  authMiddleware env now (Some (TokJws j)) s =
    if User.approvalStatus u =? "approved"
    then Next (User.select_minus_password u)
    else Respond (fail 403 "Account not approved").
Proof.
  intros Hv Hid Hu. unfold authMiddleware.
  rewrite Hv. simpl. rewrite Hid. simpl. rewrite Hu. simpl.
  destruct (User.approvalStatus u =? "approved"); reflexivity.
Qed.

Lemma adminMiddleware_failure (env : Env) (now : Z) (a : option Token) (r : Response) :
  adminMiddleware env now a = Respond r -> status r = 401 \/ status r = 403.
Proof.
  unfold adminMiddleware.
  destruct a as [[| |j]|]; try (intros [= <-]; now left).
  destruct (jwt_verify _ _ _) as [c|e]; [|intros [= <-]; now left].
  destruct (negb _); [intros [= <-]; now right|discriminate].
Qed.

(** ** Login *)

(** A login response carries a token only on the success path. *)
(** The response for an account whose password matched: a refusal for a
    pending or rejected account, else the token. *)
Lemma login_found_cases (env : Env) (now : Z) (user : User.t) :
  (User.approvalStatus user = "pending"
   /\ login_found env now user = Ok (fail 403 "Account pending approval"))
  \/ (User.approvalStatus user = "rejected"
      /\ login_found env now user = Ok (fail 403 "Account rejected. Contact HR."))
  \/ (User.approvalStatus user <> "pending"
      /\ User.approvalStatus user <> "rejected"
      /\ exists token r,
           User.generateAuthToken env user now = Ok token
           /\ login_found env now user = Ok r
           /\ status r = 200
           /\ field "token" (body r) = Some (JTok token)
           /\ has_key "password" (body r) = false).
Proof.
  unfold login_found.
  destruct (String.eqb_spec (User.approvalStatus user) "pending") as [P|P];
    [left; now split|].
  destruct (String.eqb_spec (User.approvalStatus user) "rejected") as [R|R];
    [right; left; now split|].
  right; right. split; [exact P|]. split; [exact R|].
  unfold User.generateAuthToken, jwt_sign. rewrite ms_7d. cbn [bind].
  eexists. eexists. repeat split.
Qed.

Lemma login_found_token (env : Env) (now : Z) (user : User.t) (r : Response) :
  login_found env now user = Ok r -> status r = 200 ->
  has_key "token" (body r) = true.
Proof.
  unfold login_found.
  destruct (User.approvalStatus user =? "pending");
    [intros [= <-]; discriminate|].
  destruct (User.approvalStatus user =? "rejected");
    [intros [= <-]; discriminate|].
  unfold User.generateAuthToken, jwt_sign. rewrite ms_7d. cbn [bind].
  now intros [= <-].
Qed.

(** The outcomes of a login, by the shape of the request and the state
    of the store. *)
Lemma login_cases (bcrypt : Bcrypt) (env : Env) (now : Z) (b : LoginBody)
    (s : Store) :
  ((truthy_js (lb_email b) = false \/ truthy_js (lb_password b) = false)
   /\ login bcrypt env now b s = fail 400 "Phone number and password required")
  \/ exists phone password,
       lb_email b = Some phone /\ lb_password b = Some password
       /\ truthy_js (lb_email b) = true /\ truthy_js (lb_password b) = true
       /\ ((exists e, User.findOne_cast phone (users s) = Throw e)
             /\ login bcrypt env now b s = fail 500 "Server error occurred"
           \/ User.findOne_cast phone (users s) = Ok None
             /\ login bcrypt env now b s = fail 401 "Invalid credentials"
           \/ exists user,
               User.findOne_cast phone (users s) = Ok (Some user)
               /\ ((exists t sel, password = JsOther t sel)
                     /\ login bcrypt env now b s =
                          fail 500 "Server error occurred"
                   \/ exists pw,
                       password = JsStr pw
                       /\ (bcrypt_compare bcrypt pw (User.password user) = false
                             /\ login bcrypt env now b s =
                                  fail 401 "Invalid credentials"
                           \/ bcrypt_compare bcrypt pw (User.password user) = true
                             /\ login_found env now user =
                                  Ok (login bcrypt env now b s)))).
Proof.
  unfold login.
  destruct (lb_email b) as [phone|] eqn:Eb; [|left; split; [now left|reflexivity]].
  destruct (lb_password b) as [password|] eqn:Ep;
    [|left; split; [now right|reflexivity]].
  destruct (truthy_js (Some phone)) eqn:Tb; cbn [negb orb];
    [|left; split; [now left|reflexivity]].
  destruct (truthy_js (Some password)) eqn:Tp; cbn [negb];
    [|left; split; [now right|reflexivity]].
  right. exists phone, password. do 4 (split; [reflexivity|]).
  destruct (User.findOne_cast phone (users s)) as [[user|]|e]; cbn [bind].
  - right; right. exists user. split; [reflexivity|].
    destruct password as [pw|t sel]; cbn [User.comparePassword bind].
    + right. exists pw. split; [reflexivity|].
      destruct (bcrypt_compare bcrypt pw (User.password user)); cbn [negb].
      * right. split; [reflexivity|].
        destruct (login_found_cases env now user)
          as [(_ & L)|[(_ & L)|(_ & _ & tok & r & _ & L & _)]];
          now rewrite L.
      * left. now split.
    + left. split; [now exists t, sel|reflexivity].
  - right; left. now split.
  - left. split; [now exists e|reflexivity].
Qed.

Lemma login_token (bcrypt : Bcrypt) (env : Env) (now : Z) (b : LoginBody)
    (s : Store) (token : Token) :
  field "token" (body (login bcrypt env now b s)) = Some (JTok token) ->
  exists phone pw user,
    lb_email b = Some phone
    /\ lb_password b = Some (JsStr pw)
    /\ User.findOne_cast phone (users s) = Ok (Some user)
    /\ bcrypt_compare bcrypt pw (User.password user) = true
    /\ User.generateAuthToken env user now = Ok token
    /\ User.approvalStatus user <> "pending"
    /\ User.approvalStatus user <> "rejected"
    /\ status (login bcrypt env now b s) = 200.
Proof.
  destruct (login_cases bcrypt env now b s)
    as [(_ & ->)|(phone & password & Eb & Ep & _ & _ &
                  [(_ & ->)|[(_ & ->)|(user & F &
                    [(_ & ->)|(pw & -> & [(_ & ->)|(C & L)])])]])];
    try discriminate.
  destruct (login_found_cases env now user)
    as [(_ & L')|[(_ & L')|(P & R & tok & r' & G & L' & St & Tk & _)]];
    rewrite L' in L; injection L as L; rewrite <- L; try discriminate.
  rewrite Tk. intros [= <-].
  exists phone, pw, user. repeat split; assumption.
Qed.

(** ** The two admin updates *)

Lemma User_findByIdAndUpdate_fst (id : ObjectId) (a : string) (now : Z)
    (coll : list User.t) :
  fst (User.findByIdAndUpdate id a now coll) =
  option_map (User.set_approvalStatus a now) (User.findById id coll).
Proof. apply updateOne_fst. Qed.

Lemma Complaint_findByIdAndUpdate_fst (id : ObjectId) (a : string) (now : Z)
    (coll : list Complaint.t) :
  fst (Complaint.findByIdAndUpdate id a now coll) =
  option_map (Complaint.set_status a now) (Complaint.findById id coll).
Proof. apply (updateOne_fst (Complaint.has_id id)). Qed.

Lemma findById_after_approval (id : ObjectId) (a : string) (now : Z)
    (coll : list User.t) :
  User.findById id (snd (User.findByIdAndUpdate id a now coll)) =
  option_map (User.set_approvalStatus a now) (User.findById id coll).
Proof.
  unfold User.findById, User.findByIdAndUpdate.
  now apply updateOne_find.
Qed.

Lemma findById_after_status (id : ObjectId) (a : string) (now : Z)
    (coll : list Complaint.t) :
  Complaint.findById id (snd (Complaint.findByIdAndUpdate id a now coll)) =
  option_map (Complaint.set_status a now) (Complaint.findById id coll).
Proof.
  unfold Complaint.findById, Complaint.findByIdAndUpdate.
  now apply updateOne_find.
Qed.

(** A route parameter that is no ObjectId: once the body has passed the
    handler's own check, the query throws and the catch answers 500. *)
Lemma update_approval_malformed (now : Z) (x : string) (a : option string)
    (s : Store) (c : Claims) :
  update_approval now (IdStr x) a s c =
    if includes ["approved"; "rejected"; "pending"] a
    then (fail 500 "Server error occurred", s)
    else (fail 400 "Invalid approval status", s).
Proof.
  unfold update_approval. now destruct (includes _ a).
Qed.

Lemma update_status_malformed (now : Z) (x : string) (a : option string)
    (s : Store) (c : Claims) :
  update_status now (IdStr x) a s c =
    if includes ["pending"; "received"; "resolved"] a
    then (fail 500 "Server error occurred", s)
    else (fail 400 "Invalid status", s).
Proof.
  unfold update_status. now destruct (includes _ a).
Qed.

Lemma update_approval_cases (now : Z) (id : ObjectId) (a : option string)
    (s : Store) (c : Claims) :
  (includes ["approved"; "rejected"; "pending"] a = false
   /\ update_approval now (IdOid id) a s c =
        (fail 400 "Invalid approval status", s))
  \/ (includes ["approved"; "rejected"; "pending"] a = true
      /\ User.findById id (users s) = None
      /\ update_approval now (IdOid id) a s c = (fail 404 "User not found", s))
  \/ (exists a' u,
        a = Some a' /\ includes ["approved"; "rejected"; "pending"] a = true
        /\ User.findById id (users s) = Some u
        /\ update_approval now (IdOid id) a s c =
             (mkResponse 200
                (JObj [("success", JBool true);
                       ("user", User.toJSON (User.set_approvalStatus a' now u))]),
              mkStore (snd (User.findByIdAndUpdate id a' now (users s)))
                      (complaints s) (next_oid s))).
Proof.
  unfold update_approval.
  destruct (includes _ a) eqn:I; simpl; [|left; split; reflexivity].
  right.
  destruct a as [a'|]; [|discriminate]. cbn [castObjectId bind with_default].
  rewrite (surjective_pairing (User.findByIdAndUpdate id a' now (users s))).
  rewrite User_findByIdAndUpdate_fst.
  destruct (User.findById id (users s)) as [u|] eqn:Fu; simpl.
  - right. exists a', u. repeat split; reflexivity.
  - left. repeat split; reflexivity.
Qed.

Lemma update_status_cases (now : Z) (id : ObjectId) (a : option string)
    (s : Store) (c : Claims) :
  (includes ["pending"; "received"; "resolved"] a = false
   /\ update_status now (IdOid id) a s c = (fail 400 "Invalid status", s))
  \/ (includes ["pending"; "received"; "resolved"] a = true
      /\ Complaint.findById id (complaints s) = None
      /\ update_status now (IdOid id) a s c =
           (fail 404 "Complaint not found", s))
  \/ (exists a' x,
        a = Some a' /\ includes ["pending"; "received"; "resolved"] a = true
        /\ Complaint.findById id (complaints s) = Some x
        /\ update_status now (IdOid id) a s c =
             (mkResponse 200
                (JObj [("success", JBool true);
                       ("complaint",
                        Complaint.toJSON (Complaint.set_status a' now x))]),
              mkStore (users s)
                      (snd (Complaint.findByIdAndUpdate id a' now (complaints s)))
                      (next_oid s))).
Proof.
  unfold update_status.
  destruct (includes _ a) eqn:I; simpl; [|left; split; reflexivity].
  right.
  destruct a as [a'|]; [|discriminate]. cbn [castObjectId bind with_default].
  rewrite (surjective_pairing
             (Complaint.findByIdAndUpdate id a' now (complaints s))).
  rewrite Complaint_findByIdAndUpdate_fst.
  destruct (Complaint.findById id (complaints s)) as [x|] eqn:Fx; simpl.
  - right. exists a', x. repeat split; reflexivity.
  - left. repeat split; reflexivity.
Qed.

(** ** C1: the employee gate re-checks approval on every request *)

(** C1.  Let [token] be issued by a login of account [user].  If the admin
    approval operation later succeeds in setting that account's
    approvalStatus to a value other than ['approved'], then in the store it
    leaves, a request made with the same token before its expiry is answered
    403 "Account not approved" by the employee gate, and so by every
    employee-gated route, which leaves the store as it is. *)
Theorem C1_gate_rechecks_approval
    (bcrypt : Bcrypt) (env : Env) (s0 s1 : Store) (t0 t1 t2 : Z)
    (b : LoginBody) (user : User.t) (token : Token)
    (admin : option Token) (a : string) (req_body : Complaint.doc)
    (phone : jsval) :
  lb_email b = Some phone ->
  User.findOne_cast phone (users s0) = Ok (Some user) ->
  field "token" (body (login bcrypt env t0 b s0)) = Some (JTok token) ->
  a <> "approved" ->
  status (fst (patch_user_approval env t1 admin (IdOid (User._id user))
                 (Some a) s1)) = 200 ->
  (t2 / 1000 < t0 / 1000 + 7 * 24 * 60 * 60)%Z ->
  let s2 := snd (patch_user_approval env t1 admin (IdOid (User._id user))
                   (Some a) s1) in
  authMiddleware env t2 (Some token) s2 = Respond (fail 403 "Account not approved")
  /\ get_complaints env t2 (Some token) s2 = (fail 403 "Account not approved", s2)
  /\ post_complaints env t2 (Some token) req_body s2
     = (fail 403 "Account not approved", s2).
Proof.
  intros Hphone Hfind Htok Ha Hok Hlive s2.
  assert (G : authMiddleware env t2 (Some token) s2
              = Respond (fail 403 "Account not approved")).
  { apply login_token in Htok.
    destruct Htok as (phone' & pw & user' & Hphone' & _ & Hfind' & _ & Hgen & _).
    rewrite Hphone in Hphone'. injection Hphone' as <-.
    rewrite Hfind in Hfind'. injection Hfind' as <-.
    unfold User.generateAuthToken, jwt_sign in Hgen. rewrite ms_7d in Hgen.
    injection Hgen as <-.
    subst s2. unfold patch_user_approval, protect in *.
    destruct (adminMiddleware env t1 admin) as [r0|c] eqn:Gate.
    - cbn [fst] in Hok. apply adminMiddleware_failure in Gate. lia.
    - destruct (update_approval_cases t1 (User._id user) (Some a) s1 c)
        as [(_ & E) | [(_ & _ & E) | (a' & u & Ea & _ & Hu & E)]];
        rewrite E in *; cbn [fst snd] in *; try discriminate.
      injection Ea as <-.
      rewrite (authMiddleware_resolved env t2 _ _ (User._id user)
                 (User.set_approvalStatus a t1 u)).
      + simpl. destruct (String.eqb_spec a "approved"); [contradiction|reflexivity].
      + apply jwt_verify_Ok. simpl. repeat split.
        intros e [= <-]. change (604800000 / 1000)%Z with 604800%Z. lia.
      + reflexivity.
      + simpl. rewrite findById_after_approval, Hu. reflexivity. }
  split; [exact G|].
  unfold get_complaints, post_complaints, protect. rewrite G. split; reflexivity.
Qed.

Lemma C1_gate_rechecks_approval_witness :
  let s2 := snd (patch_user_approval Sample.env 6000 (Some Sample.admin_token)
                   (IdOid (User._id Sample.asha)) (Some "rejected")
                   Sample.store) in
  authMiddleware Sample.env 7000 (Some Sample.asha_token) s2
    = Respond (fail 403 "Account not approved")
  /\ get_complaints Sample.env 7000 (Some Sample.asha_token) s2
     = (fail 403 "Account not approved", s2)
  /\ post_complaints Sample.env 7000 (Some Sample.asha_token)
       Sample.honest_complaint s2
     = (fail 403 "Account not approved", s2).
Proof.
  apply (C1_gate_rechecks_approval Sample.bcrypt Sample.env Sample.store
           Sample.store 5000 6000 7000 Sample.asha_login Sample.asha
           Sample.asha_token (Some Sample.admin_token) "rejected"
           Sample.honest_complaint (JsStr "9876543210")).
  - reflexivity.
  - reflexivity.
  - reflexivity.
  - discriminate.
  - reflexivity.
  - reflexivity.
Defined.

(** ** C3: the two login failures look the same *)




(** ** C4: accounts that are not approved get no session *)

Lemma Sample_store_ok : store_ok Sample.store.
Proof.
  unfold store_ok. simpl.
  repeat split;
    repeat (constructor; simpl; try lia; try (intuition discriminate)).
Qed.

Lemma findOne_stored (s : Store) (user : User.t) :
  store_ok s -> In user (users s) ->
  User.findOne (User.employeeNumber user) (users s) = Some user.
Proof.
  intros (_ & ND & _) Hin. unfold User.findOne.
  now apply find_by_unique_string.
Qed.

(** C4 as stated fails: the password check comes before the approval
    check, so a pending account and a wrong password give 401, not 403. *)
Lemma C4_wrong_password_on_pending_account :
  In Sample.binu (users Sample.store)
  /\ User.approvalStatus Sample.binu = "pending"
  /\ lb_email Sample.binu_wrong_login
     = Some (JsStr (User.employeeNumber Sample.binu))
  /\ login Sample.bcrypt Sample.env 5000 Sample.binu_wrong_login Sample.store
     = fail 401 "Invalid credentials"
  /\ status (login Sample.bcrypt Sample.env 5000 Sample.binu_wrong_login
               Sample.store) <> 403.
Proof.
  repeat split; try reflexivity.
  - simpl. tauto.
  - simpl. discriminate.
Qed.

(** C4 (amended).  For every stored account whose approvalStatus is
    ['pending'] or ['rejected'], every login attempt whose identifier
    resolves to it fails and issues no token, whatever the body holds: the
    status is 400 when a field is missing or empty, 403 when both are
    present and the password is a string that matches the stored
    credential, 401 when it is a string that does not match, and it is 500
    when the password is a truthy value that is not a string. *)
Theorem C4_unapproved_account_gets_no_session
    (bcrypt : Bcrypt) (env : Env) (s : Store) (now : Z) (b : LoginBody)
    (user : User.t) (phone : jsval) :
  lb_email b = Some phone ->
  User.findOne_cast phone (users s) = Ok (Some user) ->
  User.approvalStatus user = "pending" \/ User.approvalStatus user = "rejected" ->
  let r := login bcrypt env now b s in
  let present := truthy_js (lb_email b) && truthy_js (lb_password b) in
  has_key "token" (body r) = false
  /\ In (status r) [400; 401; 403; 500]
  /\ (present = false -> status r = 400)
  /\ (forall pw, present = true -> lb_password b = Some (JsStr pw) ->
       bcrypt_compare bcrypt pw (User.password user) = false -> status r = 401)
  /\ (forall pw, present = true -> lb_password b = Some (JsStr pw) ->
       bcrypt_compare bcrypt pw (User.password user) = true -> status r = 403)
  /\ (forall t sel, present = true -> lb_password b = Some (JsOther t sel) ->
       status r = 500).
Proof.
  intros Hphone Hfind Hst r present. subst r present.
  destruct (login_cases bcrypt env now b s)
    as [([T|T] & ->)|(phone' & password & Eb & Ep & Tb & Tp & H)].
  1,2: rewrite T; rewrite ?andb_false_r; cbn [andb fail status body];
       repeat split; try discriminate; simpl; tauto.
  rewrite Hphone in Eb. injection Eb as <-.
  rewrite Tb, Tp, Ep. cbn [andb].
  rewrite Hfind in H.
  destruct H as [((e & H) & _)|[(H & _)|(user' & H & H')]]; try discriminate.
  injection H as <-.
  destruct H' as [((t & sel & ->) & ->)|(pw & -> & [(C & ->)|(C & L)])].
  - cbn [fail status body]. repeat split; try discriminate; simpl; tauto.
  - cbn [fail status body]. repeat split; try discriminate; try (simpl; tauto).
    intros pw' _ [= <-]. congruence.
  - assert (login bcrypt env now b s = fail 403 "Account pending approval"
            \/ login bcrypt env now b s = fail 403 "Account rejected. Contact HR.")
      as [-> | ->].
    { destruct (login_found_cases env now user)
        as [(_ & L')|[(_ & L')|(P & R & _)]].
      - left. congruence.
      - right. congruence.
      - destruct Hst; contradiction. }
    + cbn [fail status body]. repeat split; try discriminate; try (simpl; tauto).
      intros pw' _ [= <-]. congruence.
    + cbn [fail status body]. repeat split; try discriminate; try (simpl; tauto).
      intros pw' _ [= <-]. congruence.
Qed.

Lemma C4_unapproved_account_gets_no_session_witness :
  let r := login Sample.bcrypt Sample.env 5000 Sample.binu_login Sample.store in
  bcrypt_compare Sample.bcrypt "hunter22" (User.password Sample.binu) = true
  /\ has_key "token" (body r) = false
  /\ status r = 403.
Proof.
  destruct (C4_unapproved_account_gets_no_session Sample.bcrypt Sample.env
              Sample.store 5000 Sample.binu_login Sample.binu
              (JsStr "9123456780"))
    as (A & _ & _ & _ & C & _).
  - reflexivity.
  - reflexivity.
  - left. reflexivity.
  - split; [reflexivity|]. split; [exact A|].
    apply (C "hunter22"); reflexivity.
Defined.

(** ** C5: registration *)


Lemma truthy_nonempty (x : string) : x <> "" -> truthy (Some x) = true.
Proof. intros H. simpl. now destruct (String.eqb_spec x ""). Qed.



Lemma phone_nonempty (n : string) : phoneRegex_test n = true -> n <> "".
Proof. intros H ->. discriminate. Qed.

Lemma long_nonempty (pw : string) : 6 <= String.length pw -> pw <> "".
Proof. intros H ->. simpl in H. lia. Qed.





Lemma register_taken (bcrypt : Bcrypt) (salt : string) (now : Z)
    (b : RegisterBody) (s : Store) (n : string) (u : User.t) :
  rb_employeeNumber b = Some n ->
  User.findOne n (users s) = Some u ->
  snd (register bcrypt salt now b s) = s
  /\ status (fst (register bcrypt salt now b s)) = 400
  /\ (truthy (rb_name b) = true -> truthy (rb_department b) = true ->
      truthy (rb_workLocation b) = true -> phoneRegex_test n = true ->
      (exists pw, rb_password b = Some pw /\ 6 <= String.length pw) ->
      fst (register bcrypt salt now b s)
        = fail 400 "Phone number already registered").
Proof.
  intros Hn Hu. unfold register. rewrite Hn. cbn [with_default].
  destruct (negb (truthy (rb_name b)) || negb (truthy (rb_password b))
            || negb (truthy (Some n)) || negb (truthy (rb_department b))
            || negb (truthy (rb_workLocation b))) eqn:Missing.
  - repeat split. intros Tn Td Tw Hphone (pw & Hpw & Hlen).
    rewrite Tn, Td, Tw, Hpw in Missing.
    rewrite (truthy_nonempty n (phone_nonempty n Hphone)) in Missing.
    rewrite (truthy_nonempty pw (long_nonempty pw Hlen)) in Missing.
    discriminate.
  - destruct (phoneRegex_test n) eqn:Phone; cbn [negb].
    + destruct (Nat.ltb_spec (String.length (with_default "" (rb_password b))) 6)
        as [L|L].
      * repeat split. intros _ _ _ _ (pw & Hpw & Hlen).
        rewrite Hpw in L. simpl in L. lia.
      * rewrite Hu. repeat split.
    + repeat split. intros _ _ _ H. discriminate.
Qed.




(** ** C6: deleting an account *)

Lemma find_by_unique_key {A : Type} (key : A -> nat) (l : list A) (x : A) :
  NoDup (map key l) -> In x l ->
  find (fun y => key y =? key x)%nat l = Some x.
Proof.
  induction l as [|y r IH]; simpl; intros ND Hin; [contradiction|].
  inversion ND as [|? ? Hnotin ND']; subst.
  destruct Hin as [->|Hin].
  - now rewrite Nat.eqb_refl.
  - destruct (Nat.eqb_spec (key y) (key x)) as [E|E].
    + exfalso. apply Hnotin. rewrite E. now apply in_map.
    + now apply IH.
Qed.

Lemma deleteMany_In (id : ObjectId) (coll : list Complaint.t) (c : Complaint.t) :
  In c (Complaint.deleteMany id coll) <->
  In c coll /\ Complaint.employeeId c <> id.
Proof.
  unfold Complaint.deleteMany. rewrite filter_In.
  destruct (Nat.eqb_spec (Complaint.employeeId c) id); simpl; intuition congruence.
Qed.

(** C6.  For every stored account, the admin delete-user operation answers
    200, after which the account no longer resolves; the accounts left are
    exactly the other accounts, and the complaints left are exactly the
    stored complaints whose employeeId is not the deleted account's
    identifier, each as it was. *)
Theorem C6_delete_user_cascades
    (env : Env) (now : Z) (admin : option Token) (claims : Claims)
    (s : Store) (u : User.t) :
  adminMiddleware env now admin = Next claims ->
  store_ok s -> In u (users s) ->
  let r := fst (delete_user env now admin (IdOid (User._id u)) s) in
  let s' := snd (delete_user env now admin (IdOid (User._id u)) s) in
  status r = 200
  /\ User.findById (User._id u) (users s') = None
  /\ (forall v, In v (users s') <-> In v (users s) /\ User._id v <> User._id u)
  /\ (forall c, In c (complaints s') <->
                In c (complaints s) /\ Complaint.employeeId c <> User._id u).
Proof.
  intros Gate (ND & _) Hin r s'. subst r s'.
  assert (K : forall v, In v (snd (User.findByIdAndDelete (User._id u) (users s)))
                        <-> In v (users s) /\ User._id v <> User._id u).
  { intros v. unfold User.findByIdAndDelete. now apply deleteOne_by_key. }
  assert (F : fst (User.findByIdAndDelete (User._id u) (users s)) = Some u).
  { unfold User.findByIdAndDelete. rewrite deleteOne_fst.
    now apply find_by_unique_key. }
  unfold delete_user, protect. rewrite Gate. unfold delete_user_handler.
  cbn [castObjectId bind].
  rewrite (surjective_pairing (User.findByIdAndDelete (User._id u) (users s))).
  rewrite F. cbn [fst snd status users complaints].
  split; [reflexivity|]. split; [|split].
  - apply find_by_key_None. intros v Hv. now apply K in Hv.
  - exact K.
  - intros c. apply deleteMany_In.
Qed.

Lemma C6_delete_user_cascades_witness :
  let r := fst (delete_user Sample.env 9000 (Some Sample.admin_token)
                  (IdOid (User._id Sample.binu)) Sample.store) in
  let s' := snd (delete_user Sample.env 9000 (Some Sample.admin_token)
                   (IdOid (User._id Sample.binu)) Sample.store) in
  status r = 200
  /\ User.findById (User._id Sample.binu) (users s') = None
  /\ (forall v, In v (users s') <->
                In v (users Sample.store) /\ User._id v <> User._id Sample.binu)
  /\ (forall c, In c (complaints s') <->
                In c (complaints Sample.store)
                /\ Complaint.employeeId c <> User._id Sample.binu).
Proof.
  apply (C6_delete_user_cascades Sample.env 9000 (Some Sample.admin_token)
           (mkClaims (IdStr "admin") "admin@system.com" "admin")
           Sample.store Sample.binu).
  - reflexivity.
  - exact Sample_store_ok.
  - simpl. tauto.
Defined.

(** ** C7: complaint status updates *)

Lemma includes_In (l : list string) (x : string) :
  includes l (Some x) = true <-> In x l.
Proof.
  simpl. rewrite existsb_exists. split.
  - intros (y & Hy & E). apply String.eqb_eq in E. now subst.
  - intros H. exists x. split; [exact H|apply String.eqb_refl].
Qed.

Lemma includes_not_In (l : list string) (v : option string) :
  (forall x, v = Some x -> ~ In x l) -> includes l v = false.
Proof.
  intros H. destruct v as [x|]; [|reflexivity].
  destruct (includes l (Some x)) eqn:E; [|reflexivity].
  apply includes_In in E. now apply H in E.
Qed.

(** C7 as stated fails: a path segment that is no ObjectId resolves to no
    stored complaint, and with one of the three literals it is answered 500
    'Server error occurred', not 404: the cast inside
    [findByIdAndUpdate] throws and the handler's [catch] answers. *)
Lemma C7_malformed_id_is_500 :
  adminMiddleware Sample.env 9000 (Some Sample.admin_token)
    = Next (mkClaims (IdStr "admin") "admin@system.com" "admin")
  /\ castObjectId (IdStr "not-an-id") = Throw CastError
  /\ includes ["pending"; "received"; "resolved"] (Some "resolved") = true
  /\ patch_complaint_status Sample.env 9000 (Some Sample.admin_token)
       (IdStr "not-an-id") (Some "resolved") Sample.store
     = (fail 500 "Server error occurred", Sample.store)
  /\ status (fst (patch_complaint_status Sample.env 9000
                    (Some Sample.admin_token) (IdStr "not-an-id")
                    (Some "resolved") Sample.store)) <> 404.
Proof.
  repeat split. discriminate.
Qed.

(** C7 (amended).  Past the admin gate: for every stored complaint,
    whatever its current status, each of ['pending'], ['received'],
    ['resolved'] is accepted (200) and becomes the complaint's status, its
    other fields apart from updatedAt being kept; a status that is absent or
    any other literal is rejected with 400 'Invalid status', whatever the
    identifier; and one of the three literals on a well-formed identifier
    that resolves to no stored complaint is rejected with 404 'Complaint not
    found'. *)
Theorem C7_status_update
    (env : Env) (now : Z) (admin : option Token) (claims : Claims)
    (id : ObjectId) (s : Store) :
  adminMiddleware env now admin = Next claims ->
  (forall c st,
      Complaint.findById id (complaints s) = Some c ->
      In st ["pending"; "received"; "resolved"] ->
      let r := fst (patch_complaint_status env now admin (IdOid id) (Some st) s) in
      let s' := snd (patch_complaint_status env now admin (IdOid id) (Some st) s) in
      status r = 200
      /\ Complaint.findById id (complaints s')
         = Some (Complaint.set_status st now c)
      /\ Complaint.status (Complaint.set_status st now c) = NotNull st)
  /\ (forall v route_id,
        (forall st, v = Some st -> ~ In st ["pending"; "received"; "resolved"]) ->
        patch_complaint_status env now admin route_id v s
          = (fail 400 "Invalid status", s))
  /\ (forall st,
        In st ["pending"; "received"; "resolved"] ->
        Complaint.findById id (complaints s) = None ->
        patch_complaint_status env now admin (IdOid id) (Some st) s
          = (fail 404 "Complaint not found", s)).
Proof.
  intros Gate. unfold patch_complaint_status, protect. rewrite Gate.
  split; [|split].
  - intros c st Hc Hst.
    destruct (update_status_cases now id (Some st) s claims)
      as [(I & _) | [(_ & N & _) | (a' & x & Ea & _ & Hx & E)]].
    + apply includes_In in Hst. congruence.
    + congruence.
    + injection Ea as <-. rewrite Hc in Hx. injection Hx as <-.
      rewrite E. cbn [fst snd status complaints].
      rewrite findById_after_status, Hc. repeat split.
  - intros v route_id Hv. unfold update_status.
    now rewrite (includes_not_In _ v Hv).
  - intros st Hst Hnone.
    destruct (update_status_cases now id (Some st) s claims)
      as [(I & _) | [(_ & _ & E) | (a' & x & _ & _ & Hx & _)]].
    + apply includes_In in Hst. congruence.
    + exact E.
    + congruence.
Qed.

Lemma C7_status_update_witness :
  (let r := fst (patch_complaint_status Sample.env 9000 (Some Sample.admin_token)
                   (IdOid 3) (Some "pending") Sample.store) in
   let s' := snd (patch_complaint_status Sample.env 9000 (Some Sample.admin_token)
                    (IdOid 3) (Some "pending") Sample.store) in
   status r = 200
   /\ Complaint.findById 3 (complaints s')
      = Some (Complaint.set_status "pending" 9000 Sample.leave_issue)
   /\ Complaint.status (Complaint.set_status "pending" 9000 Sample.leave_issue)
      = NotNull "pending")
  /\ patch_complaint_status Sample.env 9000 (Some Sample.admin_token)
       (IdStr "not-an-id") (Some "closed") Sample.store
     = (fail 400 "Invalid status", Sample.store)
  /\ patch_complaint_status Sample.env 9000 (Some Sample.admin_token) (IdOid 7)
       (Some "resolved") Sample.store
     = (fail 404 "Complaint not found", Sample.store).
Proof.
  pose proof (C7_status_update Sample.env 9000 (Some Sample.admin_token)
                (mkClaims (IdStr "admin") "admin@system.com" "admin") 3
                Sample.store eq_refl) as (A & B & _).
  pose proof (C7_status_update Sample.env 9000 (Some Sample.admin_token)
                (mkClaims (IdStr "admin") "admin@system.com" "admin") 7
                Sample.store eq_refl) as (_ & _ & C).
  split; [|split].
  - apply (A Sample.leave_issue "pending"); [reflexivity|simpl; tauto].
  - apply B. intros st [= <-] H. simpl in H. intuition discriminate.
  - apply C; [simpl; tauto|reflexivity].
Defined.

(** ** C8: validity windows *)

Lemma admin_login_token (env : Env) (now : Z) (b : AdminLoginBody) (token : Token) :
  field "token" (body (admin_login env now b)) = Some (JTok token) ->
  User.generateAdminToken env
    (mkClaims (IdStr "admin") "admin@system.com" "admin") now = Ok token.
Proof.
  unfold admin_login.
  destruct (negb (truthy (ab_username b)) || negb (truthy (ab_password b)));
    [discriminate|].
  destruct (negb _ || negb _); [discriminate|].
  destruct (User.generateAdminToken _ _ _) as [t|e]; [|discriminate].
  simpl. now intros [= <-].
Qed.

Lemma issued_window (p : Claims) (secret span : string) (k now : Z) :
  ms span = Some k ->
  exists j,
    jwt_sign p secret span now = Ok (TokJws j)
    /\ payload j = p
    /\ iat j = (now / 1000)%Z
    /\ exp j = Some (iat j + k / 1000)%Z
    /\ (forall t, jwt_verify (TokJws j) secret t = Ok p
                  <-> (t / 1000 < iat j + k / 1000)%Z).
Proof.
  intros Hms. unfold jwt_sign. rewrite Hms. eexists. split; [reflexivity|].
  cbn [payload iat exp]. repeat split.
  - intros H. apply jwt_verify_Ok in H. destruct H as (_ & _ & H).
    now apply H.
  - intros H. apply jwt_verify_Ok. cbn [payload exp signed_with].
    repeat split. now intros e [= <-].
Qed.

Lemma jwt_verify_expired (j : Jws) (secret : string) (e t : Z) :
  exp j = Some e -> (e <= t / 1000)%Z ->
  jwt_verify (TokJws j) secret t = Throw TokenExpiredError
  \/ jwt_verify (TokJws j) secret t = Throw JsonWebTokenError.
Proof.
  intros He Hle. unfold jwt_verify. rewrite He.
  destruct (signed_with j =? secret); [|now right].
  destruct (Z.leb_spec e (t / 1000)); [now left|lia].
Qed.

(** C8.  (1) Every token [generateAuthToken] issues at clock [now] is
    stamped [iat = now / 1000] and [exp = iat + 7 days], and verifies under
    the server's secret exactly while the clock is below [exp].  (2) Every
    token the admin login issues is stamped [exp = iat + 24 hours], has
    subject ['admin'] and role ['admin'], and verifies exactly while the
    clock is below [exp].  (3) Verifying any token at or after its [exp]
    throws. *)
Theorem C8_token_validity_windows (env : Env) :
  (forall (u : User.t) (now : Z),
      exists j,
        User.generateAuthToken env u now = Ok (TokJws j)
        /\ claim_id (payload j) = IdOid (User._id u)
        /\ iat j = (now / 1000)%Z
        /\ exp j = Some (iat j + 7 * 24 * 60 * 60)%Z
        /\ (forall t, jwt_verify (TokJws j) (JWT_SECRET env) t = Ok (payload j)
                      <-> (t / 1000 < iat j + 7 * 24 * 60 * 60)%Z))
  /\ (forall (now : Z) (b : AdminLoginBody) (token : Token),
        field "token" (body (admin_login env now b)) = Some (JTok token) ->
        exists j,
          token = TokJws j
          /\ claim_id (payload j) = IdStr "admin"
          /\ claim_role (payload j) = "admin"
          /\ iat j = (now / 1000)%Z
          /\ exp j = Some (iat j + 24 * 60 * 60)%Z
          /\ (forall t, jwt_verify token (JWT_SECRET env) t = Ok (payload j)
                        <-> (t / 1000 < iat j + 24 * 60 * 60)%Z))
  /\ (forall (j : Jws) (secret : string) (e t : Z),
        exp j = Some e -> (e <= t / 1000)%Z ->
        forall c, jwt_verify (TokJws j) secret t <> Ok c).
Proof.
  split; [|split].
  - intros u now. unfold User.generateAuthToken.
    destruct (issued_window (mkClaims (IdOid (User._id u)) (User.email u)
                               (User.role u))
                (JWT_SECRET env) "7d" 604800000 now ms_7d)
      as (j & Hs & Hp & Hi & He & Hv).
    change (604800000 / 1000)%Z with (7 * 24 * 60 * 60)%Z in *.
    exists j. rewrite Hp. repeat split; try assumption; apply Hv.
  - intros now b token Htok. apply admin_login_token in Htok.
    unfold User.generateAdminToken in Htok. cbn [claim_id claim_email] in Htok.
    destruct (issued_window (mkClaims (IdStr "admin") "admin@system.com" "admin")
                (JWT_SECRET env) "24h" 86400000 now ms_24h)
      as (j & Hs & Hp & Hi & He & Hv).
    change (86400000 / 1000)%Z with (24 * 60 * 60)%Z in *.
    rewrite Hs in Htok. injection Htok as <-.
    exists j. rewrite Hp. repeat split; try assumption; apply Hv.
  - intros j secret e t He Hle c.
    destruct (jwt_verify_expired j secret e t He Hle) as [-> | ->]; discriminate.
Qed.

Lemma C8_token_validity_windows_witness :
  (exists j,
      Sample.asha_token = TokJws j
      /\ exp j = Some (iat j + 7 * 24 * 60 * 60)%Z
      /\ jwt_verify (TokJws j) (JWT_SECRET Sample.env) 604804999 = Ok (payload j))
  /\ (exists j,
        Sample.admin_token = TokJws j
        /\ claim_id (payload j) = IdStr "admin"
        /\ claim_role (payload j) = "admin"
        /\ exp j = Some (iat j + 24 * 60 * 60)%Z)
  /\ (forall c, jwt_verify Sample.asha_token (JWT_SECRET Sample.env) 604805000
                <> Ok c).
Proof.
  destruct (C8_token_validity_windows Sample.env) as (A & B & C).
  split; [|split].
  - destruct (A Sample.asha 5000%Z) as (j & Hs & _ & _ & He & Hv).
    exists j. injection Hs as <-. split; [reflexivity|]. split; [exact He|].
    apply Hv. reflexivity.
  - destruct (B 5000%Z Sample.admin_credentials Sample.admin_token eq_refl)
      as (j & Hs & Hid & Hrole & _ & He & _).
    exists j. repeat split; assumption.
  - apply (C (mkJws (mkClaims (IdOid 0) "9876543210@complaintbox.local" "employee")
                    5 (Some 604805%Z) "0123456789abcdef0123456789abcdef")
             (JWT_SECRET Sample.env) 604805%Z 604805000%Z); reflexivity || discriminate.
Defined.

(** ** C10: a failed admin update writes nothing *)

(** C10.  Whenever the status-update route or the approval-update route
    answers 400 or 404, the store it leaves is the store it was given. *)
Theorem C10_failed_update_leaves_store
    (env : Env) (now : Z) (admin : option Token) (id : IdValue)
    (v : option string) (s : Store) :
  (status (fst (patch_complaint_status env now admin id v s)) = 400
   \/ status (fst (patch_complaint_status env now admin id v s)) = 404 ->
   snd (patch_complaint_status env now admin id v s) = s)
  /\ (status (fst (patch_user_approval env now admin id v s)) = 400
      \/ status (fst (patch_user_approval env now admin id v s)) = 404 ->
      snd (patch_user_approval env now admin id v s) = s).
Proof.
  unfold patch_complaint_status, patch_user_approval, protect.
  destruct (adminMiddleware env now admin) as [r|c]; [split; reflexivity|].
  destruct id as [id|x].
  - split.
    + destruct (update_status_cases now id v s c)
        as [(_ & E) | [(_ & _ & E) | (a' & x & _ & _ & _ & E)]];
        rewrite E; cbn [fst snd status]; intros H; [reflexivity|reflexivity|].
      destruct H; discriminate.
    + destruct (update_approval_cases now id v s c)
        as [(_ & E) | [(_ & _ & E) | (a' & x & _ & _ & _ & E)]];
        rewrite E; cbn [fst snd status]; intros H; [reflexivity|reflexivity|].
      destruct H; discriminate.
  - rewrite update_status_malformed, update_approval_malformed.
    split; intros _; now destruct (includes _ v).
Qed.

Lemma C10_failed_update_leaves_store_witness :
  status (fst (patch_complaint_status Sample.env 9000 (Some Sample.admin_token)
                 (IdOid 7) (Some "resolved") Sample.store)) = 404
  /\ snd (patch_complaint_status Sample.env 9000 (Some Sample.admin_token)
            (IdOid 7) (Some "resolved") Sample.store) = Sample.store
  /\ status (fst (patch_user_approval Sample.env 9000 (Some Sample.admin_token)
                    (IdOid 0) (Some "banned") Sample.store)) = 400
  /\ snd (patch_user_approval Sample.env 9000 (Some Sample.admin_token)
            (IdOid 0) (Some "banned") Sample.store) = Sample.store.
Proof.
  split; [reflexivity|]. split.
  - apply (proj1 (C10_failed_update_leaves_store Sample.env 9000
                    (Some Sample.admin_token) (IdOid 7) (Some "resolved")
                    Sample.store)).
    right. reflexivity.
  - split; [reflexivity|].
    apply (proj2 (C10_failed_update_leaves_store Sample.env 9000
                    (Some Sample.admin_token) (IdOid 0) (Some "banned")
                    Sample.store)).
    left. reflexivity.
Defined.

(** ** C2: complaint creation *)

Lemma required_inv (v : option string) (x : string) :
  required v = Ok x -> v = Some x /\ truthy v = true.
Proof.
  destruct v as [y|]; simpl; [|discriminate].
  destruct (y =? ""); [discriminate|]. intros [= <-]. now split.
Qed.

Lemma enum_inv (values : list string) (d : string) (v : option string) (x : string) :
  enum values d v = Ok x -> x = with_default d v.
Proof.
  destruct v as [y|]; simpl.
  - destruct (existsb _ values); [|discriminate]. now intros [= <-].
  - now intros [= <-].
Qed.

Lemma required_id_inv (v : input ObjectId) (o : ObjectId) :
  Complaint.required_id v = Ok o -> v = Value o.
Proof.
  destruct v as [| |o'|]; simpl; try discriminate. now intros [= <-].
Qed.

Lemma required_path_inv (v : input string) (x : string) :
  Complaint.required_path v = Ok x ->
  v = Value x /\ Complaint.filled v = true /\ x <> "".
Proof.
  destruct v as [| |y|]; simpl; try discriminate.
  destruct (String.eqb_spec y ""); [discriminate|].
  intros [= <-]. now repeat split.
Qed.


Lemma required_path_filled (v : input string) :
  Complaint.filled v = false -> Complaint.required_path v = Throw ValidationError.
Proof.
  destruct v as [| |y|]; try reflexivity. simpl. now intros ->.
Qed.



(** A body passes validation only with the required paths filled, and
    the document built from it copies the body path by path. *)
Lemma Complaint_validate_inv (env : Env) (oid : ObjectId) (now : Z)
    (d : Complaint.doc) (c : Complaint.t) :
  Complaint.validate env oid now d = Ok c ->
  Complaint.id_path (env_null_id_inserted env) oid (Complaint.d_id d)
    = Ok (Complaint._id c)
  /\ Complaint.d_employeeId d = Value (Complaint.employeeId c)
  /\ Complaint.d_employeeName d = Value (Complaint.employeeName c)
  /\ Complaint.d_employeeEmail d = Value (Complaint.employeeEmail c)
  /\ Complaint.optional_path (Complaint.d_employeeNumber d)
     = Ok (Complaint.employeeNumber c)
  /\ Complaint.d_department d = Value (Complaint.department c)
  /\ Complaint.d_category d = Value (Complaint.category c)
  /\ Complaint.filled (Complaint.d_category d) = true
  /\ Complaint.d_message d = Value (Complaint.message c)
  /\ Complaint.filled (Complaint.d_message d) = true
  /\ Complaint.enum_path (env_enum_accepts_null env) ["low"; "medium"; "high"]
       "medium" (Complaint.d_priority d) = Ok (Complaint.priority c)
  /\ Complaint.enum_path (env_enum_accepts_null env)
       ["pending"; "received"; "resolved"] "pending" (Complaint.d_status d)
     = Ok (Complaint.status c)
  /\ Complaint.default_path "" (Complaint.d_adminReply d)
     = Ok (Complaint.adminReply c)
  /\ Complaint.createdAt_path now (Complaint.d_createdAt d)
     = Ok (Complaint.createdAt c)
  /\ Complaint.updatedAt c = Complaint.createdAt c
  /\ Complaint.d_updatedAt d <> Uncastable
  /\ Complaint.d_v d <> Uncastable
  /\ (Complaint.employeeName c <> "" /\ Complaint.employeeEmail c <> ""
      /\ Complaint.department c <> "" /\ Complaint.category c <> ""
      /\ Complaint.message c <> "").
Proof.
  unfold Complaint.validate.
  destruct (Complaint.id_path _ _ _) as [id|] eqn:H0; [|discriminate].
  destruct (Complaint.required_id _) as [eid|] eqn:H1; [|discriminate].
  destruct (Complaint.required_path (Complaint.d_employeeName d))
    as [en|] eqn:H2; [|discriminate].
  destruct (Complaint.required_path (Complaint.d_employeeEmail d))
    as [ee|] eqn:H3; [|discriminate].
  destruct (Complaint.optional_path _) as [num|] eqn:H9; [|discriminate].
  destruct (Complaint.required_path (Complaint.d_department d))
    as [dep|] eqn:H4; [|discriminate].
  destruct (Complaint.required_path (Complaint.d_category d))
    as [cat|] eqn:H5; [|discriminate].
  destruct (Complaint.enum_path _ _ "medium" _) as [pri|] eqn:H6; [|discriminate].
  destruct (Complaint.required_path (Complaint.d_message d))
    as [msg|] eqn:H7; [|discriminate].
  destruct (Complaint.enum_path _ _ "pending" _) as [st|] eqn:H8; [|discriminate].
  destruct (Complaint.default_path _ _) as [reply|] eqn:H10; [|discriminate].
  cbn [bind].
  destruct (Complaint.createdAt_path _ _) as [created|] eqn:H11; [|discriminate].
  cbn [bind].
  destruct (Complaint.updatedAt_path _ _) as [updated|] eqn:H12; [|discriminate].
  cbn [bind].
  destruct (Complaint.versionKey_path _) as [[]|] eqn:H13; [|discriminate].
  cbn [bind]. intros [= <-].
  cbn [Complaint._id Complaint.employeeId Complaint.employeeName
       Complaint.employeeEmail Complaint.employeeNumber Complaint.department
       Complaint.category Complaint.priority Complaint.message Complaint.status
       Complaint.adminReply Complaint.createdAt Complaint.updatedAt].
  apply required_id_inv in H1.
  apply required_path_inv in H2, H3, H4, H5, H7.
  assert (updated = created /\ Complaint.d_updatedAt d <> Uncastable) as [-> U].
  { destruct (Complaint.d_updatedAt d); simpl in H12;
      try discriminate; injection H12 as <-; split; congruence. }
  assert (Complaint.d_v d <> Uncastable) as W.
  { destruct (Complaint.d_v d); simpl in H13; congruence. }
  intuition.
Qed.


(** A generated identifier is not in use. *)
Lemma violates_unique_generated (c : Complaint.t) (coll : list Complaint.t)
    (n : ObjectId) :
  Forall (fun x => id_below n (Complaint._id x)) coll ->
  Complaint._id c = NotNull n ->
  Complaint.violates_unique c coll = false.
Proof.
  intros B E. unfold Complaint.violates_unique. rewrite E.
  induction B as [|x r Hx B IH]; [reflexivity|].
  cbn [existsb]. rewrite IH, orb_false_r.
  destruct (Complaint._id x) as [|o]; [reflexivity|].
  simpl in *. apply Nat.eqb_neq. lia.
Qed.




(** ** C9: the stored secret *)

Lemma User_validate_inv (oid : ObjectId) (now : Z) (d : User.doc) (u : User.t) :
  User.validate oid now d = Ok u ->
  User._id u = oid
  /\ User.d_email d = Some (User.email u)
  /\ User.d_password d = Some (User.password u)
  /\ User.d_employeeNumber d = Some (User.employeeNumber u)
  /\ User.role u = with_default "employee" (User.d_role d)
  /\ User.approvalStatus u = with_default "pending" (User.d_approvalStatus d).
Proof.
  unfold User.validate.
  destruct (required (User.d_name d)) as [n|] eqn:H1; [|discriminate].
  destruct (required (User.d_email d)) as [e|] eqn:H2; [|discriminate].
  destruct (required (User.d_password d)) as [p|] eqn:H3; [|discriminate].
  destruct (required (User.d_employeeNumber d)) as [en|] eqn:H4; [|discriminate].
  destruct (required (User.d_department d)) as [dep|] eqn:H5; [|discriminate].
  destruct (required (User.d_workLocation d)) as [w|] eqn:H6; [|discriminate].
  destruct (enum _ "employee" _) as [r|] eqn:H7; [|discriminate].
  destruct (enum _ "pending" _) as [a|] eqn:H8; [|discriminate].
  cbn [bind]. intros [= <-]. cbn.
  apply required_inv in H2, H3, H4. apply enum_inv in H7, H8. intuition.
Qed.

(** Whatever [User.create] inserts holds the bcrypt digest of the
    password it was given, under cost 10. *)
Lemma User_create_inv (bcrypt : Bcrypt) (salt : string) (oid : ObjectId)
    (now : Z) (d : User.doc) (coll coll' : list User.t) (u : User.t) :
  User.create bcrypt salt oid now d coll = Ok (u, coll') ->
  coll' = (coll ++ [u])%list
  /\ User._id u = oid
  /\ User.violates_unique u coll = false
  /\ User.approvalStatus u = with_default "pending" (User.d_approvalStatus d)
  /\ exists pw, User.d_password d = Some pw
                /\ User.password u = bcrypt_hash bcrypt pw 10 salt.
Proof.
  unfold User.create.
  destruct (User.validate oid now d) as [v|] eqn:V; [|discriminate].
  cbn [bind]. apply User_validate_inv in V.
  destruct V as (V1 & _ & V3 & _ & _ & V6).
  destruct (User.violates_unique _ coll) eqn:U; [discriminate|].
  intros [= <- <-]. repeat split; try assumption.
  exists (User.password v). split; [exact V3|reflexivity].
Qed.

(** Registration never stores the password it receives: an account it
    adds holds the digest. *)
Lemma register_stores_digest (bcrypt : Bcrypt) (salt : string) (now : Z)
    (b : RegisterBody) (s : Store) (u : User.t) :
  In u (users (snd (register bcrypt salt now b s))) ->
  In u (users s)
  \/ exists pw, rb_password b = Some pw
                /\ User.password u = bcrypt_hash bcrypt pw 10 salt.
Proof.
  unfold register.
  destruct (negb _ || negb _ || negb _ || negb _ || negb _); [now left|].
  destruct (negb (phoneRegex_test _)); [now left|].
  destruct (_ <? 6)%nat; [now left|].
  destruct (User.findOne _ _); [now left|].
  destruct (User.create _ _ _ _ _ _) as [[user coll]|e] eqn:C; [|now left].
  apply User_create_inv in C. destruct C as (-> & _ & _ & _ & pw & Hpw & Hd).
  cbn [snd users]. intros Hin. apply in_app_or in Hin.
  destruct Hin as [Hin|[<-|[]]]; [now left|]. right. now exists pw.
Qed.

Lemma has_key_JArr_map {A : Type} (k : string) (g : A -> json) (l : list A) :
  (forall x, has_key k (g x) = false) -> has_key k (JArr (map g l)) = false.
Proof.
  intros H. induction l as [|x r IH]; [reflexivity|].
  simpl in *. now rewrite H, IH.
Qed.

Lemma has_key_listing (l : list User.t) :
  has_key "password"
    (JObj [("success", JBool true);
           ("users",
            JArr (map (fun u => User.projection_toJSON
                                  (User.select_minus_password u)) l))])
  = false.
Proof.
  pose proof (has_key_JArr_map "password"
                (fun u => User.projection_toJSON (User.select_minus_password u))
                l (fun _ => eq_refl)) as H.
  simpl in *. now rewrite H.
Qed.

Lemma adminMiddleware_Respond (env : Env) (now : Z) (a : option Token) (r : Response) :
  adminMiddleware env now a = Respond r -> exists code m, r = fail code m.
Proof.
  unfold adminMiddleware.
  destruct a as [[| |j]|]; try (intros [= <-]; now eexists _, _).
  destruct (jwt_verify _ _ _); [|intros [= <-]; now eexists _, _].
  destruct (negb _); [intros [= <-]; now eexists _, _|discriminate].
Qed.

(** The responses of registration, of login and of the two admin user
    listings carry no [password] key. *)
Lemma register_response_no_password (bcrypt : Bcrypt) (salt : string) (now : Z)
    (b : RegisterBody) (s : Store) :
  has_key "password" (body (fst (register bcrypt salt now b s))) = false.
Proof.
  unfold register.
  destruct (negb _ || negb _ || negb _ || negb _ || negb _); [reflexivity|].
  destruct (negb (phoneRegex_test _)); [reflexivity|].
  destruct (_ <? 6)%nat; [reflexivity|].
  destruct (User.findOne _ _); [reflexivity|].
  destruct (User.create _ _ _ _ _ _) as [[user coll]|e]; reflexivity.
Qed.

Lemma login_response_no_password (bcrypt : Bcrypt) (env : Env) (now : Z)
    (b : LoginBody) (s : Store) :
  has_key "password" (body (login bcrypt env now b s)) = false.
Proof.
  destruct (login_cases bcrypt env now b s)
    as [(_ & ->)|(phone & password & _ & _ & _ & _ &
                  [(_ & ->)|[(_ & ->)|(user & _ &
                    [(_ & ->)|(pw & _ & [(_ & ->)|(_ & L)])])]])];
    try reflexivity.
  destruct (login_found_cases env now user)
    as [(_ & L')|[(_ & L')|(_ & _ & tok & r' & _ & L' & _ & _ & K)]];
    rewrite L' in L; injection L as L; rewrite <- L; [reflexivity..|exact K].
Qed.

Lemma admin_listings_no_password (env : Env) (now : Z) (a : option Token)
    (s : Store) :
  has_key "password" (body (fst (get_admin_users env now a s))) = false
  /\ has_key "password" (body (fst (get_admin_users_pending env now a s))) = false.
Proof.
  unfold get_admin_users, get_admin_users_pending, protect.
  destruct (adminMiddleware env now a) as [r|c] eqn:G.
  - apply adminMiddleware_Respond in G. destruct G as (code & m & ->).
    split; reflexivity.
  - cbn [fst body]. split; apply has_key_listing.
Qed.

(** C9 (the approval route where the claim fails).  The administrator
    approves [binu]: the 200 response has a [user] object whose [password]
    key holds the digest stored for [binu]. *)
Theorem C9_approval_response_holds_stored_secret :
  let r := fst (patch_user_approval Sample.env 9000 (Some Sample.admin_token)
                  (IdOid (User._id Sample.binu)) (Some "approved")
                  Sample.store) in
  status r = 200
  /\ has_key "password" (body r) = true
  /\ exists user,
       field "user" (body r) = Some user
       /\ field "password" user = Some (JStr (User.password Sample.binu)).
Proof.
  split; [reflexivity|]. split; [reflexivity|].
  eexists. split; reflexivity.
Qed.

(** The same on every store: a successful approval update answers with
    the whole account document, stored secret included. *)
Lemma approval_response_has_password (env : Env) (now : Z) (a : option Token)
    (id : IdValue) (v : option string) (s : Store) :
  status (fst (patch_user_approval env now a id v s)) = 200 ->
  has_key "password" (body (fst (patch_user_approval env now a id v s))) = true.
Proof.
  unfold patch_user_approval, protect.
  destruct (adminMiddleware env now a) as [r|c] eqn:G.
  - apply adminMiddleware_failure in G. cbn [fst]. lia.
  - destruct id as [id|x].
    + destruct (update_approval_cases now id v s c)
        as [(_ & E) | [(_ & _ & E) | (a' & u & _ & _ & _ & E)]];
        rewrite E; cbn [fst status]; try discriminate.
      reflexivity.
    + rewrite update_approval_malformed. now destruct (includes _ v).
Qed.

(** ** The store invariant is kept by every route that writes *)

Lemma NoDup_snoc {A : Type} (l : list A) (x : A) :
  NoDup l -> ~ In x l -> NoDup (l ++ [x])%list.
Proof.
  induction l as [|y r IH]; simpl; intros ND Hx.
  - constructor; [tauto|constructor].
  - inversion ND as [|? ? Hy ND']; subst. constructor.
    + rewrite in_app_iff. simpl. intros [H|[H|[]]]; [tauto|]. subst. tauto.
    + apply IH; tauto.
Qed.

Lemma updateOne_map_key {A B : Type} (key : A -> B) (p : A -> bool)
    (f : A -> A) (l : list A) :
  (forall x, key (f x) = key x) ->
  map key (snd (updateOne p f l)) = map key l.
Proof.
  intros H. induction l as [|x r IH]; simpl; [reflexivity|].
  destruct (p x); simpl; [now rewrite H|].
  destruct (updateOne p f r) as [o r']; simpl in *. now rewrite IH.
Qed.



Lemma violates_unique_fresh (u : User.t) (coll : list User.t) :
  User.violates_unique u coll = false ->
  ~ In (User.employeeNumber u) (map User.employeeNumber coll)
  /\ ~ In (User.email u) (map User.email coll).
Proof.
  unfold User.violates_unique. induction coll as [|v r IH]; simpl; [tauto|].
  intros H. apply orb_false_iff in H. destruct H as (H1 & H2).
  apply orb_false_iff in H1. destruct H1 as (He & Hn).
  apply String.eqb_neq in He, Hn. specialize (IH H2). tauto.
Qed.

Lemma fresh_oid {A : Type} (key : A -> nat) (n : nat) (l : list A) :
  Forall (fun x => key x < n) l -> ~ In n (map key l).
Proof.
  intros F Hin. apply in_map_iff in Hin. destruct Hin as (x & E & Hx).
  rewrite Forall_forall in F. apply F in Hx. lia.
Qed.

Lemma Forall_lt_S {A : Type} (key : A -> nat) (n : nat) (l : list A) :
  Forall (fun x => key x < n) l -> Forall (fun x => key x < S n) l.
Proof. apply Forall_impl. intros; lia. Qed.

Lemma bounded_by_map {A : Type} (key : A -> nat) (n : nat) (l l' : list A) :
  map key l' = map key l ->
  Forall (fun x => key x < n) l -> Forall (fun x => key x < n) l'.
Proof.
  intros E F. apply (Forall_map key (fun i => i < n)). rewrite E.
  now apply Forall_map.
Qed.

Lemma id_below_le (n m : ObjectId) (v : nullable ObjectId) :
  n <= m -> id_below n v -> id_below m v.
Proof. destruct v as [|o]; simpl; [trivial|lia]. Qed.

Theorem register_keeps_store_ok (bcrypt : Bcrypt) (salt : string) (now : Z)
    (b : RegisterBody) (s : Store) :
  store_ok s -> store_ok (snd (register bcrypt salt now b s)).
Proof.
  intros Hok. unfold register.
  destruct (negb _ || negb _ || negb _ || negb _ || negb _); [exact Hok|].
  destruct (negb (phoneRegex_test _)); [exact Hok|].
  destruct (_ <? 6)%nat; [exact Hok|].
  destruct (User.findOne _ _); [exact Hok|].
  destruct (User.create _ _ _ _ _ _) as [[user coll]|e] eqn:C; [|exact Hok].
  apply User_create_inv in C. destruct C as (-> & Hid & Hu & _).
  apply violates_unique_fresh in Hu. destruct Hu as (Hn & He).
  destruct Hok as (I1 & I2 & I3 & I4 & I5 & I6).
  unfold store_ok. cbn [snd users complaints next_oid].
  rewrite !map_app. cbn [map].
  repeat split.
  - apply NoDup_snoc; [exact I1|]. rewrite Hid. now apply fresh_oid.
  - now apply NoDup_snoc.
  - now apply NoDup_snoc.
  - exact I4.
  - apply Forall_app. split; [now apply Forall_lt_S|].
    constructor; [lia|constructor].
  - revert I6. apply Forall_impl. intros x. apply id_below_le. lia.
Qed.

Lemma violates_unique_notin (c : Complaint.t) (coll : list Complaint.t) :
  Complaint.violates_unique c coll = false ->
  ~ In (Complaint._id c) (map Complaint._id coll).
Proof.
  unfold Complaint.violates_unique. induction coll as [|x r IH]; simpl; [tauto|].
  intros H. apply orb_false_iff in H. destruct H as (H1 & H2).
  intros [E|Hin]; [|now apply IH].
  rewrite E in H1. assert (Complaint.id_eqb (Complaint._id c) (Complaint._id c) = true)
    by now apply id_eqb_spec.
  congruence.
Qed.

Lemma violates_unique_In (c : Complaint.t) (coll : list Complaint.t) :
  Complaint.violates_unique c coll = true <->
  In (Complaint._id c) (map Complaint._id coll).
Proof.
  destruct (Complaint.violates_unique c coll) eqn:U.
  - split; [intros _|reflexivity].
    apply existsb_exists in U. destruct U as (x & Hx & E).
    apply id_eqb_spec in E. rewrite <- E. now apply in_map.
  - apply violates_unique_notin in U. split; [discriminate|contradiction].
Qed.

Lemma lt_fresh_after (n : ObjectId) (v : nullable ObjectId) :
  n < fresh_after n v /\ id_below (fresh_after n v) v.
Proof. destruct v as [|o]; simpl; lia. Qed.



Theorem patch_user_approval_keeps_store_ok (env : Env) (now : Z)
    (admin : option Token) (id : IdValue) (v : option string) (s : Store) :
  store_ok s -> store_ok (snd (patch_user_approval env now admin id v s)).
Proof.
  intros Hok. unfold patch_user_approval, protect.
  destruct (adminMiddleware env now admin) as [r|c]; [exact Hok|].
  destruct id as [id|x];
    [|rewrite update_approval_malformed; now destruct (includes _ v)].
  destruct (update_approval_cases now id v s c)
    as [(_ & E) | [(_ & _ & E) | (a' & u & _ & _ & _ & E)]];
    rewrite E; cbn [snd]; try exact Hok.
  destruct Hok as (I1 & I2 & I3 & I4 & I5 & I6).
  unfold store_ok, User.findByIdAndUpdate. cbn [users complaints next_oid].
  rewrite !updateOne_map_key by reflexivity. repeat split; try assumption.
  apply (bounded_by_map User._id _ (users s)); [|exact I5].
  now apply updateOne_map_key.
Qed.



(** ** The end-to-end scenario

    Register, be refused while pending, get approved, log in, file a
    complaint, have it resolved. *)
Example end_to_end_scenario :
  let '(r1, s1) :=
    register Sample.bcrypt "NaCl" 1000 Sample.asha_registration Sample.empty in
  let r2 := login Sample.bcrypt Sample.env 2000 Sample.asha_login s1 in
  let r3 := admin_login Sample.env 5000 Sample.admin_credentials in
  let '(r4, s4) :=
    patch_user_approval Sample.env 5100 (Some Sample.admin_token) (IdOid 0)
      (Some "approved") s1 in
  let r5 := login Sample.bcrypt Sample.env 5999 Sample.asha_login s4 in
  let '(r6, s6) :=
    post_complaints Sample.env 6000 (Some Sample.asha_token)
      Sample.honest_complaint s4 in
  let '(r7, s7) :=
    patch_complaint_status Sample.env 7000 (Some Sample.admin_token) (IdOid 1)
      (Some "resolved") s6 in
  let '(r8, _) := get_complaints Sample.env 8000 (Some Sample.asha_token) s7 in
  status r1 = 201
  /\ r2 = fail 403 "Account pending approval"
  /\ field "token" (body r3) = Some (JTok Sample.admin_token)
  /\ status r4 = 200
  /\ field "token" (body r5) = Some (JTok Sample.asha_token)
  /\ status r6 = 201
  /\ map Complaint.status (complaints s6) = [NotNull "pending"]
  /\ status r7 = 200
  /\ map Complaint.status (complaints s7) = [NotNull "resolved"]
  /\ body r8 = JArr (map Complaint.toJSON (complaints s7)).
Proof. vm_compute. repeat split. Qed.

(** * Further properties of the server *)

(** ** What the gates let through *)

Lemma verified_token (t : Token) (secret : string) (now : Z) (c : Claims) :
  jwt_verify t secret now = Ok c ->
  exists j, t = TokJws j /\ signed_with j = secret /\ c = payload j
            /\ (forall e, exp j = Some e -> (now / 1000 < e)%Z).
Proof.
  destruct t as [| |j]; try discriminate.
  intros H. apply jwt_verify_Ok in H. now exists j.
Qed.

(** X1.  When the employee gate calls [next()], the header held a JWS
    signed with the server's secret and not yet expired, whose subject is
    the identifier of a stored account that is approved now, and [req.user]
    is that account without its password. *)
Theorem authMiddleware_sound
    (env : Env) (now : Z) (auth : option Token) (s : Store)
    (user : User.projection) :
  authMiddleware env now auth s = Next user ->
  exists j u,
    auth = Some (TokJws j)
    /\ signed_with j = JWT_SECRET env
    /\ (forall e, exp j = Some e -> (now / 1000 < e)%Z)
    /\ claim_id (payload j) = IdOid (User._id u)
    /\ In u (users s)
    /\ User.approvalStatus u = "approved"
    /\ user = User.select_minus_password u.
Proof.
  unfold authMiddleware.
  destruct auth as [t|]; [|discriminate].
  destruct (jwt_verify t (JWT_SECRET env) now) as [c|e] eqn:V.
  - destruct (verified_token _ _ _ _ V) as (j & -> & Hk & -> & He).
    cbn [bind]. unfold User.findById_cast.
    destruct (claim_id (payload j)) as [o|x] eqn:Hid; [|discriminate].
    destruct (User.findById o (users s)) as [u|] eqn:Hu; [|discriminate].
    apply find_by_key_In in Hu. destruct Hu as (Hin & <-).
    cbn [User.select_minus_password User.p_approvalStatus].
    destruct (String.eqb_spec (User.approvalStatus u) "approved") as [A|A];
      [|discriminate].
    intros [= <-]. exists j, u. repeat split; assumption.
  - destruct t; discriminate.
Qed.

Lemma authMiddleware_sound_witness :
  exists j u,
    Some Sample.asha_token = Some (TokJws j)
    /\ signed_with j = JWT_SECRET Sample.env
    /\ (forall e, exp j = Some e -> (9000 / 1000 < e)%Z)
    /\ claim_id (payload j) = IdOid (User._id u)
    /\ In u (users Sample.store)
    /\ User.approvalStatus u = "approved"
    /\ User.select_minus_password Sample.asha = User.select_minus_password u.
Proof.
  apply (authMiddleware_sound Sample.env 9000 (Some Sample.asha_token)
           Sample.store (User.select_minus_password Sample.asha)).
  reflexivity.
Defined.

Lemma adminMiddleware_Next (env : Env) (now : Z) (auth : option Token)
    (c : Claims) :
  adminMiddleware env now auth = Next c ->
  exists j,
    auth = Some (TokJws j)
    /\ signed_with j = JWT_SECRET env
    /\ (forall e, exp j = Some e -> (now / 1000 < e)%Z)
    /\ claim_role (payload j) = "admin"
    /\ c = payload j.
Proof.
  unfold adminMiddleware.
  destruct auth as [t|]; [|discriminate].
  destruct (jwt_verify t (JWT_SECRET env) now) as [d|e] eqn:V.
  - destruct (verified_token _ _ _ _ V) as (j & -> & Hk & -> & He).
    destruct (String.eqb_spec (claim_role (payload j)) "admin") as [R|R];
      [|discriminate].
    intros [= <-]. now exists j.
  - destruct t; discriminate.
Qed.

(** X2.  The admin gate calls [next()] exactly for a JWS signed with the
    server's secret, not yet expired, whose role claim is ['admin']; it
    consults no store, and [req.user] is the token's payload. *)
Theorem adminMiddleware_passes_iff
    (env : Env) (now : Z) (auth : option Token) (c : Claims) :
  adminMiddleware env now auth = Next c <->
  exists j,
    auth = Some (TokJws j)
    /\ signed_with j = JWT_SECRET env
    /\ (forall e, exp j = Some e -> (now / 1000 < e)%Z)
    /\ claim_role (payload j) = "admin"
    /\ c = payload j.
Proof.
  split; [apply adminMiddleware_Next|].
  intros (j & -> & Hk & He & Hr & ->). unfold adminMiddleware.
  assert (V : jwt_verify (TokJws j) (JWT_SECRET env) now = Ok (payload j)).
  { apply jwt_verify_Ok. tauto. }
  rewrite V, Hr. reflexivity.
Qed.

(** X3.  A JWS that was signed with another key, or whose [exp] has been
    reached, is answered 401 'Invalid or expired token' by both gates,
    whatever its claims and whatever the store holds; the two causes give
    the same response. *)
Theorem bad_token_is_401
    (env : Env) (now : Z) (j : Jws) (s : Store) :
  signed_with j <> JWT_SECRET env
  \/ (exists e, exp j = Some e /\ (e <= now / 1000)%Z) ->
  authMiddleware env now (Some (TokJws j)) s
    = Respond (fail 401 "Invalid or expired token")
  /\ adminMiddleware env now (Some (TokJws j))
     = Respond (fail 401 "Invalid or expired token").
Proof.
  intros H.
  assert (V : exists e, jwt_verify (TokJws j) (JWT_SECRET env) now = Throw e).
  { unfold jwt_verify. destruct H as [K|(e & He & Hle)].
    - destruct (String.eqb_spec (signed_with j) (JWT_SECRET env));
        [contradiction|now eexists].
    - rewrite He. destruct (signed_with j =? JWT_SECRET env); [|now eexists].
      destruct (Z.leb_spec e (now / 1000)); [now eexists|lia]. }
  destruct V as (e & V). unfold authMiddleware, adminMiddleware.
  rewrite V. split; reflexivity.
Qed.

Lemma bad_token_is_401_witness :
  authMiddleware Sample.env 604805000 (Some Sample.asha_token) Sample.store
    = Respond (fail 401 "Invalid or expired token")
  /\ adminMiddleware Sample.env 86405000 (Some Sample.admin_token)
     = Respond (fail 401 "Invalid or expired token").
Proof.
  split.
  - apply (bad_token_is_401 Sample.env 604805000
             (mkJws (mkClaims (IdOid 0) "9876543210@complaintbox.local" "employee")
                    5 (Some 604805%Z) "0123456789abcdef0123456789abcdef")
             Sample.store).
    right. exists 604805%Z. split; [reflexivity|discriminate].
  - apply (bad_token_is_401 Sample.env 86405000
             (mkJws (mkClaims (IdStr "admin") "admin@system.com" "admin")
                    5 (Some 86405%Z) "0123456789abcdef0123456789abcdef")
             Sample.store).
    right. exists 86405%Z. split; [reflexivity|discriminate].
Defined.

Lemma findOne_cast_In (v : jsval) (coll : list User.t) (u : User.t) :
  User.findOne_cast v coll = Ok (Some u) -> In u coll.
Proof.
  destruct v as [x|t [q|e]]; simpl; try discriminate;
    intros [= H]; now apply find_some in H.
Qed.

(** X4.  The token of an admin login never passes the employee gate: on
    every store and at every time it is answered 401 'Invalid or expired
    token', because its subject ['admin'] is not an account identifier. *)
Theorem admin_token_fails_employee_gate
    (env : Env) (t0 now : Z) (b : AdminLoginBody) (token : Token) (s : Store) :
  field "token" (body (admin_login env t0 b)) = Some (JTok token) ->
  authMiddleware env now (Some token) s
    = Respond (fail 401 "Invalid or expired token").
Proof.
  intros H. apply admin_login_token in H.
  unfold User.generateAdminToken, jwt_sign in H. rewrite ms_24h in H.
  injection H as <-. unfold authMiddleware.
  destruct (jwt_verify _ (JWT_SECRET env) now) as [c|e] eqn:V; [|reflexivity].
  apply jwt_verify_Ok in V. destruct V as (_ & -> & _). reflexivity.
Qed.

Lemma admin_token_fails_employee_gate_witness :
  authMiddleware Sample.env 9000 (Some Sample.admin_token) Sample.store
    = Respond (fail 401 "Invalid or expired token").
Proof.
  apply (admin_token_fails_employee_gate Sample.env 5000 9000
           Sample.admin_credentials Sample.admin_token Sample.store).
  reflexivity.
Defined.

(** X5.  On a store whose accounts all have the role ['employee'], the
    token of an employee login never passes the admin gate: it is answered
    403 'Admin access required' until it expires and 401 afterwards. *)
Theorem employee_token_fails_admin_gate
    (bcrypt : Bcrypt) (env : Env) (t0 now : Z) (b : LoginBody) (s : Store)
    (token : Token) :
  Forall user_ok (users s) ->
  field "token" (body (login bcrypt env t0 b s)) = Some (JTok token) ->
  adminMiddleware env now (Some token)
    = Respond (if (now / 1000 <? t0 / 1000 + 7 * 24 * 60 * 60)%Z
               then fail 403 "Admin access required"
               else fail 401 "Invalid or expired token").
Proof.
  intros Hu H. apply login_token in H.
  destruct H as (phone & pw & user & _ & _ & Hfind & _ & Hgen & _).
  apply findOne_cast_In in Hfind. rename Hfind into Hin.
  rewrite Forall_forall in Hu. destruct (Hu user Hin) as (_ & _ & _ & _ & _ & R & _).
  unfold User.generateAuthToken, jwt_sign in Hgen. rewrite ms_7d, R in Hgen.
  injection Hgen as <-. unfold adminMiddleware, jwt_verify.
  cbn [signed_with exp payload claim_role]. rewrite String.eqb_refl.
  change (604800000 / 1000)%Z with (7 * 24 * 60 * 60)%Z.
  destruct (Z.ltb_spec (now / 1000) (t0 / 1000 + 7 * 24 * 60 * 60));
    destruct (Z.leb_spec (t0 / 1000 + 7 * 24 * 60 * 60) (now / 1000));
    try lia; reflexivity.
Qed.

Lemma Sample_schema_ok : schema_ok Sample.store.
Proof.
  split; repeat constructor; simpl; try discriminate; tauto.
Qed.

Lemma adminMiddleware_passes_iff_witness :
  adminMiddleware Sample.env 9000 (Some Sample.admin_token)
    = Next (mkClaims (IdStr "admin") "admin@system.com" "admin").
Proof.
  apply (proj2 (adminMiddleware_passes_iff Sample.env 9000
                  (Some Sample.admin_token)
                  (mkClaims (IdStr "admin") "admin@system.com" "admin"))).
  eexists. repeat split; try reflexivity.
  intros e [= <-]. reflexivity.
Defined.

Lemma employee_token_fails_admin_gate_witness :
  adminMiddleware Sample.env 9000 (Some Sample.asha_token)
    = Respond (fail 403 "Admin access required").
Proof.
  apply (employee_token_fails_admin_gate Sample.bcrypt Sample.env 5000 9000
           Sample.asha_login Sample.store Sample.asha_token).
  - exact (proj1 Sample_schema_ok).
  - reflexivity.
Defined.

(** ** Invariants of the stored documents *)

















Lemma read_only_routes (env : Env) (now : Z) (a : option Token) (id : IdValue)
    (s : Store) :
  snd (get_complaints env now a s) = s
  /\ snd (get_complaint env now a id s) = s
  /\ snd (get_admin_users env now a s) = s
  /\ snd (get_admin_users_pending env now a s) = s
  /\ snd (get_admin_complaints env now a s) = s.
Proof.
  unfold get_complaints, get_complaint, get_admin_users,
    get_admin_users_pending, get_admin_complaints, protect.
  destruct (authMiddleware env now a s); destruct (adminMiddleware env now a);
    repeat split; try reflexivity;
    destruct id as [id|x]; try reflexivity; cbn [castObjectId bind];
    destruct (Complaint.findById id (complaints s)); reflexivity.
Qed.





(** ** Requests that are not let through *)

(** X7.  A request to an admin route whose header does not hold an
    unexpired JWS signed with the server's secret and carrying the role
    ['admin'] is answered 401 or 403 with a [{ success: false, message }]
    body, the same on all seven admin routes, and changes nothing in the
    store. *)
Theorem admin_routes_need_admin_token
    (env : Env) (now : Z) (auth : option Token) (id : IdValue)
    (v : option string) (s : Store) :
  ~ (exists j, auth = Some (TokJws j)
               /\ signed_with j = JWT_SECRET env
               /\ (forall e, exp j = Some e -> (now / 1000 < e)%Z)
               /\ claim_role (payload j) = "admin") ->
  exists code m,
    (code = 401 \/ code = 403)
    /\ get_admin_users env now auth s = (fail code m, s)
    /\ get_admin_users_pending env now auth s = (fail code m, s)
    /\ get_admin_complaints env now auth s = (fail code m, s)
    /\ patch_user_approval env now auth id v s = (fail code m, s)
    /\ patch_complaint_status env now auth id v s = (fail code m, s)
    /\ delete_user env now auth id s = (fail code m, s)
    /\ delete_complaint env now auth id s = (fail code m, s).
Proof.
  intros H.
  unfold get_admin_users, get_admin_users_pending, get_admin_complaints,
    patch_user_approval, patch_complaint_status, delete_user, delete_complaint,
    protect.
  destruct (adminMiddleware env now auth) as [r|c] eqn:G.
  - pose proof (adminMiddleware_failure _ _ _ _ G) as St.
    apply adminMiddleware_Respond in G. destruct G as (code & m & ->).
    exists code, m. repeat split. exact St.
  - exfalso. apply H. apply adminMiddleware_Next in G.
    destruct G as (j & G1 & G2 & G3 & G4 & _). now exists j.
Qed.

Lemma admin_routes_need_admin_token_witness :
  exists code m,
    (code = 401 \/ code = 403)
    /\ get_admin_users Sample.env 9000 (Some Sample.asha_token) Sample.store
       = (fail code m, Sample.store)
    /\ get_admin_users_pending Sample.env 9000 (Some Sample.asha_token)
         Sample.store = (fail code m, Sample.store)
    /\ get_admin_complaints Sample.env 9000 (Some Sample.asha_token)
         Sample.store = (fail code m, Sample.store)
    /\ patch_user_approval Sample.env 9000 (Some Sample.asha_token) (IdOid 1)
         (Some "approved") Sample.store = (fail code m, Sample.store)
    /\ patch_complaint_status Sample.env 9000 (Some Sample.asha_token) (IdOid 1)
         (Some "approved") Sample.store = (fail code m, Sample.store)
    /\ delete_user Sample.env 9000 (Some Sample.asha_token) (IdOid 1)
         Sample.store
       = (fail code m, Sample.store)
    /\ delete_complaint Sample.env 9000 (Some Sample.asha_token) (IdOid 1)
         Sample.store
       = (fail code m, Sample.store).
Proof.
  apply (admin_routes_need_admin_token Sample.env 9000 (Some Sample.asha_token)
           (IdOid 1) (Some "approved") Sample.store).
  intros (j & [= <-] & _ & _ & R). discriminate.
Defined.

(** ** A session through the life of its account *)

Lemma login_issues (bcrypt : Bcrypt) (env : Env) (t0 : Z) (b : LoginBody)
    (s : Store) (token : Token) :
  field "token" (body (login bcrypt env t0 b s)) = Some (JTok token) ->
  exists phone user,
    lb_email b = Some phone
    /\ User.findOne_cast phone (users s) = Ok (Some user)
    /\ In user (users s)
    /\ User.approvalStatus user <> "pending"
    /\ User.approvalStatus user <> "rejected"
    /\ token = TokJws (mkJws (mkClaims (IdOid (User._id user)) (User.email user)
                                       (User.role user))
                             (t0 / 1000) (Some (t0 / 1000 + 604800)%Z)
                             (JWT_SECRET env)).
Proof.
  intros H. apply login_token in H.
  destruct H as (phone & pw & user & Hphone & _ & Hfind & _ & Hgen & P & R & _).
  exists phone, user. repeat split; try assumption.
  - now apply findOne_cast_In in Hfind.
  - unfold User.generateAuthToken, jwt_sign in Hgen. rewrite ms_7d in Hgen.
    now injection Hgen as <-.
Qed.

(** X8.  A token that login returns passes the employee gate on the same
    store at every time before its expiry, and [req.user] is then the
    account that logged in, without its password: the account the login
    identifier selects, whose phone number it is when it is a string. *)
Theorem login_token_passes_gate
    (bcrypt : Bcrypt) (env : Env) (t0 now : Z) (b : LoginBody) (s : Store)
    (token : Token) :
  store_ok s -> Forall user_ok (users s) ->
  field "token" (body (login bcrypt env t0 b s)) = Some (JTok token) ->
  (now / 1000 < t0 / 1000 + 7 * 24 * 60 * 60)%Z ->
  exists user,
    In user (users s)
    /\ (exists phone,
          lb_email b = Some phone
          /\ User.findOne_cast phone (users s) = Ok (Some user)
          /\ forall n, phone = JsStr n -> User.employeeNumber user = n)
    /\ authMiddleware env now (Some token) s
       = Next (User.select_minus_password user).
Proof.
  intros (ND & _) Hu H Hlive. apply login_issues in H.
  destruct H as (phone & user & Hphone & Hfind & Hin & P & R & ->).
  exists user. split; [exact Hin|]. split.
  { exists phone. split; [exact Hphone|]. split; [exact Hfind|].
    intros n ->. cbn [User.findOne_cast] in Hfind. injection Hfind as Hfind.
    apply find_some in Hfind. destruct Hfind as (_ & E).
    now apply String.eqb_eq in E. }
  rewrite (authMiddleware_resolved env now _ s (User._id user) user).
  - rewrite Forall_forall in Hu.
    destruct (Hu user Hin) as (_ & _ & _ & _ & _ & _ & A).
    simpl in A. destruct A as [A|[A|[A|[]]]]; try congruence.
    now rewrite <- A.
  - apply jwt_verify_Ok. cbn. repeat split. intros e [= <-]. lia.
  - reflexivity.
  - now apply find_by_unique_key.
Qed.

Lemma login_token_passes_gate_witness :
  exists user,
    In user (users Sample.store)
    /\ (exists phone,
          lb_email Sample.asha_login = Some phone
          /\ User.findOne_cast phone (users Sample.store) = Ok (Some user)
          /\ forall n, phone = JsStr n -> User.employeeNumber user = n)
    /\ authMiddleware Sample.env 9000 (Some Sample.asha_token) Sample.store
       = Next (User.select_minus_password user).
Proof.
  apply (login_token_passes_gate Sample.bcrypt Sample.env 5000 9000
           Sample.asha_login Sample.store Sample.asha_token).
  - exact Sample_store_ok.
  - exact (proj1 Sample_schema_ok).
  - reflexivity.
  - reflexivity.
Defined.

(** ** Registration *)

Lemma User_create_fields (bcrypt : Bcrypt) (salt : string) (oid : ObjectId)
    (now : Z) (d : User.doc) (coll coll' : list User.t) (u : User.t) :
  User.create bcrypt salt oid now d coll = Ok (u, coll') ->
  User.d_name d = Some (User.name u)
  /\ User.d_email d = Some (User.email u)
  /\ User.d_employeeNumber d = Some (User.employeeNumber u)
  /\ User.d_department d = Some (User.department u)
  /\ User.d_workLocation d = Some (User.workLocation u)
  /\ User.role u = with_default "employee" (User.d_role d)
  /\ User.createdAt u = now.
Proof.
  unfold User.create, User.validate.
  destruct (required (User.d_name d)) as [n|] eqn:H1; [|discriminate].
  destruct (required (User.d_email d)) as [e|] eqn:H2; [|discriminate].
  destruct (required (User.d_password d)) as [p|] eqn:H3; [|discriminate].
  destruct (required (User.d_employeeNumber d)) as [en|] eqn:H4; [|discriminate].
  destruct (required (User.d_department d)) as [dep|] eqn:H5; [|discriminate].
  destruct (required (User.d_workLocation d)) as [w|] eqn:H6; [|discriminate].
  destruct (enum _ "employee" _) as [r|] eqn:H7; [|discriminate].
  destruct (enum _ "pending" _) as [a|] eqn:H8; [|discriminate].
  cbn [bind]. destruct (User.violates_unique _ coll); [discriminate|].
  intros [= <- _]. cbn.
  apply required_inv in H1, H2, H4, H5, H6. apply enum_inv in H7. intuition.
Qed.

Lemma register_cases
    (bcrypt : Bcrypt) (salt : string) (now : Z) (b : RegisterBody) (s : Store) :
  let r := fst (register bcrypt salt now b s) in
  let s' := snd (register bcrypt salt now b s) in
  (status r = 201
   /\ exists u pw,
        s' = mkStore (users s ++ [u])%list (complaints s) (S (next_oid s))
        /\ User._id u = next_oid s
        /\ rb_employeeNumber b = Some (User.employeeNumber u)
        /\ rb_password b = Some pw
        /\ User.password u = bcrypt_hash bcrypt pw 10 salt
        /\ User.role u = "employee"
        /\ User.approvalStatus u = "pending")
  \/ ((status r = 400 \/ status r = 500) /\ s' = s).
Proof.
  cbv zeta. unfold register.
  destruct (negb _ || negb _ || negb _ || negb _ || negb _);
    [right; split; [now left|reflexivity]|].
  destruct (negb (phoneRegex_test _)); [right; split; [now left|reflexivity]|].
  destruct (_ <? 6)%nat; [right; split; [now left|reflexivity]|].
  destruct (User.findOne _ _); [right; split; [now left|reflexivity]|].
  destruct (User.create _ _ _ _ _ _) as [[u coll]|e] eqn:C;
    [|right; split; [now right|reflexivity]].
  left. split; [reflexivity|].
  pose proof (User_create_fields _ _ _ _ _ _ _ _ C) as (_ & _ & F3 & _ & _ & F6 & _).
  apply User_create_inv in C. destruct C as (-> & Hid & _ & Ha & pw & Hpw & Hd).
  exists u, pw. cbn in *. repeat split; assumption.
Qed.

Lemma find_None_incl {A : Type} (q : A -> bool) (l l' : list A) :
  (forall x, In x l' -> In x l) -> find q l = None -> find q l' = None.
Proof.
  intros I N. destruct (find q l') as [x|] eqn:E; [|reflexivity].
  apply find_some in E. destruct E as (Hin & Q).
  apply I in Hin. now rewrite (find_none _ _ N x Hin) in Q.
Qed.

Lemma updateOne_find_None {A : Type} (p q : A -> bool) (f : A -> A) (l : list A) :
  (forall x, q (f x) = q x) ->
  find q l = None -> find q (snd (updateOne p f l)) = None.
Proof.
  intros H. induction l as [|x r IH]; simpl; [trivial|].
  destruct (q x) eqn:Q; [discriminate|]. intros N.
  destruct (p x); simpl.
  - now rewrite H, Q.
  - destruct (updateOne p f r) as [o r']; simpl in *. rewrite Q. now apply IH.
Qed.

Lemma find_app_None {A : Type} (q : A -> bool) (l : list A) (x : A) :
  find q l = None -> q x = false -> find q (l ++ [x])%list = None.
Proof.
  induction l as [|y r IH]; simpl; intros N Q.
  - now rewrite Q.
  - destruct (q y); [discriminate|]. now apply IH.
Qed.

Lemma post_complaints_users (env : Env) (now : Z) (a : option Token)
    (d : Complaint.doc) (s : Store) :
  users (snd (post_complaints env now a d s)) = users s
  /\ next_oid s <= next_oid (snd (post_complaints env now a d s)).
Proof.
  unfold post_complaints, protect.
  destruct (authMiddleware env now a s); [now split|].
  unfold create_complaint.
  destruct (Complaint.create _ _ _ _ _) as [[c coll]|e]; [|now split].
  cbn [snd users next_oid]. split; [reflexivity|].
  destruct (lt_fresh_after (next_oid s) (Complaint._id c)). lia.
Qed.

Lemma complaint_routes_users (env : Env) (now : Z) (a : option Token)
    (id : IdValue) (v : option string) (s : Store) :
  (users (snd (patch_complaint_status env now a id v s)) = users s
   /\ next_oid (snd (patch_complaint_status env now a id v s)) = next_oid s)
  /\ (users (snd (delete_complaint env now a id s)) = users s
      /\ next_oid (snd (delete_complaint env now a id s)) = next_oid s).
Proof.
  unfold patch_complaint_status, delete_complaint, protect.
  destruct (adminMiddleware env now a) as [r|c]; [now repeat split|].
  split.
  - destruct id as [id|x];
      [|rewrite update_status_malformed; destruct (includes _ v); now split].
    destruct (update_status_cases now id v s c)
      as [(_ & E) | [(_ & _ & E) | (a' & y & _ & _ & _ & E)]];
      rewrite E; now split.
  - unfold delete_complaint_handler.
    destruct id as [id|x]; [|now split]. cbn [castObjectId bind].
    destruct (Complaint.findByIdAndDelete id (complaints s)) as [[z|] coll];
      now split.
Qed.

Lemma serve_keeps_gone (bcrypt : Bcrypt) (env : Env) (id : ObjectId) (now : Z)
    (req : Request) (s : Store) :
  gone id s -> gone id (snd (serve bcrypt env now req s)).
Proof.
  intros (L & N).
  destruct req as [salt b|b|b|a|a d|a rid|a|a|a rid v|a rid|a|a rid v|a rid];
    cbn [serve snd].
  - destruct (register_cases bcrypt salt now b s)
      as [(_ & u & pw & E & Hid & _)|(_ & E)]; cbv zeta in E; rewrite E;
      [|now split].
    split; cbn [next_oid users]; [lia|].
    apply find_app_None; [exact N|]. apply Nat.eqb_neq. lia.
  - now split.
  - now split.
  - destruct (read_only_routes env now a (IdOid 0) s) as (-> & _). now split.
  - destruct (post_complaints_users env now a d s) as (U & B).
    split; [lia|]. now rewrite U.
  - destruct (read_only_routes env now a rid s) as (_ & -> & _). now split.
  - destruct (read_only_routes env now a (IdOid 0) s) as (_ & _ & -> & _).
    now split.
  - destruct (read_only_routes env now a (IdOid 0) s) as (_ & _ & _ & -> & _).
    now split.
  - unfold patch_user_approval, protect.
    destruct (adminMiddleware env now a) as [r|c]; [now split|].
    destruct rid as [rid|x];
      [|rewrite update_approval_malformed; destruct (includes _ v); now split].
    destruct (update_approval_cases now rid v s c)
      as [(_ & E) | [(_ & _ & E) | (a' & u & _ & _ & _ & E)]];
      rewrite E; cbn [snd]; try now split.
    split; [exact L|]. cbn [users]. unfold User.findByIdAndUpdate.
    now apply updateOne_find_None.
  - unfold delete_user, protect.
    destruct (adminMiddleware env now a) as [r|c]; [now split|].
    unfold delete_user_handler.
    destruct rid as [rid|x]; [|now split]. cbn [castObjectId bind].
    rewrite (surjective_pairing (User.findByIdAndDelete rid (users s))).
    destruct (fst (User.findByIdAndDelete rid (users s))); [|now split].
    split; [exact L|]. cbn [snd users].
    apply (find_None_incl _ (users s)); [|exact N].
    intros x. apply deleteOne_incl.
  - destruct (read_only_routes env now a (IdOid 0) s) as (_ & _ & _ & _ & ->).
    now split.
  - destruct (complaint_routes_users env now a rid v s) as ((U & B) & _).
    split; [now rewrite B|now rewrite U].
  - destruct (complaint_routes_users env now a rid None s) as (_ & (U & B)).
    split; [now rewrite B|now rewrite U].
Qed.

Lemma run_keeps_gone (bcrypt : Bcrypt) (env : Env) (id : ObjectId)
    (trace : list (Z * Request)) (s : Store) :
  gone id s -> gone id (run bcrypt env trace s).
Proof.
  revert s. induction trace as [|[now req] rest IH]; intros s H; [exact H|].
  cbn [run]. apply IH. now apply serve_keeps_gone.
Qed.

(** X9.  Once the admin has deleted an account, a token that account got
    from login is answered 401 'User not found' by the employee gate for
    the rest of its validity: in the store the deletion leaves and in every
    store that any sequence of later requests leads to, since no request
    brings the identifier back. *)
Theorem deleted_account_token_is_401
    (bcrypt : Bcrypt) (env : Env) (s0 s1 : Store) (t0 t1 t2 : Z)
    (b : LoginBody) (user : User.t) (token : Token) (admin : option Token)
    (phone : jsval) (later : list (Z * Request)) :
  lb_email b = Some phone ->
  User.findOne_cast phone (users s0) = Ok (Some user) ->
  field "token" (body (login bcrypt env t0 b s0)) = Some (JTok token) ->
  store_ok s1 ->
  status (fst (delete_user env t1 admin (IdOid (User._id user)) s1)) = 200 ->
  (t2 / 1000 < t0 / 1000 + 7 * 24 * 60 * 60)%Z ->
  authMiddleware env t2 (Some token)
    (run bcrypt env later
         (snd (delete_user env t1 admin (IdOid (User._id user)) s1)))
    = Respond (fail 401 "User not found").
Proof.
  intros Hphone Hfind Htok (ND & _ & _ & _ & B & _) Hok Hlive.
  apply login_issues in Htok.
  destruct Htok as (phone' & user' & Hphone' & Hfind' & _ & _ & _ & ->).
  rewrite Hphone in Hphone'. injection Hphone' as <-.
  rewrite Hfind in Hfind'. injection Hfind' as <-.
  assert (G : gone (User._id user)
                (snd (delete_user env t1 admin (IdOid (User._id user)) s1))).
  { unfold delete_user, protect in *.
    destruct (adminMiddleware env t1 admin) as [r|c] eqn:G.
    - apply adminMiddleware_failure in G. cbn [fst] in Hok. lia.
    - unfold delete_user_handler in *. cbn [castObjectId bind] in *.
      rewrite (surjective_pairing
                 (User.findByIdAndDelete (User._id user) (users s1))) in *.
      destruct (fst (User.findByIdAndDelete (User._id user) (users s1)))
        as [d|] eqn:F; [|discriminate].
      split; cbn [snd users next_oid].
      + unfold User.findByIdAndDelete in F. rewrite deleteOne_fst in F.
        apply find_by_key_In in F. destruct F as (Hin & <-).
        rewrite Forall_forall in B. now apply B.
      + apply find_by_key_None. intros x Hx.
        unfold User.findByIdAndDelete in Hx.
        apply (deleteOne_by_key User._id) in Hx; tauto. }
  apply (run_keeps_gone bcrypt env _ later) in G. destruct G as (_ & N).
  match goal with
  | |- authMiddleware _ _ (Some (TokJws ?j)) _ = _ =>
      assert (V : jwt_verify (TokJws j) (JWT_SECRET env) t2 = Ok (payload j))
  end.
  { apply jwt_verify_Ok. cbn. repeat split. intros e [= <-]. lia. }
  unfold authMiddleware. rewrite V.
  cbn [bind payload claim_id User.findById_cast]. now rewrite N.
Qed.

Lemma deleted_account_token_is_401_witness :
  authMiddleware Sample.env 9500 (Some Sample.asha_token)
    (run Sample.bcrypt Sample.env
         [(9100%Z, PostRegister "NaCl" Sample.asha_registration);
          (9200%Z, PatchUserApproval (Some Sample.admin_token) (IdOid 4)
                     (Some "approved"))]
         (snd (delete_user Sample.env 9000 (Some Sample.admin_token)
                 (IdOid (User._id Sample.asha)) Sample.store)))
    = Respond (fail 401 "User not found").
Proof.
  apply (deleted_account_token_is_401 Sample.bcrypt Sample.env Sample.store
           Sample.store 5000 9000 9500 Sample.asha_login Sample.asha
           Sample.asha_token (Some Sample.admin_token) (JsStr "9876543210")).
  - reflexivity.
  - reflexivity.
  - reflexivity.
  - exact Sample_store_ok.
  - reflexivity.
  - reflexivity.
Defined.

(** X11.  Whatever the request, register answers 201, 400 or 500, and the
    store changes only with 201: then exactly one account is appended, under
    the next identifier, with the phone number of the request, the bcrypt
    digest (cost 10) of its password, the role ['employee'] and the
    approvalStatus ['pending']; accounts already stored and all complaints
    are left as they were. *)
Theorem register_outcomes
    (bcrypt : Bcrypt) (salt : string) (now : Z) (b : RegisterBody) (s : Store) :
  let r := fst (register bcrypt salt now b s) in
  let s' := snd (register bcrypt salt now b s) in
  (status r = 201
   /\ exists u pw,
        s' = mkStore (users s ++ [u])%list (complaints s) (S (next_oid s))
        /\ User._id u = next_oid s
        /\ rb_employeeNumber b = Some (User.employeeNumber u)
        /\ rb_password b = Some pw
        /\ User.password u = bcrypt_hash bcrypt pw 10 salt
        /\ User.role u = "employee"
        /\ User.approvalStatus u = "pending")
  \/ ((status r = 400 \/ status r = 500) /\ s' = s).
Proof.
  destruct (register_cases bcrypt salt now b s) as [(H201 & u & pw & H) | H];
    [left; split; [exact H201|now exists u, pw]|right; exact H].
Qed.

(** X10.  Registration, approval and login compose: if bcrypt's compare
    accepts a password against the digest bcrypt's hash made of it, then
    after a successful registration and a successful approval of the new
    account, a login with the registered phone number and password answers
    200 with a token whose subject is the new account. *)
Theorem register_approve_login
    (bcrypt : Bcrypt) (env : Env) (salt : string) (t0 t1 t2 : Z)
    (b : RegisterBody) (s : Store) (admin : option Token) (n pw : string) :
  bcrypt_compare bcrypt pw (bcrypt_hash bcrypt pw 10 salt) = true ->
  store_ok s ->
  rb_employeeNumber b = Some n -> rb_password b = Some pw ->
  status (fst (register bcrypt salt t0 b s)) = 201 ->
  let s1 := snd (register bcrypt salt t0 b s) in
  status (fst (patch_user_approval env t1 admin (IdOid (next_oid s))
                 (Some "approved") s1))
    = 200 ->
  let s2 := snd (patch_user_approval env t1 admin (IdOid (next_oid s))
                   (Some "approved") s1) in
  let r := login bcrypt env t2
             (mkLoginBody (Some (JsStr n)) (Some (JsStr pw))) s2 in
  status r = 200
  /\ exists j,
       field "token" (body r) = Some (JTok (TokJws j))
       /\ claim_id (payload j) = IdOid (next_oid s)
       /\ claim_role (payload j) = "employee".
Proof.
  intros Hb Hok Hn Hpw H201 s1 H200 s2 r.
  assert (Hok1 : store_ok s1) by now apply register_keeps_store_ok.
  assert (Hok2 : store_ok s2) by now apply patch_user_approval_keeps_store_ok.
  (* the truthiness checks passed, so neither field is empty *)
  assert (NE : truthy (Some n) = true /\ truthy (Some pw) = true).
  { revert H201. unfold register. rewrite Hn, Hpw.
    destruct (truthy (Some n)); destruct (truthy (Some pw));
      rewrite ?orb_true_r; cbn [negb orb]; try discriminate; try tauto;
      destruct (negb (truthy (rb_name b))); discriminate. }
  destruct NE as (Tn & Tpw).
  destruct (register_cases bcrypt salt t0 b s)
    as [(_ & u & pw' & E & Hid & Hnum & Hpw' & Hdig & Hrole & _) | (F & _)];
    [|fold s1 in F; lia].
  fold s1 in E. rewrite Hn in Hnum. injection Hnum as Hnum.
  rewrite Hpw in Hpw'. injection Hpw' as <-.
  (* the approval found the account and rewrote it *)
  assert (In2 : In (User.set_approvalStatus "approved" t1 u) (users s2)).
  { subst s2. unfold patch_user_approval, protect in *.
    destruct (adminMiddleware env t1 admin) as [r0|c] eqn:G.
    - apply adminMiddleware_failure in G. cbn [fst] in H200. lia.
    - destruct (update_approval_cases t1 (next_oid s) (Some "approved") s1 c)
        as [(_ & E') | [(_ & _ & E') | (a' & x & Ea & _ & Hx & E')]];
        rewrite E' in *; cbn [fst snd status users] in *; try discriminate.
      injection Ea as <-.
      assert (Hu1 : User.findById (next_oid s) (users s1) = Some u).
      { rewrite <- Hid. apply find_by_unique_key; [apply Hok1|].
        rewrite E. cbn [users]. apply in_or_app. right. now left. }
      rewrite Hu1 in Hx. injection Hx as <-.
      pose proof (findById_after_approval (next_oid s) "approved" t1 (users s1))
        as F2.
      rewrite Hu1 in F2. cbn [option_map] in F2.
      apply find_some in F2. tauto. }
  pose proof (findOne_stored s2 _ Hok2 In2) as F.
  cbn [User.set_approvalStatus User.employeeNumber] in F. rewrite <- Hnum in F.
  subst r. unfold login. cbn [lb_email lb_password].
  change (truthy_js (Some (JsStr n))) with (truthy (Some n)).
  change (truthy_js (Some (JsStr pw))) with (truthy (Some pw)).
  rewrite Tn, Tpw. cbn [negb orb User.findOne_cast]. rewrite F. cbn [bind].
  unfold User.comparePassword. cbn [User.set_approvalStatus User.password].
  rewrite Hdig, Hb. cbn [bind negb]. unfold login_found.
  cbn [User.approvalStatus String.eqb Ascii.eqb Bool.eqb].
  unfold User.generateAuthToken, jwt_sign. rewrite ms_7d.
  cbn [User._id User.role bind]. split; [reflexivity|].
  eexists. split; [reflexivity|]. cbn. rewrite Hid, Hrole. now split.
Qed.

Lemma register_approve_login_witness :
  let s1 := snd (register Sample.bcrypt "NaCl" 9000 Sample.chitra_registration
                   Sample.store) in
  let s2 := snd (patch_user_approval Sample.env 9100 (Some Sample.admin_token)
                   (IdOid (next_oid Sample.store)) (Some "approved") s1) in
  let r := login Sample.bcrypt Sample.env 9200
             (mkLoginBody (Some (JsStr "9000000001"))
                          (Some (JsStr "pass1234"))) s2 in
  status r = 200
  /\ exists j,
       field "token" (body r) = Some (JTok (TokJws j))
       /\ claim_id (payload j) = IdOid (next_oid Sample.store)
       /\ claim_role (payload j) = "employee".
Proof.
  apply (register_approve_login Sample.bcrypt Sample.env "NaCl" 9000 9100 9200
           Sample.chitra_registration Sample.store (Some Sample.admin_token)
           "9000000001" "pass1234").
  - reflexivity.
  - exact Sample_store_ok.
  - reflexivity.
  - reflexivity.
  - reflexivity.
  - reflexivity.
Defined.

(** ** Admin login *)

(** X12.  With the configured admin credentials non-empty, as the startup
    check requires, the admin login answers 200 exactly when the username
    and the password both equal the configured ones, and only then does the
    response carry a token; when both fields are present and either is
    wrong the answer is the same 401 'Invalid admin credentials', which does
    not tell which one. *)
Theorem admin_login_outcomes (env : Env) (now : Z) (b : AdminLoginBody) :
  env_ADMIN_USERNAME env <> "" -> env_ADMIN_PASSWORD env <> "" ->
  let r := admin_login env now b in
  let right_credentials :=
    ab_username b = Some (env_ADMIN_USERNAME env)
    /\ ab_password b = Some (env_ADMIN_PASSWORD env) in
  (status r = 200 <-> right_credentials)
  /\ (has_key "token" (body r) = true <-> right_credentials)
  /\ (truthy (ab_username b) = true -> truthy (ab_password b) = true ->
      ~ right_credentials -> r = fail 401 "Invalid admin credentials").
Proof.
  intros Nu Np r right_credentials. subst r right_credentials.
  unfold admin_login.
  destruct (ab_username b) as [u|]; destruct (ab_password b) as [p|];
    cbn [truthy negb orb with_default];
    try (repeat split; try discriminate; intros (H1 & H2); discriminate).
  2:{ rewrite orb_true_r.
      repeat split; try discriminate; intros (H1 & H2); discriminate. }
  destruct (String.eqb_spec u "") as [->|Eu]; cbn [negb orb].
  { repeat split; try discriminate; intros (H1 & H2); congruence. }
  destruct (String.eqb_spec p "") as [->|Ep]; cbn [negb orb].
  { repeat split; try discriminate; intros (H1 & H2); congruence. }
  destruct (String.eqb_spec u (env_ADMIN_USERNAME env)) as [->|Wu];
    destruct (String.eqb_spec p (env_ADMIN_PASSWORD env)) as [->|Wp];
    cbn [negb orb];
    try (repeat split; try discriminate; try reflexivity;
         intros (H1 & H2); congruence).
  unfold User.generateAdminToken, jwt_sign. rewrite ms_24h.
  repeat split; try reflexivity. intros _ _ H. exfalso. apply H. now split.
Qed.

Lemma admin_login_outcomes_witness :
  status (admin_login Sample.env 5000 Sample.admin_credentials) = 200
  /\ admin_login Sample.env 5000
       (mkAdminLoginBody (Some "admin") (Some "letmein")) 
     = fail 401 "Invalid admin credentials"
  /\ admin_login Sample.env 5000
       (mkAdminLoginBody (Some "root") (Some "letmein-admin"))
     = fail 401 "Invalid admin credentials".
Proof.
  split; [|split].
  - apply (admin_login_outcomes Sample.env 5000 Sample.admin_credentials);
      try discriminate. split; reflexivity.
  - apply (admin_login_outcomes Sample.env 5000
             (mkAdminLoginBody (Some "admin") (Some "letmein")));
      try discriminate; try reflexivity.
    intros (_ & H). discriminate.
  - apply (admin_login_outcomes Sample.env 5000
             (mkAdminLoginBody (Some "root") (Some "letmein-admin")));
      try discriminate; try reflexivity.
    intros (H & _). discriminate.
Defined.

(** ** Listings *)

Lemma insert_desc_perm {A : Type} (key : A -> Z) (x : A) (l : list A) :
  Permutation (insert_desc key x l) (x :: l).
Proof.
  induction l as [|y r IH]; simpl; [reflexivity|].
  destruct (key y <? key x)%Z; [reflexivity|].
  rewrite IH. apply perm_swap.
Qed.

Lemma sort_desc_perm {A : Type} (key : A -> Z) (l : list A) :
  Permutation (sort_desc key l) l.
Proof.
  induction l as [|x r IH]; simpl; [reflexivity|].
  rewrite insert_desc_perm. now constructor.
Qed.

Lemma insert_desc_newest_first {A : Type} (key : A -> Z) (x : A) (l : list A) :
  newest_first key l -> newest_first key (insert_desc key x l).
Proof.
  induction l as [|y r IH]; simpl; intros H.
  - split; [intros ? []|exact I].
  - destruct H as (Hy & Hr).
    destruct (Z.ltb_spec (key y) (key x)) as [L|L]; simpl.
    + split; [|now split].
      intros z [<-|Hz]; [lia|]. specialize (Hy z Hz). lia.
    + split; [|now apply IH].
      intros z Hz.
      apply (Permutation_in _ (insert_desc_perm key x r)) in Hz.
      destruct Hz as [<-|Hz]; [lia|now apply Hy].
Qed.

Lemma sort_desc_newest_first {A : Type} (key : A -> Z) (l : list A) :
  newest_first key (sort_desc key l).
Proof.
  induction l as [|x r IH]; simpl; [exact I|].
  now apply insert_desc_newest_first.
Qed.

(** X13.  For a caller the employee gate lets through, GET /api/complaints
    answers 200 with every stored complaint, each exactly once, newest
    first: the list is not restricted to the caller's own complaints, and is
    the same for every approved caller. *)
Theorem get_complaints_lists_everything
    (env : Env) (now : Z) (auth : option Token) (caller : User.projection)
    (s : Store) :
  authMiddleware env now auth s = Next caller ->
  exists l,
    get_complaints env now auth s
      = (mkResponse 200 (JArr (map Complaint.toJSON l)), s)
    /\ Permutation l (complaints s)
    /\ newest_first Complaint.createdAt l
    /\ (forall c, In c (complaints s) -> In c l)
    /\ (forall auth2 caller2,
          authMiddleware env now auth2 s = Next caller2 ->
          get_complaints env now auth2 s = get_complaints env now auth s).
Proof.
  intros G. exists (Complaint.find_sorted (complaints s)).
  unfold get_complaints, protect. rewrite G.
  unfold Complaint.find_sorted. repeat split.
  - apply sort_desc_perm.
  - apply sort_desc_newest_first.
  - intros c Hc. apply (Permutation_in c (Permutation_sym (sort_desc_perm _ _))).
    exact Hc.
  - intros auth2 caller2 ->. reflexivity.
Qed.

Lemma get_complaints_lists_everything_witness :
  exists l,
    get_complaints Sample.env 9000 (Some Sample.asha_token) Sample.store
      = (mkResponse 200 (JArr (map Complaint.toJSON l)), Sample.store)
    /\ Permutation l (complaints Sample.store)
    /\ In Sample.leave_issue l.
Proof.
  destruct (get_complaints_lists_everything Sample.env 9000
              (Some Sample.asha_token) (User.select_minus_password Sample.asha)
              Sample.store eq_refl) as (l & E & P & _ & A & _).
  exists l. repeat split; try assumption. apply A. simpl. tauto.
Defined.

(** X14.  Past the admin gate, GET /api/admin/users lists every stored
    account exactly once, newest first, and GET /api/admin/users/pending
    lists exactly the stored accounts whose approvalStatus is ['pending'];
    both send each account without its password. *)
Theorem admin_user_listings
    (env : Env) (now : Z) (auth : option Token) (claims : Claims) (s : Store) :
  adminMiddleware env now auth = Next claims ->
  exists all pending,
    get_admin_users env now auth s
      = (mkResponse 200
           (JObj [("success", JBool true);
                  ("users",
                   JArr (map (fun u => User.projection_toJSON
                                         (User.select_minus_password u)) all))]),
         s)
    /\ get_admin_users_pending env now auth s
       = (mkResponse 200
            (JObj [("success", JBool true);
                   ("users",
                    JArr (map (fun u => User.projection_toJSON
                                          (User.select_minus_password u))
                              pending))]),
          s)
    /\ Permutation all (users s)
    /\ newest_first User.createdAt all
    /\ newest_first User.createdAt pending
    /\ (forall u, In u pending <->
                  In u (users s) /\ User.approvalStatus u = "pending").
Proof.
  intros G.
  exists (User.find_sorted (fun _ => true) (users s)),
         (User.find_sorted (fun u => User.approvalStatus u =? "pending") (users s)).
  unfold get_admin_users, get_admin_users_pending, protect. rewrite G.
  unfold User.find_sorted.
  split; [reflexivity|]. split; [reflexivity|]. split; [|split; [|split]].
  - rewrite sort_desc_perm.
    assert (F : forall l : list User.t, filter (fun _ => true) l = l).
    { induction l as [|x r IH]; simpl; [reflexivity|now rewrite IH]. }
    now rewrite F.
  - apply sort_desc_newest_first.
  - apply sort_desc_newest_first.
  - intros u. split.
    + intros H. apply (Permutation_in _ (sort_desc_perm _ _)) in H.
      apply filter_In in H. destruct H as (Hin & H).
      apply String.eqb_eq in H. now split.
    + intros (Hin & Hp).
      apply (Permutation_in _ (Permutation_sym (sort_desc_perm _ _))).
      apply filter_In. split; [exact Hin|]. now apply String.eqb_eq.
Qed.

Lemma admin_user_listings_witness :
  exists all pending,
    fst (get_admin_users Sample.env 9000 (Some Sample.admin_token) Sample.store)
      = mkResponse 200
          (JObj [("success", JBool true);
                 ("users",
                  JArr (map (fun u => User.projection_toJSON
                                        (User.select_minus_password u)) all))])
    /\ Permutation all (users Sample.store)
    /\ In Sample.binu pending /\ ~ In Sample.asha pending.
Proof.
  destruct (admin_user_listings Sample.env 9000 (Some Sample.admin_token)
              (mkClaims (IdStr "admin") "admin@system.com" "admin")
              Sample.store eq_refl) as (all & pending & E1 & _ & P & _ & _ & K).
  exists all, pending. repeat split.
  - now rewrite E1.
  - exact P.
  - apply K. split; [simpl; tauto|reflexivity].
  - intros H. apply K in H. destruct H as (_ & H). discriminate.
Defined.

(** ** What an update leaves alone *)

Lemma updateOne_other {A : Type} (p q : A -> bool) (f : A -> A) (l : list A) :
  (forall x, p x = true -> q x = false /\ q (f x) = false) ->
  find q (snd (updateOne p f l)) = find q l.
Proof.
  intros H. induction l as [|x r IH]; simpl; [reflexivity|].
  destruct (p x) eqn:Px; simpl.
  - destruct (H x Px) as (-> & ->). reflexivity.
  - destruct (updateOne p f r) as [o r']; simpl in *. now rewrite IH.
Qed.

Lemma updateOne_length {A : Type} (p : A -> bool) (f : A -> A) (l : list A) :
  List.length (snd (updateOne p f l)) = List.length l.
Proof.
  induction l as [|x r IH]; simpl; [reflexivity|].
  destruct (p x); simpl; [reflexivity|].
  destruct (updateOne p f r) as [o r']; simpl in *. now rewrite IH.
Qed.

Lemma with_status_same (c : Complaint.t) :
  Complaint.with_status (Complaint.status c) (Complaint.updatedAt c) c = c.
Proof. now destruct c. Qed.

Lemma set_approvalStatus_same (u : User.t) :
  User.set_approvalStatus (User.approvalStatus u) (User.updatedAt u) u = u.
Proof. now destruct u. Qed.

Lemma updateOne_In_other {A : Type} (p : A -> bool) (f : A -> A) (l : list A)
    (x : A) :
  (forall y, p y = true -> p (f y) = true) -> p x = false ->
  (In x (snd (updateOne p f l)) <-> In x l).
Proof.
  intros H Px. induction l as [|y r IH]; simpl; [tauto|].
  destruct (p y) eqn:Py; simpl.
  - split; intros [E|Hin]; try tauto.
    + subst x. apply H in Py. congruence.
    + subst x. congruence.
  - destruct (updateOne p f r) as [o r']; simpl in *. tauto.
Qed.

Ltac unchanged same :=
  repeat split; try congruence;
  let o := fresh in let a := fresh in let b := fresh in
  let E := fresh in let H1 := fresh in let H2 := fresh in
  intros o a b E H1 H2; rewrite H1 in H2; injection H2 as <-; apply same.

(** X15.  A status update, whatever it answers, leaves every account as it
    is, keeps the number of complaints, and leaves every complaint other
    than the addressed one as it is; on the addressed complaint it changes
    nothing but status and updatedAt: owner, display fields, category,
    priority, message, adminReply and createdAt stay. *)
Theorem status_update_frame
    (env : Env) (now : Z) (auth : option Token) (id : IdValue)
    (v : option string) (s : Store) :
  let s' := snd (patch_complaint_status env now auth id v s) in
  users s' = users s
  /\ next_oid s' = next_oid s
  /\ List.length (complaints s') = List.length (complaints s)
  /\ (forall id', IdOid id' <> id ->
        Complaint.findById id' (complaints s')
        = Complaint.findById id' (complaints s))
  /\ (forall x, (forall oid, id = IdOid oid -> Complaint._id x <> NotNull oid) ->
        (In x (complaints s') <-> In x (complaints s)))
  /\ (forall oid c c',
        id = IdOid oid ->
        Complaint.findById oid (complaints s) = Some c ->
        Complaint.findById oid (complaints s') = Some c' ->
        Complaint.with_status (Complaint.status c') (Complaint.updatedAt c') c
        = c').
Proof.
  cbv zeta. unfold patch_complaint_status, protect.
  destruct (adminMiddleware env now auth) as [r|cl];
    [cbn [snd]; unchanged with_status_same|].
  destruct id as [id|x];
    [|rewrite update_status_malformed; destruct (includes _ v); cbn [snd];
      unchanged with_status_same].
  destruct (update_status_cases now id v s cl)
    as [(_ & E) | [(_ & _ & E) | (a' & x & _ & _ & Hx & E)]];
    rewrite E; cbn [snd users complaints next_oid];
    [unchanged with_status_same|unchanged with_status_same|].
  split; [reflexivity|]. split; [reflexivity|].
  split; [apply updateOne_length|]. split; [|split].
  - intros id' Hne. unfold Complaint.findById, Complaint.findByIdAndUpdate.
    apply updateOne_other. intros y Hy. apply has_id_spec in Hy.
    unfold Complaint.has_id in *.
    cbn [Complaint.set_status Complaint.with_status Complaint._id].
    rewrite Hy. cbn [Complaint.id_eqb].
    destruct (Nat.eqb_spec id id'); [congruence|now split].
  - intros y Hy. unfold Complaint.findByIdAndUpdate.
    apply updateOne_In_other.
    + intros z Hz. exact Hz.
    + apply has_id_false. now apply Hy.
  - intros oid c c' [= <-] Hc. rewrite findById_after_status, Hc.
    cbn [option_map]. intros [= <-]. reflexivity.
Qed.

(** X16.  An approval update, whatever it answers, leaves every complaint
    as it is, keeps the number of accounts, and leaves every account other
    than the addressed one as it is; on the addressed account it changes
    nothing but approvalStatus and updatedAt: the stored password digest,
    the role, the phone number and the e-mail address stay. *)
Theorem approval_update_frame
    (env : Env) (now : Z) (auth : option Token) (id : IdValue)
    (v : option string) (s : Store) :
  let s' := snd (patch_user_approval env now auth id v s) in
  complaints s' = complaints s
  /\ next_oid s' = next_oid s
  /\ List.length (users s') = List.length (users s)
  /\ (forall id', IdOid id' <> id ->
        User.findById id' (users s') = User.findById id' (users s))
  /\ (forall oid u u',
        id = IdOid oid ->
        User.findById oid (users s) = Some u ->
        User.findById oid (users s') = Some u' ->
        User.set_approvalStatus (User.approvalStatus u') (User.updatedAt u') u = u').
Proof.
  cbv zeta. unfold patch_user_approval, protect.
  destruct (adminMiddleware env now auth) as [r|cl];
    [cbn [snd]; unchanged set_approvalStatus_same|].
  destruct id as [id|x];
    [|rewrite update_approval_malformed; destruct (includes _ v); cbn [snd];
      unchanged set_approvalStatus_same].
  destruct (update_approval_cases now id v s cl)
    as [(_ & E) | [(_ & _ & E) | (a' & x & _ & _ & Hx & E)]];
    rewrite E; cbn [snd users complaints next_oid];
    [unchanged set_approvalStatus_same|unchanged set_approvalStatus_same|].
  repeat split.
  - apply updateOne_length.
  - intros id' Hne. unfold User.findById, User.findByIdAndUpdate.
    apply updateOne_other. intros y Hy. apply Nat.eqb_eq in Hy.
    cbn [User.set_approvalStatus User._id].
    destruct (Nat.eqb_spec (User._id y) id'); [congruence|now split].
  - intros oid u u' [= <-] Hu. rewrite findById_after_approval, Hu.
    cbn [option_map]. intros [= <-]. reflexivity.
Qed.

(** ** Deleting a complaint *)

(** X17.  Past the admin gate, DELETE /api/admin/complaints/:id with the
    identifier of a stored complaint answers 200 and removes that complaint
    and nothing else: the other complaints and all accounts are left as they
    were; with a well-formed identifier that resolves to no complaint it
    answers 404, and with a path segment that is no ObjectId it answers 500
    'Server error occurred'; in both cases the store is unchanged. *)
Theorem delete_complaint_removes_only_it
    (env : Env) (now : Z) (auth : option Token) (claims : Claims)
    (id : IdValue) (s : Store) :
  adminMiddleware env now auth = Next claims ->
  store_ok s ->
  let r := fst (delete_complaint env now auth id s) in
  let s' := snd (delete_complaint env now auth id s) in
  (forall oid c,
      id = IdOid oid ->
      Complaint.findById oid (complaints s) = Some c ->
      status r = 200
      /\ users s' = users s
      /\ Complaint.findById oid (complaints s') = None
      /\ (forall x, In x (complaints s') <->
                    In x (complaints s) /\ Complaint._id x <> NotNull oid))
  /\ (forall oid,
        id = IdOid oid ->
        Complaint.findById oid (complaints s) = None ->
        r = fail 404 "Complaint not found" /\ s' = s)
  /\ (castObjectId id = Throw CastError ->
      r = fail 500 "Server error occurred" /\ s' = s).
Proof.
  intros G (_ & _ & _ & ND & _). cbv zeta.
  unfold delete_complaint, protect. rewrite G. unfold delete_complaint_handler.
  destruct id as [id|x]; cbn [castObjectId bind].
  2:{ split; [intros oid c [=]|]. split; [intros oid [=]|]. now split. }
  rewrite (surjective_pairing (Complaint.findByIdAndDelete id (complaints s))).
  assert (F : fst (Complaint.findByIdAndDelete id (complaints s))
              = Complaint.findById id (complaints s)).
  { unfold Complaint.findByIdAndDelete. apply deleteOne_fst. }
  rewrite F. split; [|split].
  - intros oid c [= <-] Hc. rewrite Hc. cbn [fst snd status users complaints].
    assert (K : forall x,
               In x (snd (Complaint.findByIdAndDelete id (complaints s)))
               <-> In x (complaints s) /\ Complaint._id x <> NotNull id).
    { intros x. unfold Complaint.findByIdAndDelete. now apply deleteOne_by_id. }
    split; [reflexivity|]. split; [reflexivity|]. split; [|exact K].
    apply Complaint_findById_None. intros x Hx. now apply K in Hx.
  - intros oid [= <-] ->. now split.
  - discriminate.
Qed.

Lemma delete_complaint_removes_only_it_witness :
  status (fst (delete_complaint Sample.env 9000 (Some Sample.admin_token)
                 (IdOid 2) Sample.store)) = 200
  /\ complaints (snd (delete_complaint Sample.env 9000 (Some Sample.admin_token)
                        (IdOid 2) Sample.store)) = [Sample.leave_issue]
  /\ delete_complaint Sample.env 9000 (Some Sample.admin_token) (IdOid 7)
       Sample.store
     = (fail 404 "Complaint not found", Sample.store)
  /\ delete_complaint Sample.env 9000 (Some Sample.admin_token)
       (IdStr "not-an-id") Sample.store
     = (fail 500 "Server error occurred", Sample.store).
Proof.
  destruct (delete_complaint_removes_only_it Sample.env 9000
              (Some Sample.admin_token)
              (mkClaims (IdStr "admin") "admin@system.com" "admin") (IdOid 2)
              Sample.store eq_refl Sample_store_ok) as (A & _).
  destruct (delete_complaint_removes_only_it Sample.env 9000
              (Some Sample.admin_token)
              (mkClaims (IdStr "admin") "admin@system.com" "admin") (IdOid 7)
              Sample.store eq_refl Sample_store_ok) as (_ & B & _).
  destruct (delete_complaint_removes_only_it Sample.env 9000
              (Some Sample.admin_token)
              (mkClaims (IdStr "admin") "admin@system.com" "admin")
              (IdStr "not-an-id") Sample.store eq_refl Sample_store_ok)
    as (_ & _ & C).
  destruct (A 2 Sample.pf_issue eq_refl eq_refl) as (A1 & _).
  destruct (B 7 eq_refl eq_refl) as (B1 & B2).
  destruct (C eq_refl) as (C1 & C2).
  split; [exact A1|]. split; [reflexivity|]. split.
  - rewrite (surjective_pairing (delete_complaint _ _ _ _ _)), B1, B2.
    reflexivity.
  - rewrite (surjective_pairing (delete_complaint _ _ _ _ _)), C1, C2.
    reflexivity.
Defined.

(** ** Which complaint bodies are accepted *)

Lemma id_path_Ok_iff (f : bool) (g : ObjectId) (v : input ObjectId) :
  (exists x, Complaint.id_path f g v = Ok x) <->
  v = Absent \/ (exists o, v = Value o) \/ (v = Null /\ f = true).
Proof.
  destruct v as [| |o|]; simpl.
  - split; [now left|]. intros _. now eexists.
  - destruct f; split.
    + intros _. right; right. now split.
    + intros _. now eexists.
    + intros (x & H). discriminate.
    + intros [H|[(o & H)|(_ & H)]]; discriminate.
  - split; [intros _; right; left; now exists o|]. intros _. now eexists.
  - split; [intros (x & H); discriminate|].
    intros [H|[(o & H)|(H & _)]]; discriminate.
Qed.

Lemma required_id_Ok_iff (v : input ObjectId) :
  (exists x, Complaint.required_id v = Ok x) <-> exists o, v = Value o.
Proof.
  destruct v as [| |o|]; simpl; split; intros (x & H); try discriminate;
    now exists o.
Qed.

Lemma required_path_Ok_iff (v : input string) :
  (exists x, Complaint.required_path v = Ok x) <-> Complaint.filled v = true.
Proof.
  destruct v as [| |y|]; simpl;
    try (split; [intros (x & H); discriminate|discriminate]).
  destruct (y =? ""); simpl; split; try discriminate.
  - intros (x & H). discriminate.
  - reflexivity.
  - intros _. now exists y.
Qed.

Lemma enum_path_Ok_iff (f : bool) (values : list string) (d : string)
    (v : input string) :
  (exists x, Complaint.enum_path f values d v = Ok x) <->
  v = Absent \/ (exists y, v = Value y /\ In y values) \/ (v = Null /\ f = true).
Proof.
  destruct v as [| |y|]; simpl.
  - split; [now left|]. intros _. now eexists.
  - destruct f; split.
    + intros _. right; right. now split.
    + intros _. now eexists.
    + intros (x & H). discriminate.
    + intros [H|[(o & H & _)|(_ & H)]]; discriminate.
  - destruct (existsb (String.eqb y) values) eqn:E; split.
    + intros _. right; left. exists y. split; [reflexivity|].
      apply existsb_exists in E. destruct E as (w & Hw & E).
      apply String.eqb_eq in E. now subst.
    + intros _. now eexists.
    + intros (x & H). discriminate.
    + intros [H|[(z & [= <-] & H)|(H & _)]]; try discriminate.
      assert (existsb (String.eqb y) values = true).
      { apply existsb_exists. exists y. split; [exact H|apply String.eqb_refl]. }
      congruence.
  - split; [intros (x & H); discriminate|].
    intros [H|[(o & H & _)|(H & _)]]; discriminate.
Qed.

Lemma castable_Ok_iff {A B : Type} (f : input A -> result B) (v : input A) :
  f Uncastable = Throw ValidationError ->
  (forall w, w <> Uncastable -> exists x, f w = Ok x) ->
  ((exists x, f v = Ok x) <-> v <> Uncastable).
Proof.
  intros H1 H2. split.
  - intros (x & H) ->. congruence.
  - apply H2.
Qed.

Lemma optional_path_Ok_iff (v : input string) :
  (exists x, Complaint.optional_path v = Ok x) <-> v <> Uncastable.
Proof.
  apply castable_Ok_iff; [reflexivity|].
  intros [| |y|] H; try contradiction; simpl; now eexists.
Qed.

Lemma default_path_Ok_iff (d : string) (v : input string) :
  (exists x, Complaint.default_path d v = Ok x) <-> v <> Uncastable.
Proof.
  apply (castable_Ok_iff (Complaint.default_path d)); [reflexivity|].
  intros [| |y|] H; try contradiction; simpl; now eexists.
Qed.

Lemma createdAt_path_Ok_iff (now : Z) (v : input Z) :
  (exists x, Complaint.createdAt_path now v = Ok x) <-> v <> Uncastable.
Proof.
  apply (castable_Ok_iff (Complaint.createdAt_path now)); [reflexivity|].
  intros [| |y|] H; try contradiction; simpl; now eexists.
Qed.

Lemma versionKey_path_Ok_iff (v : input Z) :
  (exists x, Complaint.versionKey_path v = Ok x) <-> v <> Uncastable.
Proof.
  apply (castable_Ok_iff Complaint.versionKey_path); [reflexivity|].
  intros [| |y|] H; try contradiction; simpl; now eexists.
Qed.

Lemma updatedAt_path_Ok_iff (created : Z) (v : input Z) :
  (exists x, Complaint.updatedAt_path created v = Ok x) <-> v <> Uncastable.
Proof.
  apply (castable_Ok_iff (Complaint.updatedAt_path created)); [reflexivity|].
  intros [| |y|] H; try contradiction; simpl; now eexists.
Qed.

(** The bodies that pass the casts and the validators of the schema. *)
Lemma Complaint_validate_Ok_iff (env : Env) (g : ObjectId) (now : Z)
    (d : Complaint.doc) :
  (exists c, Complaint.validate env g now d = Ok c) <-> well_formed env d.
Proof.
  unfold Complaint.validate, well_formed.
  pose proof (id_path_Ok_iff (env_null_id_inserted env) g (Complaint.d_id d))
    as R0.
  pose proof (required_id_Ok_iff (Complaint.d_employeeId d)) as R1.
  pose proof (required_path_Ok_iff (Complaint.d_employeeName d)) as R2.
  pose proof (required_path_Ok_iff (Complaint.d_employeeEmail d)) as R3.
  pose proof (optional_path_Ok_iff (Complaint.d_employeeNumber d)) as R4.
  pose proof (required_path_Ok_iff (Complaint.d_department d)) as R5.
  pose proof (required_path_Ok_iff (Complaint.d_category d)) as R6.
  pose proof (enum_path_Ok_iff (env_enum_accepts_null env)
                ["low"; "medium"; "high"] "medium" (Complaint.d_priority d))
    as R7.
  pose proof (required_path_Ok_iff (Complaint.d_message d)) as R8.
  pose proof (enum_path_Ok_iff (env_enum_accepts_null env)
                ["pending"; "received"; "resolved"] "pending"
                (Complaint.d_status d)) as R9.
  pose proof (default_path_Ok_iff "" (Complaint.d_adminReply d)) as R10.
  pose proof (createdAt_path_Ok_iff now (Complaint.d_createdAt d)) as R11.
  destruct (Complaint.id_path _ _ _) as [x0|e];
    [|split; [intros (c & H); discriminate
             |intros (A & _); apply R0 in A; destruct A; discriminate]].
  destruct (Complaint.required_id _) as [x1|e];
    [|split; [intros (c & H); discriminate
             |intros (_ & A & _); apply R1 in A; destruct A; discriminate]].
  destruct (Complaint.required_path (Complaint.d_employeeName d)) as [x2|e];
    [|split; [intros (c & H); discriminate
             |intros (_ & _ & A & _); apply R2 in A; destruct A; discriminate]].
  destruct (Complaint.required_path (Complaint.d_employeeEmail d)) as [x3|e];
    [|split; [intros (c & H); discriminate
             |intros (_ & _ & _ & A & _); apply R3 in A; destruct A;
              discriminate]].
  destruct (Complaint.optional_path _) as [x4|e];
    [|split; [intros (c & H); discriminate
             |intros (_ & _ & _ & _ & A & _); apply R4 in A; destruct A;
              discriminate]].
  destruct (Complaint.required_path (Complaint.d_department d)) as [x5|e];
    [|split; [intros (c & H); discriminate
             |intros (_ & _ & _ & _ & _ & A & _); apply R5 in A; destruct A;
              discriminate]].
  destruct (Complaint.required_path (Complaint.d_category d)) as [x6|e];
    [|split; [intros (c & H); discriminate
             |intros (_ & _ & _ & _ & _ & _ & A & _); apply R6 in A; destruct A;
              discriminate]].
  destruct (Complaint.enum_path _ _ "medium" _) as [x7|e];
    [|split; [intros (c & H); discriminate
             |intros (_ & _ & _ & _ & _ & _ & _ & A & _); apply R7 in A;
              destruct A; discriminate]].
  destruct (Complaint.required_path (Complaint.d_message d)) as [x8|e];
    [|split; [intros (c & H); discriminate
             |intros (_ & _ & _ & _ & _ & _ & _ & _ & A & _); apply R8 in A;
              destruct A; discriminate]].
  destruct (Complaint.enum_path _ _ "pending" _) as [x9|e];
    [|split; [intros (c & H); discriminate
             |intros (_ & _ & _ & _ & _ & _ & _ & _ & _ & A & _); apply R9 in A;
              destruct A; discriminate]].
  destruct (Complaint.default_path _ _) as [x10|e];
    [|split; [intros (c & H); discriminate
             |intros (_ & _ & _ & _ & _ & _ & _ & _ & _ & _ & A & _);
              apply R10 in A; destruct A; discriminate]].
  cbn [bind].
  destruct (Complaint.createdAt_path _ _) as [x11|e];
    [|split; [intros (c & H); discriminate
             |intros (_ & _ & _ & _ & _ & _ & _ & _ & _ & _ & _ & A & _);
              apply R11 in A; destruct A; discriminate]].
  cbn [bind].
  pose proof (updatedAt_path_Ok_iff x11 (Complaint.d_updatedAt d)) as R12.
  destruct (Complaint.updatedAt_path _ _) as [x12|e];
    [|split; [intros (c & H); discriminate
             |intros (_ & _ & _ & _ & _ & _ & _ & _ & _ & _ & _ & _ & A & _);
              apply R12 in A; destruct A; discriminate]].
  cbn [bind].
  pose proof (versionKey_path_Ok_iff (Complaint.d_v d)) as R13.
  destruct (Complaint.versionKey_path _) as [x13|e];
    [|split; [intros (c & H); discriminate
             |intros (_ & _ & _ & _ & _ & _ & _ & _ & _ & _ & _ & _ & _ & A);
              apply R13 in A; destruct A; discriminate]].
  cbn [bind]. split; [intros _|intros _; now eexists].
  repeat split;
    [apply R0|apply R1|apply R2|apply R3|apply R4|apply R5|apply R6|apply R7
    |apply R8|apply R9|apply R10|apply R11|apply R12|apply R13];
    eexists; reflexivity.
Qed.

(** X18.  For a caller the employee gate lets through, POST /api/complaints
    answers 201 exactly when the body passes the casts and validators of
    the schema and its [_id], if it sets one, is not the [_id] of a stored
    complaint.  It passes them when: [_id] is absent, or casts to an
    ObjectId, or is [null] under a Mongoose that inserts such a document;
    employeeId casts to an ObjectId; employeeName, employeeEmail,
    department, category and message are non-empty strings; priority and
    status are each absent, or one of their literals, or [null] under a
    Mongoose whose [enum] validator lets [null] pass; employeeNumber,
    adminReply, createdAt and updatedAt hold nothing their type rejects.
    On every other body, and on a body that repeats a stored [_id], the
    answer is 500 and nothing is stored. *)
Theorem complaint_accepted_iff
    (env : Env) (now : Z) (auth : option Token) (caller : User.projection)
    (d : Complaint.doc) (s : Store) :
  authMiddleware env now auth s = Next caller ->
  store_ok s ->
  let r := fst (post_complaints env now auth d s) in
  let s' := snd (post_complaints env now auth d s) in
  let acceptable := well_formed env d /\ id_free d (complaints s) in
  (status r = 201 <-> acceptable)
  /\ (~ acceptable -> r = fail 500 "Server error occurred" /\ s' = s).
Proof.
  intros G (_ & _ & _ & _ & _ & B). cbv zeta.
  unfold post_complaints, protect. rewrite G.
  unfold create_complaint, Complaint.create.
  pose proof (Complaint_validate_Ok_iff env (next_oid s) now d) as W.
  destruct (Complaint.validate env (next_oid s) now d) as [c|e] eqn:V;
    cbn [bind].
  - assert (Wd : well_formed env d) by (apply W; now exists c).
    assert (F : Complaint.violates_unique c (complaints s) = false
                <-> id_free d (complaints s)).
    { apply Complaint_validate_inv in V. destruct V as (V & _).
      unfold id_free.
      destruct (Complaint.d_id d) as [| |o|]; cbn [Complaint.id_path] in V.
      - injection V as V. split; [trivial|]. intros _.
        now apply (violates_unique_generated c _ (next_oid s)).
      - destruct (env_null_id_inserted env); [|discriminate].
        injection V as V. split.
        + intros U x Hx E. apply violates_unique_notin in U. apply U.
          rewrite <- V, <- E. now apply in_map.
        + intros H. destruct (Complaint.violates_unique c (complaints s)) eqn:U;
            [|reflexivity].
          apply violates_unique_In in U. apply in_map_iff in U.
          destruct U as (x & E & Hx). exfalso. apply (H x Hx). congruence.
      - injection V as V. split.
        + intros U x Hx E. apply violates_unique_notin in U. apply U.
          rewrite <- V, <- E. now apply in_map.
        + intros H. destruct (Complaint.violates_unique c (complaints s)) eqn:U;
            [|reflexivity].
          apply violates_unique_In in U. apply in_map_iff in U.
          destruct U as (x & E & Hx). exfalso. apply (H x Hx). congruence.
      - discriminate. }
    destruct (Complaint.violates_unique c (complaints s));
      cbn [fst snd status].
    + split.
      * split; [discriminate|]. intros (_ & H). apply F in H. discriminate.
      * intros _. now split.
    + split.
      * split; [intros _; split; [exact Wd|now apply F]|reflexivity].
      * intros H. exfalso. apply H. split; [exact Wd|now apply F].
  - cbn [fst snd status]. split.
    + split; [discriminate|]. intros (H & _). apply W in H.
      destruct H. discriminate.
    + intros _. now split.
Qed.

Lemma complaint_accepted_iff_witness :
  status (fst (post_complaints Sample.env 9000 (Some Sample.asha_token)
                 Sample.honest_complaint Sample.store)) = 201
  /\ post_complaints Sample.env 9000 (Some Sample.asha_token)
       Sample.no_category_complaint Sample.store
     = (fail 500 "Server error occurred", Sample.store)
  /\ post_complaints Sample.env 9000 (Some Sample.asha_token)
       Sample.replayed_complaint Sample.store
     = (fail 500 "Server error occurred", Sample.store).
Proof.
  split; [|split].
  - apply (complaint_accepted_iff Sample.env 9000 (Some Sample.asha_token)
             (User.select_minus_password Sample.asha) Sample.honest_complaint
             Sample.store eq_refl Sample_store_ok).
    split; [|exact I].
    unfold well_formed. cbn.
    repeat split; try discriminate; try (now left).
    + now exists 0.
    + right; left. exists "high". split; [reflexivity|]. simpl. tauto.
  - destruct (complaint_accepted_iff Sample.env 9000 (Some Sample.asha_token)
                (User.select_minus_password Sample.asha)
                Sample.no_category_complaint Sample.store eq_refl
                Sample_store_ok) as (_ & B).
    rewrite (surjective_pairing (post_complaints _ _ _ _ _)).
    destruct B as (-> & ->); [|reflexivity].
    intros ((_ & _ & _ & _ & _ & _ & H & _) & _). discriminate.
  - destruct (complaint_accepted_iff Sample.env 9000 (Some Sample.asha_token)
                (User.select_minus_password Sample.asha)
                Sample.replayed_complaint Sample.store eq_refl
                Sample_store_ok) as (_ & B).
    rewrite (surjective_pairing (post_complaints _ _ _ _ _)).
    destruct B as (-> & ->); [|reflexivity].
    intros (_ & H). apply (H Sample.pf_issue); [simpl; tauto|reflexivity].
Defined.

(** ** The shipped client against the server *)




Lemma toJSON_employeeId (c : Complaint.t) :
  field "employeeId" (Complaint.toJSON c) = Some (JOid (Complaint.employeeId c)).
Proof. reflexivity. Qed.

Lemma toJSON_status (c : Complaint.t) :
  field "status" (Complaint.toJSON c) = Some (Complaint.JText (Complaint.status c)).
Proof.
  unfold Complaint.toJSON. destruct (Complaint.employeeNumber c); reflexivity.
Qed.

Lemma filter_map_commute {A B : Type} (f : A -> B) (q : B -> bool) (l : list A) :
  filter q (map f l) = map f (filter (fun x => q (f x)) l).
Proof.
  induction l as [|x r IH]; simpl; [reflexivity|].
  destruct (q (f x)); simpl; now rewrite IH.
Qed.

(** X20.  What the employee page shows after [fetchComplaints]: of the
    list GET /api/complaints sent, exactly the complaints whose employeeId
    is the logged-in account's identifier, newest first - whoever filed
    them. *)
Theorem employee_page_shows_complaints_by_employeeId
    (env : Env) (now : Z) (auth : option Token) (caller : User.projection)
    (s : Store) (previous : list json) (user : json) (id : ObjectId) :
  authMiddleware env now auth s = Next caller ->
  field "_id" user = Some (JOid id) ->
  exists mine,
    Client.fetchComplaints previous user
      (body (fst (get_complaints env now auth s)))
      = map Complaint.toJSON mine
    /\ newest_first Complaint.createdAt mine
    /\ (forall c, In c mine <->
                  In c (complaints s) /\ Complaint.employeeId c = id).
Proof.
  intros G Hid.
  exists (filter (fun c => (Complaint.employeeId c =? id)%nat)
                 (Complaint.find_sorted (complaints s))).
  unfold get_complaints, protect. rewrite G. cbn [fst body].
  unfold Client.fetchComplaints. rewrite Hid, filter_map_commute.
  split; [reflexivity|]. split.
  - unfold Complaint.find_sorted.
    pose proof (sort_desc_newest_first Complaint.createdAt (complaints s)) as N.
    induction (sort_desc Complaint.createdAt (complaints s)) as [|x r IH];
      simpl; [exact I|].
    destruct N as (Hx & Hr). destruct (_ =? id)%nat; simpl; [|now apply IH].
    split; [|now apply IH].
    intros y Hy. apply filter_In in Hy. now apply Hx.
  - intros c. rewrite filter_In. unfold Complaint.find_sorted. split.
    + intros (Hin & E). apply Nat.eqb_eq in E. split; [|exact E].
      now apply (Permutation_in _ (sort_desc_perm _ _)) in Hin.
    + intros (Hin & E). split; [|now apply Nat.eqb_eq].
      now apply (Permutation_in _ (Permutation_sym (sort_desc_perm _ _))).
Qed.

Lemma employee_page_shows_complaints_by_employeeId_witness :
  exists mine,
    Client.fetchComplaints [] (JObj [("_id", JOid 0)])
      (body (fst (get_complaints Sample.env 9000 (Some Sample.asha_token)
                    Sample.store)))
      = map Complaint.toJSON mine
    /\ In Sample.pf_issue mine /\ ~ In Sample.leave_issue mine.
Proof.
  destruct (employee_page_shows_complaints_by_employeeId Sample.env 9000
              (Some Sample.asha_token) (User.select_minus_password Sample.asha)
              Sample.store [] (JObj [("_id", JOid 0)]) 0 eq_refl eq_refl)
    as (mine & E & _ & K).
  exists mine. split; [exact E|]. split.
  - apply K. split; [simpl; tauto|reflexivity].
  - intros H. apply K in H. destruct H as (_ & H). discriminate.
Defined.

Lemma has_status_toJSON (x : string) (c : Complaint.t) :
  Client.has_status x (Complaint.toJSON c)
  = match Complaint.status c with
    | NotNull y => y =? x
    | IsNull => false
    end.
Proof.
  unfold Client.has_status. rewrite toJSON_status.
  now destruct (Complaint.status c).
Qed.

Lemma count_by_status (l : list Complaint.t) :
  Forall complaint_ok l ->
  List.length (filter (Client.has_status "pending") (map Complaint.toJSON l))
  + List.length (filter (Client.has_status "received") (map Complaint.toJSON l))
  + List.length (filter (Client.has_status "resolved") (map Complaint.toJSON l))
  = List.length l.
Proof.
  induction 1 as [|c r Hc Hr IH]; [reflexivity|].
  cbn [map filter]. rewrite !has_status_toJSON.
  destruct Hc as (_ & _ & _ & _ & _ & _ & St).
  destruct (Complaint.status c) as [|st]; [contradiction|]. simpl in St.
  destruct St as [<-|[<-|[<-|[]]]];
    cbn [String.eqb Ascii.eqb Bool.eqb List.length]; lia.
Qed.

(** X21.  On the admin page, after the complaint list was fetched from a
    store that satisfies the schema invariant, the counters add up: total
    is the number of stored complaints, and pending + received + resolved =
    total, so no complaint falls outside the three tabs. *)
Theorem admin_counters_add_up
    (env : Env) (now : Z) (auth : option Token) (claims : Claims) (s : Store)
    (previous users' : list json) :
  adminMiddleware env now auth = Next claims ->
  schema_ok s ->
  let data := body (fst (get_admin_complaints env now auth s)) in
  let st := Client.stats (Client.admin_fetchComplaints previous data) users' in
  Client.total st = List.length (complaints s)
  /\ Client.pending st + Client.received st + Client.resolved st
     = Client.total st.
Proof.
  intros G (_ & K). cbv zeta.
  unfold get_admin_complaints, protect. rewrite G. cbn [fst body].
  unfold Client.admin_fetchComplaints.
  cbn [field get String.eqb Ascii.eqb Bool.eqb].
  unfold Client.stats.
  cbn [Client.total Client.pending Client.received Client.resolved].
  assert (L : List.length (Complaint.find_sorted (complaints s))
              = List.length (complaints s)).
  { apply Permutation_length, sort_desc_perm. }
  rewrite length_map, L. split; [reflexivity|].
  rewrite <- L. apply count_by_status.
  rewrite Forall_forall in *. intros c Hc. apply K.
  now apply (Permutation_in _ (sort_desc_perm _ _)) in Hc.
Qed.

Lemma admin_counters_add_up_witness :
  let data := body (fst (get_admin_complaints Sample.env 9000
                           (Some Sample.admin_token) Sample.store)) in
  let st := Client.stats (Client.admin_fetchComplaints [] data) [] in
  Client.total st = 2
  /\ Client.pending st + Client.received st + Client.resolved st
     = Client.total st.
Proof.
  apply (admin_counters_add_up Sample.env 9000 (Some Sample.admin_token)
           (mkClaims (IdStr "admin") "admin@system.com" "admin") Sample.store
           [] []).
  - reflexivity.
  - exact Sample_schema_ok.
Defined.

(** ** Where the stored secret can appear *)

Lemma authMiddleware_Respond (env : Env) (now : Z) (a : option Token) (s : Store)
    (r : Response) :
  authMiddleware env now a s = Respond r -> exists code m, r = fail code m.
Proof.
  unfold authMiddleware.
  destruct a as [[| |j]|]; try (intros [= <-]; now eexists _, _).
  destruct (bind _ _) as [[u|]|e]; try (intros [= <-]; now eexists _, _).
  destruct (negb _); [intros [= <-]; now eexists _, _|discriminate].
Qed.

Lemma complaint_toJSON_no_password (c : Complaint.t) :
  has_key "password" (Complaint.toJSON c) = false.
Proof.
  unfold Complaint.toJSON.
  destruct (Complaint.employeeNumber c) as [[|n]|], (Complaint._id c),
    (Complaint.priority c), (Complaint.status c), (Complaint.adminReply c);
    reflexivity.
Qed.

Lemma complaint_list_no_password (k : string) (l : list Complaint.t) :
  has_key "password" (JObj [("success", JBool true);
                            (k, JArr (map Complaint.toJSON l))])
  = (k =? "password").
Proof.
  pose proof (has_key_JArr_map "password" Complaint.toJSON l
                complaint_toJSON_no_password) as H.
  simpl in *. rewrite H. now rewrite !orb_false_r.
Qed.

Lemma complaint_envelope_no_password (c : Complaint.t) :
  has_key "password" (JObj [("success", JBool true);
                            ("complaint", Complaint.toJSON c)]) = false.
Proof.
  pose proof (complaint_toJSON_no_password c) as H.
  simpl in *. now rewrite H.
Qed.

(** X22.  The approval update is the only route whose response can carry
    a [password] key: for every other request of the API, whatever the
    store, the token and the body, no [password] key occurs anywhere in the
    response. *)
Theorem password_key_only_in_approval_response
    (bcrypt : Bcrypt) (env : Env) (now : Z) (req : Request) (s : Store) :
  (forall a id v, req <> PatchUserApproval a id v) ->
  has_key "password" (body (fst (serve bcrypt env now req s))) = false.
Proof.
  intros Hreq.
  destruct req as [salt b|b|b|a|a d|a id|a|a|a id v|a id|a|a id v|a id];
    cbn [serve fst].
  - apply register_response_no_password.
  - apply login_response_no_password.
  - unfold admin_login.
    destruct (negb _ || negb _); [reflexivity|].
    destruct (negb _ || negb _); [reflexivity|].
    destruct (User.generateAdminToken _ _ _); reflexivity.
  - unfold get_complaints, protect.
    destruct (authMiddleware env now a s) as [r|u] eqn:G.
    + apply authMiddleware_Respond in G. now destruct G as (code & m & ->).
    + cbn [fst body]. apply has_key_JArr_map, complaint_toJSON_no_password.
  - unfold post_complaints, protect.
    destruct (authMiddleware env now a s) as [r|u] eqn:G.
    + apply authMiddleware_Respond in G. now destruct G as (code & m & ->).
    + unfold create_complaint.
      destruct (Complaint.create _ _ _ _ _) as [[c coll]|e]; [|reflexivity].
      apply complaint_envelope_no_password.
  - unfold get_complaint, protect.
    destruct (authMiddleware env now a s) as [r|u] eqn:G.
    + apply authMiddleware_Respond in G. now destruct G as (code & m & ->).
    + destruct id as [id|x]; [|reflexivity]. cbn [castObjectId bind].
      destruct (Complaint.findById id (complaints s)); [|reflexivity].
      apply complaint_envelope_no_password.
  - apply admin_listings_no_password.
  - apply admin_listings_no_password.
  - exfalso. now apply (Hreq a id v).
  - unfold delete_user, protect.
    destruct (adminMiddleware env now a) as [r|c] eqn:G.
    + apply adminMiddleware_Respond in G. now destruct G as (code & m & ->).
    + unfold delete_user_handler.
      destruct id as [id|x]; [|reflexivity]. cbn [castObjectId bind].
      destruct (User.findByIdAndDelete id (users s)) as [[u|] coll]; reflexivity.
  - unfold get_admin_complaints, protect.
    destruct (adminMiddleware env now a) as [r|c] eqn:G.
    + apply adminMiddleware_Respond in G. now destruct G as (code & m & ->).
    + cbn [fst body]. now rewrite complaint_list_no_password.
  - unfold patch_complaint_status, protect.
    destruct (adminMiddleware env now a) as [r|c] eqn:G.
    + apply adminMiddleware_Respond in G. now destruct G as (code & m & ->).
    + destruct id as [id|x];
        [|rewrite update_status_malformed; now destruct (includes _ v)].
      destruct (update_status_cases now id v s c)
        as [(_ & E) | [(_ & _ & E) | (a' & x & _ & _ & _ & E)]];
        rewrite E; try reflexivity.
      apply complaint_envelope_no_password.
  - unfold delete_complaint, protect.
    destruct (adminMiddleware env now a) as [r|c] eqn:G.
    + apply adminMiddleware_Respond in G. now destruct G as (code & m & ->).
    + unfold delete_complaint_handler.
      destruct id as [id|y]; [|reflexivity]. cbn [castObjectId bind].
      destruct (Complaint.findByIdAndDelete id (complaints s)) as [[x|] coll];
        reflexivity.
Qed.

Lemma password_key_only_in_approval_response_witness :
  has_key "password"
    (body (fst (serve Sample.bcrypt Sample.env 9000
                  (GetAdminUsers (Some Sample.admin_token)) Sample.store)))
  = false.
Proof.
  apply (password_key_only_in_approval_response Sample.bcrypt Sample.env 9000
           (GetAdminUsers (Some Sample.admin_token)) Sample.store).
  discriminate.
Defined.

Lemma status_update_frame_witness :
  let s' := snd (patch_complaint_status Sample.env 9000 (Some Sample.admin_token)
                   (IdOid 3) (Some "received") Sample.store) in
  users s' = users Sample.store
  /\ Complaint.findById 2 (complaints s') = Some Sample.pf_issue
  /\ Complaint.findById 3 (complaints s')
     = Some (Complaint.set_status "received" 9000 Sample.leave_issue).
Proof.
  destruct (status_update_frame Sample.env 9000 (Some Sample.admin_token)
              (IdOid 3) (Some "received") Sample.store) as (A & _ & _ & B & _).
  split; [exact A|]. split; [|reflexivity].
  rewrite B; [reflexivity|discriminate].
Defined.

Lemma approval_update_frame_witness :
  let s' := snd (patch_user_approval Sample.env 9000 (Some Sample.admin_token)
                   (IdOid 1) (Some "approved") Sample.store) in
  complaints s' = complaints Sample.store
  /\ User.findById 0 (users s') = Some Sample.asha
  /\ (forall u', User.findById 1 (users s') = Some u' ->
                 User.password u' = User.password Sample.binu
                 /\ User.role u' = User.role Sample.binu).
Proof.
  destruct (approval_update_frame Sample.env 9000 (Some Sample.admin_token)
              (IdOid 1) (Some "approved") Sample.store) as (A & _ & _ & B & C).
  split; [exact A|]. split.
  - rewrite B; [reflexivity|discriminate].
  - intros u' Hu'. rewrite <- (C 1 Sample.binu u' eq_refl eq_refl Hu').
    now split.
Defined.

(** ** What the two public routes tell *)

(** X23.  Registration tells whether a phone number is taken: for a
    request that passes the field checks, the answer is 400 'Phone number
    already registered' exactly when some stored account has that phone
    number. *)
Theorem register_reveals_taken_numbers
    (bcrypt : Bcrypt) (salt : string) (now : Z) (b : RegisterBody) (s : Store)
    (n pw : string) :
  rb_employeeNumber b = Some n -> rb_password b = Some pw ->
  truthy (rb_name b) = true -> truthy (rb_department b) = true ->
  truthy (rb_workLocation b) = true ->
  phoneRegex_test n = true -> 6 <= String.length pw ->
  (fst (register bcrypt salt now b s) = fail 400 "Phone number already registered"
   <-> exists u, In u (users s) /\ User.employeeNumber u = n).
Proof.
  intros Hn Hpw Tn Td Tw Hphone Hlen.
  destruct (User.findOne n (users s)) as [u|] eqn:F.
  - destruct (register_taken bcrypt salt now b s n u Hn F) as (_ & _ & K).
    split.
    + intros _. exists u. apply find_some in F. destruct F as (Hin & E).
      apply String.eqb_eq in E. now split.
    + intros _. apply K; try assumption. now exists pw.
  - split.
    + intros E.
      destruct (register_cases bcrypt salt now b s) as [(H201 & _) | (H & _)].
      * rewrite E in H201. discriminate.
      * exfalso. revert E. unfold register.
        rewrite Tn, Td, Tw, Hn, Hpw.
        rewrite (truthy_nonempty n (phone_nonempty n Hphone)),
          (truthy_nonempty pw (long_nonempty pw Hlen)).
        cbn [negb orb with_default]. rewrite Hphone. cbn [negb].
        destruct (Nat.ltb_spec (String.length pw) 6) as [L|L]; [lia|].
        rewrite F.
        destruct (User.create _ _ _ _ _ _) as [[x coll]|e]; discriminate.
    + intros (u & Hin & E). exfalso.
      assert (N : User.findOne n (users s) <> None).
      { unfold User.findOne. intros N.
        apply (find_none _ _ N) in Hin. rewrite E, String.eqb_refl in Hin.
        discriminate. }
      contradiction.
Qed.

Lemma register_reveals_taken_numbers_witness :
  fst (register Sample.bcrypt "NaCl" 9000 Sample.asha_registration Sample.store)
  = fail 400 "Phone number already registered".
Proof.
  apply (register_reveals_taken_numbers Sample.bcrypt "NaCl" 9000
           Sample.asha_registration Sample.store "9876543210" "secret1");
    try reflexivity.
  - simpl. lia.
  - exists Sample.asha. split; [simpl; tauto|reflexivity].
Defined.

(** X24.  Login answers 200, 400, 401, 403 or 500.  The response carries
    a token exactly when the status is 200, which happens exactly when both
    fields are present, the identifier selects an account, the password is
    a string that bcrypt accepts against its stored digest, and its
    approvalStatus is neither ['pending'] nor ['rejected'].  The status is
    500, with the body 'Server error occurred', exactly when both fields are
    truthy and either the identifier is a value the query rejects, or it
    selects an account and the password is not a string; signing with the
    literal ['7d'] cannot fail. *)
Theorem login_outcomes
    (bcrypt : Bcrypt) (env : Env) (now : Z) (b : LoginBody) (s : Store) :
  let r := login bcrypt env now b s in
  In (status r) [200; 400; 401; 403; 500]
  /\ (has_key "token" (body r) = true <-> status r = 200)
  /\ (status r = 200 <->
      exists phone pw user,
        lb_email b = Some phone /\ truthy_js (lb_email b) = true
        /\ lb_password b = Some (JsStr pw) /\ pw <> ""
        /\ User.findOne_cast phone (users s) = Ok (Some user)
        /\ bcrypt_compare bcrypt pw (User.password user) = true
        /\ User.approvalStatus user <> "pending"
        /\ User.approvalStatus user <> "rejected")
  /\ (status r = 500 <->
      exists phone password,
        lb_email b = Some phone /\ lb_password b = Some password
        /\ truthy_js (lb_email b) = true /\ truthy_js (lb_password b) = true
        /\ ((exists e, User.findOne_cast phone (users s) = Throw e)
            \/ (exists user t sel,
                  User.findOne_cast phone (users s) = Ok (Some user)
                  /\ password = JsOther t sel)))
  /\ (status r = 500 -> r = fail 500 "Server error occurred").
Proof.
  cbv zeta.
  destruct (login_cases bcrypt env now b s)
    as [(T & ->)|(phone & password & Eb & Ep & Tb & Tp & H)].
  { cbn [fail status body]. split; [simpl; tauto|].
    split; [split; discriminate|]. split; [|split; [|discriminate]].
    - split; [discriminate|].
      intros (ph & pw & u & E1 & T1 & E2 & N2 & _). exfalso.
      destruct T as [T|T]; [congruence|]. rewrite E2 in T. simpl in T.
      destruct (String.eqb_spec pw ""); [contradiction|discriminate].
    - split; [discriminate|].
      intros (ph & pw & _ & _ & T1 & T2 & _). destruct T; congruence. }
  destruct H as [((e & F) & ->)|[(F & ->)|(user & F & H)]].
  { cbn [fail status body]. split; [simpl; tauto|].
    split; [split; discriminate|]. split; [|split; [|reflexivity]].
    - split; [discriminate|].
      intros (ph & pw & u & E1 & _ & _ & _ & F' & _). congruence.
    - split; [intros _|reflexivity].
      exists phone, password. repeat split; try assumption. left. now exists e. }
  { cbn [fail status body]. split; [simpl; tauto|].
    split; [split; discriminate|]. split; [|split; [|discriminate]].
    - split; [discriminate|].
      intros (ph & pw & u & E1 & _ & _ & _ & F' & _). congruence.
    - split; [discriminate|].
      intros (ph & pw' & E1 & _ & _ & _ & [(e & F')|(u & t & sel & F' & _)]);
        congruence. }
  destruct H as [((t & sel & ->) & ->)|(pw & -> & [(C & ->)|(C & L)])].
  { cbn [fail status body]. split; [simpl; tauto|].
    split; [split; discriminate|]. split; [|split; [|reflexivity]].
    - split; [discriminate|].
      intros (ph & pw & u & _ & _ & E2 & _). congruence.
    - split; [intros _|reflexivity].
      exists phone, (JsOther t sel). repeat split; try assumption.
      right. now exists user, t, sel. }
  { cbn [fail status body]. split; [simpl; tauto|].
    split; [split; discriminate|]. split; [|split; [|discriminate]].
    - split; [discriminate|].
      intros (ph & pw' & u & E1 & _ & E2 & _ & F' & C' & _). congruence.
    - split; [discriminate|].
      intros (ph & pw' & E1 & E2 & _ & _ & [(e & F')|(u & t & sel & F' & E3)]);
        congruence. }
  assert (Npw : pw <> "").
  { intros ->. rewrite Ep in Tp. discriminate. }
  destruct (login_found_cases env now user)
    as [(P & L')|[(P & L')|(P & R & tok & r' & _ & L' & St & Tk & _)]];
    rewrite L' in L; injection L as L; rewrite <- L.
  1,2: cbn [fail status body]; (split; [simpl; tauto|]);
       (split; [split; discriminate|]); (split; [|split; [|discriminate]]);
       [split; [discriminate|];
        intros (ph & pw' & u & E1 & _ & _ & _ & F' & _ & P' & R');
        congruence
       |split; [discriminate|];
        intros (ph & pw' & E1 & E2 & _ & _ & [(e & F')|(u & t & sel & F' & E3)]);
        congruence].
  rewrite St. split; [simpl; tauto|].
  split.
  { split; [reflexivity|]. intros _. now apply (login_found_token env now user). }
  split; [|split; [|discriminate]].
  - split; [intros _|reflexivity].
    exists phone, pw, user. repeat split; assumption.
  - split; [discriminate|].
    intros (ph & pw' & E1 & E2 & _ & _ & [(e & F')|(u & t & sel & F' & E3)]);
      congruence.
Qed.

Lemma login_outcomes_witness :
  status (login Sample.bcrypt Sample.env 5000 Sample.asha_login Sample.store)
    = 200
  /\ status (login Sample.bcrypt Sample.env 5000 Sample.binu_number_login
               Sample.store) = 500.
Proof.
  split.
  - apply (login_outcomes Sample.bcrypt Sample.env 5000 Sample.asha_login
             Sample.store).
    exists (JsStr "9876543210"), "secret1", Sample.asha.
    repeat split; try reflexivity; discriminate.
  - apply (login_outcomes Sample.bcrypt Sample.env 5000
             Sample.binu_number_login Sample.store).
    exists (JsStr "9123456780"), Sample.number_123456.
    repeat split; try reflexivity.
    right. exists Sample.binu. eexists. eexists. split; reflexivity.
Defined.
